(** * A blog backend: request handlers over a document store

    Shallow embedding of [src/src/app.ts]: the two schemas ([userSchema],
    [postSchema]), the storage calls the handlers make on the [User] and
    [Post] models, and the ten request handlers.

    Conventions of the embedding
    - a JavaScript string is a [string] whose characters are code units
      below 256;
    - [req.body] is [undefined] when no body was parsed, and otherwise the
      JSON object that [express.json()] parsed, a finite map from field
      names to values; the values are those the request types [UserType]
      and [PostType] mention, strings and booleans;
    - a collection is a finite map from [_id] to the stored document, so
      that the uniqueness of [_id] inside a collection is structural;
    - the generated [_id] and the current time are inputs of a request
      ([Env]): the handlers do not compute them;
    - a handler runs in the monad [M]: it threads the database, records
      every storage call it makes, and may throw; the [try]/[catch] of
      every handler is [handle];
    - the storage calls are those of the object-document mapper the source
      imports; what they do to a document follows the options the two
      schemas declare ([required], [trim], [match], [unique], [select],
      [minlength], [default], [timestamps], [ref]). *)

From Stdlib Require Import String Ascii List NArith Bool Lia.
From stdpp Require Import base option gmap strings list fin_maps.

Local Open Scope string_scope.

(** ** JavaScript strings *)

Module JS.

(** White space as [String.prototype.trim] and the class [\s] of regular
    expressions see it, for code units below 256. *)
Definition is_ws (c : ascii) : bool :=
  let n := N_of_ascii c in
  (n =? 9)%N || (n =? 10)%N || (n =? 11)%N || (n =? 12)%N || (n =? 13)%N
  || (n =? 32)%N || (n =? 160)%N.

Fixpoint trim_start (l : list ascii) : list ascii :=
  match l with
  | [] => []
  | c :: r => if is_ws c then trim_start r else l
  end.

Definition trim_chars (l : list ascii) : list ascii :=
  rev (trim_start (rev (trim_start l))).

(** [s.trim()] *)
Definition trim (s : string) : string :=
  string_of_list_ascii (trim_chars (list_ascii_of_string s)).

(** [s.length] *)
Definition length (s : string) : nat := String.length s.

(** Regular expressions, matched by derivatives. *)
Inductive regex : Type :=
| RNone
| REps
| RClass (p : ascii → bool)
| RCat (r1 r2 : regex)
| RAlt (r1 r2 : regex)
| RStar (r : regex).

Definition RPlus (r : regex) : regex := RCat r (RStar r).

Fixpoint nullable (r : regex) : bool :=
  match r with
  | RNone => false
  | REps => true
  | RClass _ => false
  | RCat r1 r2 => nullable r1 && nullable r2
  | RAlt r1 r2 => nullable r1 || nullable r2
  | RStar _ => true
  end.

Fixpoint deriv (c : ascii) (r : regex) : regex :=
  match r with
  | RNone => RNone
  | REps => RNone
  | RClass p => if p c then REps else RNone
  | RCat r1 r2 =>
      if nullable r1
      then RAlt (RCat (deriv c r1) r2) (deriv c r2)
      else RCat (deriv c r1) r2
  | RAlt r1 r2 => RAlt (deriv c r1) (deriv c r2)
  | RStar r1 => RCat (deriv c r1) (RStar r1)
  end.

(** [/^r$/.test(s)] *)
Fixpoint test (r : regex) (s : string) : bool :=
  match s with
  | EmptyString => nullable r
  | String c s' => test (deriv c r) s'
  end.

Definition not_ws (c : ascii) : bool := negb (is_ws c).
Definition chr (a : ascii) (c : ascii) : bool := bool_decide (a = c).

(** Truthiness of a string: [!s] is [true] exactly for the empty string. *)
Definition truthy_string (s : string) : bool :=
  match s with EmptyString => false | String _ _ => true end.

End JS.

(** ** Object ids *)

(** An [ObjectId] is twelve bytes, here the number they spell. *)
Abbreviation ObjectId := N (only parsing).

Definition hex_digit (c : ascii) : option N :=
  let n := N_of_ascii c in
  if (48 <=? n)%N && (n <=? 57)%N then Some (n - 48)%N
  else if (97 <=? n)%N && (n <=? 102)%N then Some (n - 87)%N
  else if (65 <=? n)%N && (n <=? 70)%N then Some (n - 55)%N
  else None.

Fixpoint hex_value (acc : N) (s : string) : option N :=
  match s with
  | EmptyString => Some acc
  | String c r =>
      match hex_digit c with
      | Some d => hex_value (16 * acc + d)%N r
      | None => None
      end
  end.

(** The cast of a string to an [ObjectId]: twenty-four hexadecimal digits,
    in either case; every other string is malformed. *)
Definition castObjectId (s : string) : option ObjectId :=
  if Nat.eqb (String.length s) 24 then hex_value 0%N s else None.

(** ** Values of a request *)

(** What a handler reads from [req.body]: a property that is absent reads
    as [undefined]. *)
Inductive JsVal : Type :=
| JsUndefined
| JsString (s : string)
| JsBoolean (b : bool).

Global Instance JsVal_eq_dec : EqDecision JsVal.
Proof. solve_decision. Defined.

(** [!v] is [negb (truthy v)]. *)
Definition truthy (v : JsVal) : bool :=
  match v with
  | JsUndefined => false
  | JsString s => JS.truthy_string s
  | JsBoolean b => b
  end.

(** [const { k } = body] *)
Definition field (body : gmap string JsVal) (k : string) : JsVal :=
  default JsUndefined (body !! k).

Record Request : Type := {
  req_id : string;                         (* req.params.id *)
  req_body : option (gmap string JsVal)    (* req.body, [None] when undefined *)
}.

(** The fields a request gives: those of its body, none when it has no
    body. *)
Definition body_of (req : Request) : gmap string JsVal :=
  default ∅ (req_body req).

(** What a request gets from outside the program: the time, and the [_id]
    the driver generates for a new document. *)
Record Env : Type := {
  env_now : N;
  env_oid : N
}.

(** ** Casts of the schema types *)

(** Schema type [String]: [undefined] stays, a boolean is spelled out. *)
Definition castString (v : JsVal) : option string :=
  match v with
  | JsUndefined => None
  | JsString s => Some s
  | JsBoolean true => Some "true"
  | JsBoolean false => Some "false"
  end.

Inductive Cast (A : Type) : Type :=
| CastTo (a : A)
| CastAbsent
| CastFailed.
Arguments CastTo {A} a.
Arguments CastAbsent {A}.
Arguments CastFailed {A}.

(** Schema type [Boolean]. *)
Definition castBoolean (v : JsVal) : Cast bool :=
  match v with
  | JsUndefined => CastAbsent
  | JsBoolean b => CastTo b
  | JsString s =>
      if bool_decide (s ∈ ["true"; "1"; "yes"]) then CastTo true
      else if bool_decide (s ∈ ["false"; "0"; "no"]) then CastTo false
      else CastFailed
  end.

(** Schema type [ObjectId]. *)
Definition castRef (v : JsVal) : Cast N :=
  match v with
  | JsUndefined => CastAbsent
  | JsString s =>
      match castObjectId s with Some i => CastTo i | None => CastFailed end
  | JsBoolean _ => CastFailed
  end.

(** The setter of [trim: true], run after the cast. *)
Definition castTrimmed (v : JsVal) : option string := JS.trim <$> castString v.

(** ** Stored documents *)

Record UserDoc : Type := {
  u_firstName : string;
  u_lastName : string;
  u_email : string;
  u_password : string;
  u_isActive : bool;
  u_createdAt : N;
  u_updatedAt : N
}.

Record PostDoc : Type := {
  p_title : string;
  p_content : string;
  p_userId : N;
  p_createdAt : N;
  p_updatedAt : N
}.

Global Instance UserDoc_eq_dec : EqDecision UserDoc.
Proof. solve_decision. Defined.
Global Instance PostDoc_eq_dec : EqDecision PostDoc.
Proof. solve_decision. Defined.

(** The database [blog]: the collections of the two models, keyed by [_id]. *)
Record Db : Type := {
  users : gmap N UserDoc;
  posts : gmap N PostDoc
}.

Definition set_users (m : gmap N UserDoc) (db : Db) : Db :=
  {| users := m; posts := posts db |}.
Definition set_posts (m : gmap N PostDoc) (db : Db) : Db :=
  {| users := users db; posts := m |}.

(** ** Documents as a handler holds them and as [res.json] writes them *)

(** A [User] document in memory. A path that was not selected by the query
    is [None]. *)
Record UserObj : Type := {
  uo_id : N;
  uo_firstName : option string;
  uo_lastName : option string;
  uo_email : option string;
  uo_password : option string;
  uo_isActive : bool;
  uo_createdAt : N;
  uo_updatedAt : N
}.

(** The value of the path [userId] of a [Post] in memory: the raw id, or
    what [populate] put in its place. *)
Inductive Ref : Type :=
| RefId (i : N)
| RefNull
| RefUser (i : N) (firstName lastName email : string).

Record PostObj : Type := {
  po_id : N;
  po_title : option string;
  po_content : option string;
  po_userId : option Ref;
  po_createdAt : N;
  po_updatedAt : N
}.

Global Instance Ref_eq_dec : EqDecision Ref.
Proof. solve_decision. Defined.
Global Instance UserObj_eq_dec : EqDecision UserObj.
Proof. solve_decision. Defined.
Global Instance PostObj_eq_dec : EqDecision PostObj.
Proof. solve_decision. Defined.

(** ** Errors of the storage layer *)

Inductive PathError : Type :=
| PathMessage (msg : string)   (* a validator of the schema, with its message *)
| PathCast.                    (* the value could not be cast to the path's type *)

Inductive Error : Type :=
| ValidationError (model : string) (errors : list (string * PathError))
| CastError (kind : string) (value : string) (path : string)
| DuplicateKey (index : string)
| DocumentNotFound (id : N)
| TypeError (property : string).   (* a property read off [undefined] *)

Global Instance PathError_eq_dec : EqDecision PathError.
Proof. solve_decision. Defined.
Global Instance Error_eq_dec : EqDecision Error.
Proof. solve_decision. Defined.

(** ** Responses *)

Inductive Json : Type :=
| JsonError (msg : string)       (* { error: msg } *)
| JsonMessage (msg : string)     (* { message: msg } *)
| JsonFailure (e : Error)        (* { message: error.message } *)
| JsonUser (u : UserObj)
| JsonUsers (us : list UserObj)
| JsonPost (p : PostObj)
| JsonPosts (ps : list PostObj).

Record Response : Type := {
  status : nat;
  json : Json
}.

(** [res.json(b)] and [res.status(n).json(b)] *)
Definition res_json (b : Json) : Response := {| status := 200; json := b |}.
Definition res_status_json (n : nat) (b : Json) : Response := {| status := n; json := b |}.

(** ** Storage calls and the handler monad *)

Inductive Model : Type := User | Post.

Inductive Call : Type :=
| CallFind (m : Model)
| CallFindOne (m : Model) (filter : JsVal)
| CallFindById (m : Model) (id : string)
| CallFindByIdAndDelete (m : Model) (id : string)
| CallCreate (m : Model)
| CallSave (m : Model) (id : N)
| CallPopulate.

Global Instance Model_eq_dec : EqDecision Model.
Proof. solve_decision. Defined.
Global Instance Call_eq_dec : EqDecision Call.
Proof. solve_decision. Defined.

Record Result (A : Type) : Type := {
  final : Db;                 (* the database afterwards *)
  calls : list Call;          (* the storage calls made, in order *)
  value : Error + A           (* thrown, or returned *)
}.
Arguments final {A} r.
Arguments calls {A} r.
Arguments value {A} r.

Definition M (A : Type) : Type := Db → Result A.

Global Instance M_ret : MRet M := λ A a db,
  {| final := db; calls := []; value := inr a |}.

Global Instance M_bind : MBind M := λ A B f m db,
  match m db with
  | {| final := db1; calls := c1; value := inl e |} =>
      {| final := db1; calls := c1; value := inl e |}
  | {| final := db1; calls := c1; value := inr a |} =>
      match f a db1 with
      | {| final := db2; calls := c2; value := v |} =>
          {| final := db2; calls := c1 ++ c2; value := v |}
      end
  end.

Definition throw {A} (e : Error) : M A := λ db,
  {| final := db; calls := []; value := inl e |}.
Definition call (c : Call) : M unit := λ db,
  {| final := db; calls := [c]; value := inr tt |}.
Definition read : M Db := λ db,
  {| final := db; calls := []; value := inr db |}.
Definition write (db' : Db) : M unit := λ _,
  {| final := db'; calls := []; value := inr tt |}.

(** [try { ... } catch (error) { res.status(500).json({ message: error.message }) }]:
    everything the storage layer throws is an [Error]. *)
Definition handle (m : M Response) : M Response := λ db,
  match m db with
  | {| final := db1; calls := c1; value := inl e |} =>
      {| final := db1; calls := c1;
         value := inr (res_status_json 500 (JsonFailure e)) |}
  | r => r
  end.

(** [const { property, ... } = body]: reading the properties of a body that
    is [undefined] throws. *)
Definition destructure (property : string) (body : option (gmap string JsVal))
  : M (gmap string JsVal) :=
  match body with
  | Some b => mret b
  | None => throw (TypeError property)
  end.

(** ** The schemas *)

Module Schema.

(** [/^\S+@\S+\.\S+$/] *)
Definition email_pattern : JS.regex :=
  JS.RCat (JS.RPlus (JS.RClass JS.not_ws))
    (JS.RCat (JS.RClass (JS.chr "@"))
       (JS.RCat (JS.RPlus (JS.RClass JS.not_ws))
          (JS.RCat (JS.RClass (JS.chr "."))
             (JS.RPlus (JS.RClass JS.not_ws))))).

(** [required: [true, msg]] on a string path: absent and empty both fail. *)
Definition required (msg : string) (v : option string) : option PathError :=
  match v with
  | Some (String _ _) => None
  | _ => Some (PathMessage msg)
  end.

(** [match: [r, msg]]: an absent or empty value passes. *)
Definition matches (r : JS.regex) (msg : string) (v : option string) : option PathError :=
  match v with
  | Some (String _ _ as s) => if JS.test r s then None else Some (PathMessage msg)
  | _ => None
  end.

(** [minlength: [n, msg]] *)
Definition minlength (n : nat) (msg : string) (v : option string) : option PathError :=
  match v with
  | Some s => if Nat.leb n (JS.length s) then None else Some (PathMessage msg)
  | None => None
  end.

(** A cast that failed when the path was set. *)
Definition cast_ok {A} (c : Cast A) : option PathError :=
  match c with CastFailed => Some PathCast | _ => None end.

(** [required: [true, msg]] on a path that is not a string. *)
Definition required_cast {A} (msg : string) (c : Cast A) : option PathError :=
  match c with CastAbsent => Some (PathMessage msg) | _ => None end.

(** The validators of a path run in order, and the first that fails is the
    error of the path. *)
Fixpoint path_errors (path : string) (checks : list (option PathError))
  : list (string * PathError) :=
  match checks with
  | [] => []
  | Some e :: _ => [(path, e)]
  | None :: rest => path_errors path rest
  end.

(** [userSchema]. The path [password] is validated only where it is
    selected or was set; a query never selects it ([select: false]). A cast
    that failed is reported when the path is set, before any validator
    runs: its error comes first. *)
Definition user_errors (with_password : bool)
    (firstName lastName email password : option string) (isActive : Cast bool)
  : list (string * PathError) :=
  path_errors "isActive" [cast_ok isActive]
  ++ path_errors "firstName" [required "First name is required" firstName]
  ++ path_errors "lastName" [required "Last name is required" lastName]
  ++ path_errors "email"
       [required "Email is required" email;
        matches email_pattern "Email is not valid" email]
  ++ (if with_password
      then path_errors "password"
             [required "Password is required" password;
              minlength 6 "Password must be at least 6 characters long" password]
      else []).

(** [postSchema]; the error of a failed cast comes first here too. *)
Definition post_errors (title content : option string) (userId : Cast N)
  : list (string * PathError) :=
  path_errors "userId" [cast_ok userId]
  ++ path_errors "title" [required "Title is required" title]
  ++ path_errors "content" [required "Content is required" content]
  ++ path_errors "userId" [required_cast "User ID is required" userId].

End Schema.

(** ** Documents under modification *)

(** A document a handler loaded and assigns to: the paths whose value
    changed, and the casts that failed. [save] reads both. *)
Record Tracked (A : Type) : Type := {
  doc : A;
  modified : list string;
  invalid : list (string * PathError)
}.
Arguments doc {A} t.
Arguments modified {A} t.
Arguments invalid {A} t.

Definition loaded {A} (a : A) : Tracked A :=
  {| doc := a; modified := []; invalid := [] |}.

Definition with_firstName (x : option string) (o : UserObj) : UserObj :=
  {| uo_id := uo_id o; uo_firstName := x; uo_lastName := uo_lastName o;
     uo_email := uo_email o; uo_password := uo_password o;
     uo_isActive := uo_isActive o; uo_createdAt := uo_createdAt o;
     uo_updatedAt := uo_updatedAt o |}.
Definition with_lastName (x : option string) (o : UserObj) : UserObj :=
  {| uo_id := uo_id o; uo_firstName := uo_firstName o; uo_lastName := x;
     uo_email := uo_email o; uo_password := uo_password o;
     uo_isActive := uo_isActive o; uo_createdAt := uo_createdAt o;
     uo_updatedAt := uo_updatedAt o |}.
Definition with_email (x : option string) (o : UserObj) : UserObj :=
  {| uo_id := uo_id o; uo_firstName := uo_firstName o; uo_lastName := uo_lastName o;
     uo_email := x; uo_password := uo_password o;
     uo_isActive := uo_isActive o; uo_createdAt := uo_createdAt o;
     uo_updatedAt := uo_updatedAt o |}.
Definition with_user_updatedAt (t : N) (o : UserObj) : UserObj :=
  {| uo_id := uo_id o; uo_firstName := uo_firstName o; uo_lastName := uo_lastName o;
     uo_email := uo_email o; uo_password := uo_password o;
     uo_isActive := uo_isActive o; uo_createdAt := uo_createdAt o;
     uo_updatedAt := t |}.

Definition with_title (x : option string) (o : PostObj) : PostObj :=
  {| po_id := po_id o; po_title := x; po_content := po_content o;
     po_userId := po_userId o; po_createdAt := po_createdAt o;
     po_updatedAt := po_updatedAt o |}.
Definition with_content (x : option string) (o : PostObj) : PostObj :=
  {| po_id := po_id o; po_title := po_title o; po_content := x;
     po_userId := po_userId o; po_createdAt := po_createdAt o;
     po_updatedAt := po_updatedAt o |}.
Definition with_userId (x : option Ref) (o : PostObj) : PostObj :=
  {| po_id := po_id o; po_title := po_title o; po_content := po_content o;
     po_userId := x; po_createdAt := po_createdAt o;
     po_updatedAt := po_updatedAt o |}.
Definition with_post_updatedAt (t : N) (o : PostObj) : PostObj :=
  {| po_id := po_id o; po_title := po_title o; po_content := po_content o;
     po_userId := po_userId o; po_createdAt := po_createdAt o;
     po_updatedAt := t |}.

(** [d.path = v] on a string path: the value is cast and trimmed, and the
    path is marked modified when the value differs from the one held. *)
Definition assign {A} (path : string) (get : A → option string)
    (set : option string → A → A) (v : JsVal) (t : Tracked A) : Tracked A :=
  let x := castTrimmed v in
  if decide (get (doc t) = x) then t
  else {| doc := set x (doc t); modified := path :: modified t; invalid := invalid t |}.

(** [post.userId = v]: a value that cannot be cast leaves the path as it is
    and is reported by the next validation. *)
Definition assign_userId (v : JsVal) (t : Tracked PostObj) : Tracked PostObj :=
  match castRef v with
  | CastFailed =>
      {| doc := doc t; modified := modified t;
         invalid := invalid t ++ [("userId", PathCast)] |}
  | c =>
      let x := match c with CastTo i => Some (RefId i) | _ => None end in
      if decide (po_userId (doc t) = x) then t
      else {| doc := with_userId x (doc t); modified := "userId" :: modified t;
              invalid := invalid t |}
  end.

(** ** The storage calls of the [User] model *)

(** A [User] as a query returns it: [password] has [select: false]. *)
Definition loaded_user (i : N) (u : UserDoc) : UserObj :=
  {| uo_id := i;
     uo_firstName := Some (u_firstName u);
     uo_lastName := Some (u_lastName u);
     uo_email := Some (u_email u);
     uo_password := None;
     uo_isActive := u_isActive u;
     uo_createdAt := u_createdAt u;
     uo_updatedAt := u_updatedAt u |}.

(** The cast of the [_id] of a query filter; a malformed id throws. *)
Definition castId (id : string) : M N :=
  match castObjectId id with
  | Some i => mret i
  | None => throw (CastError "ObjectId" id "_id")
  end.

(** No stored user other than [self] has the email [e] (the unique index). *)
Definition email_free (e : string) (self : option N) (m : gmap N UserDoc) : Prop :=
  map_Forall (λ j u, Some j = self ∨ u_email u ≠ e) m.

Global Instance email_free_dec e self m : Decision (email_free e self m).
Proof. unfold email_free. apply _. Defined.

(** [User.find()] *)
Definition User_find : M (list UserObj) :=
  call (CallFind User);;
  db ← read;
  mret ((λ iu, loaded_user iu.1 iu.2) <$> map_to_list (users db)).

(** The first stored user a filter [{ email }] matches; the filter is cast
    and trimmed as the path is. *)
Definition matching_user (db : Db) (email : JsVal) : option UserObj :=
  match castTrimmed email with
  | None => None
  | Some e =>
      head ((λ iu, loaded_user iu.1 iu.2) <$>
            map_to_list (filter (λ iu, u_email iu.2 = e) (users db)))
  end.

(** [User.findOne({ email })] *)
Definition User_findOne (email : JsVal) : M (option UserObj) :=
  call (CallFindOne User email);;
  db ← read;
  mret (matching_user db email).

(** [User.findById(id)] *)
Definition User_findById (id : string) : M (option UserObj) :=
  call (CallFindById User id);;
  i ← castId id;
  db ← read;
  mret (loaded_user i <$> users db !! i).

(** [User.findByIdAndDelete(id)] *)
Definition User_findByIdAndDelete (id : string) : M (option UserObj) :=
  call (CallFindByIdAndDelete User id);;
  i ← castId id;
  db ← read;
  match users db !! i with
  | None => mret None
  | Some u =>
      write (set_users (delete i (users db)) db);;
      mret (Some (loaded_user i u))
  end.

(** The document [User.create] builds from its argument: casts, setters,
    the default of [isActive], the timestamps, then the validators. *)
Definition new_user (env : Env) (firstName lastName email password isActive : JsVal)
  : list (string * PathError) + UserDoc :=
  let fn := castTrimmed firstName in
  let ln := castTrimmed lastName in
  let em := castTrimmed email in
  let pw := castString password in
  let ia := castBoolean isActive in
  match Schema.user_errors true fn ln em pw ia, fn, ln, em, pw with
  | [], Some f, Some l, Some e, Some p =>
      inr {| u_firstName := f; u_lastName := l; u_email := e; u_password := p;
             u_isActive := match ia with CastTo b => b | _ => true end;
             u_createdAt := env_now env; u_updatedAt := env_now env |}
  | errs, _, _, _, _ => inl errs
  end.

(** [User.create({ firstName, lastName, email, password, isActive })]. The
    document returned is the one built, so it holds the password. *)
Definition User_create (env : Env) (firstName lastName email password isActive : JsVal)
  : M UserObj :=
  call (CallCreate User);;
  match new_user env firstName lastName email password isActive with
  | inl errs => throw (ValidationError "User" errs)
  | inr u =>
      db ← read;
      if decide (is_Some (users db !! env_oid env)) then throw (DuplicateKey "_id_")
      else if decide (email_free (u_email u) None (users db)) then
        write (set_users (<[env_oid env := u]> (users db)) db);;
        mret {| uo_id := env_oid env;
                uo_firstName := Some (u_firstName u);
                uo_lastName := Some (u_lastName u);
                uo_email := Some (u_email u);
                uo_password := Some (u_password u);
                uo_isActive := u_isActive u;
                uo_createdAt := u_createdAt u;
                uo_updatedAt := u_updatedAt u |}
      else throw (DuplicateKey "email_1")
  end.

(** What [user.save()] writes: the modified paths and [updatedAt]. *)
Definition saved_user (now : N) (t : Tracked UserObj) (u : UserDoc) : UserDoc :=
  let o := doc t in
  let pick path (new : option string) (old : string) :=
    if decide (path ∈ modified t) then default old new else old in
  {| u_firstName := pick "firstName" (uo_firstName o) (u_firstName u);
     u_lastName := pick "lastName" (uo_lastName o) (u_lastName u);
     u_email := pick "email" (uo_email o) (u_email u);
     u_password := pick "password" (uo_password o) (u_password u);
     u_isActive := u_isActive u;
     u_createdAt := u_createdAt u;
     u_updatedAt := now |}.

(** [user.save()] on a loaded document: validation, then, when a path was
    modified, one update of the stored document; the unique index is looked
    at when the update sets [email]. *)
Definition user_save (env : Env) (t : Tracked UserObj) : M UserObj :=
  let o := doc t in
  call (CallSave User (uo_id o));;
  match (invalid t ++
         Schema.user_errors (bool_decide (is_Some (uo_password o)))
           (uo_firstName o) (uo_lastName o) (uo_email o) (uo_password o)
           (CastTo (uo_isActive o)))%list with
  | (_ :: _) as errs => throw (ValidationError "User" errs)
  | [] =>
      match modified t with
      | [] => mret o
      | _ :: _ =>
          db ← read;
          match users db !! uo_id o with
          | None => throw (DocumentNotFound (uo_id o))
          | Some u =>
              let u' := saved_user (env_now env) t u in
              if decide ("email" ∉ modified t
                         ∨ email_free (u_email u') (Some (uo_id o)) (users db)) then
                write (set_users (<[uo_id o := u']> (users db)) db);;
                mret (with_user_updatedAt (env_now env) o)
              else throw (DuplicateKey "email_1")
          end
      end
  end.

(** ** The storage calls of the [Post] model *)

Definition loaded_post (i : N) (p : PostDoc) : PostObj :=
  {| po_id := i;
     po_title := Some (p_title p);
     po_content := Some (p_content p);
     po_userId := Some (RefId (p_userId p));
     po_createdAt := p_createdAt p;
     po_updatedAt := p_updatedAt p |}.

(** [populate('userId', 'firstName lastName email')] on one reference: the
    selected paths of the user it names, or [null] when there is none. *)
Definition populate_ref (db : Db) (r : option Ref) : option Ref :=
  match r with
  | Some (RefId i) =>
      Some match users db !! i with
           | Some u => RefUser i (u_firstName u) (u_lastName u) (u_email u)
           | None => RefNull
           end
  | _ => r
  end.

Definition populated (db : Db) (o : PostObj) : PostObj :=
  with_userId (populate_ref db (po_userId o)) o.

(** [Post.find().populate('userId', 'firstName lastName email').lean()] *)
Definition Post_find_populate : M (list PostObj) :=
  call (CallFind Post);;
  call CallPopulate;;
  db ← read;
  mret ((λ ip, populated db (loaded_post ip.1 ip.2)) <$> map_to_list (posts db)).

(** [Post.findById(id)] *)
Definition Post_findById (id : string) : M (option PostObj) :=
  call (CallFindById Post id);;
  i ← castId id;
  db ← read;
  mret (loaded_post i <$> posts db !! i).

(** [Post.findById(id).populate('userId', 'firstName lastName email')] *)
Definition Post_findById_populate (id : string) : M (option PostObj) :=
  call (CallFindById Post id);;
  call CallPopulate;;
  i ← castId id;
  db ← read;
  mret (populated db <$> (loaded_post i <$> posts db !! i)).

(** [Post.findByIdAndDelete(id)] *)
Definition Post_findByIdAndDelete (id : string) : M (option PostObj) :=
  call (CallFindByIdAndDelete Post id);;
  i ← castId id;
  db ← read;
  match posts db !! i with
  | None => mret None
  | Some p =>
      write (set_posts (delete i (posts db)) db);;
      mret (Some (loaded_post i p))
  end.

Definition new_post (env : Env) (title content userId : JsVal)
  : list (string * PathError) + PostDoc :=
  let ti := castTrimmed title in
  let co := castTrimmed content in
  let ui := castRef userId in
  match Schema.post_errors ti co ui, ti, co, ui with
  | [], Some t, Some c, CastTo i =>
      inr {| p_title := t; p_content := c; p_userId := i;
             p_createdAt := env_now env; p_updatedAt := env_now env |}
  | errs, _, _, _ => inl errs
  end.

(** [Post.create({ title, content, userId })]: nothing looks the user up. *)
Definition Post_create (env : Env) (title content userId : JsVal) : M PostObj :=
  call (CallCreate Post);;
  match new_post env title content userId with
  | inl errs => throw (ValidationError "Post" errs)
  | inr p =>
      db ← read;
      if decide (is_Some (posts db !! env_oid env)) then throw (DuplicateKey "_id_")
      else
        write (set_posts (<[env_oid env := p]> (posts db)) db);;
        mret (loaded_post (env_oid env) p)
  end.

(** [post.populate('userId', 'firstName lastName email')] *)
Definition post_populate (o : PostObj) : M PostObj :=
  call CallPopulate;;
  db ← read;
  mret (populated db o).

Definition ref_id (r : option Ref) (old : N) : N :=
  match r with
  | Some (RefId i) | Some (RefUser i _ _ _) => i
  | _ => old
  end.

Definition ref_cast (t : Tracked PostObj) : Cast N :=
  if decide (("userId", PathCast) ∈ invalid t) then CastFailed
  else match po_userId (doc t) with
       | Some (RefId i) | Some (RefUser i _ _ _) => CastTo i
       | _ => CastAbsent
       end.

Definition saved_post (now : N) (t : Tracked PostObj) (p : PostDoc) : PostDoc :=
  let o := doc t in
  let pick path (new : option string) (old : string) :=
    if decide (path ∈ modified t) then default old new else old in
  {| p_title := pick "title" (po_title o) (p_title p);
     p_content := pick "content" (po_content o) (p_content p);
     p_userId := if decide ("userId" ∈ modified t)
                 then ref_id (po_userId o) (p_userId p) else p_userId p;
     p_createdAt := p_createdAt p;
     p_updatedAt := now |}.

(** [post.save()] on a loaded document *)
Definition post_save (env : Env) (t : Tracked PostObj) : M PostObj :=
  let o := doc t in
  call (CallSave Post (po_id o));;
  match Schema.post_errors (po_title o) (po_content o) (ref_cast t) with
  | (_ :: _) as errs => throw (ValidationError "Post" errs)
  | [] =>
      match modified t with
      | [] => mret o
      | _ :: _ =>
          db ← read;
          match posts db !! po_id o with
          | None => throw (DocumentNotFound (po_id o))
          | Some p =>
              write (set_posts (<[po_id o := saved_post (env_now env) t p]> (posts db)) db);;
              mret (with_post_updatedAt (env_now env) o)
          end
      end
  end.

(** ** The request handlers *)

Definition getUsers (req : Request) : M Response :=
  handle (
    users ← User_find;
    mret (res_json (JsonUsers users))).

Definition createUser (env : Env) (req : Request) : M Response :=
  handle (
    body ← destructure "firstName" (req_body req);
    let firstName := field body "firstName" in
    let lastName := field body "lastName" in
    let email := field body "email" in
    let password := field body "password" in
    let isActive := field body "isActive" in
    if negb (truthy firstName) || negb (truthy lastName)
       || negb (truthy email) || negb (truthy password)
    then mret (res_status_json 400
                 (JsonError "firstName, lastName, email, and password are required"))
    else
      found ← User_findOne email;
      if found is Some _
      then mret (res_status_json 400 (JsonError "User already exists"))
      else
        user ← User_create env firstName lastName email password isActive;
        mret (res_json (JsonUser user))).

Definition getUserById (req : Request) : M Response :=
  handle (
    let id := req_id req in
    user ← User_findById id;
    match user with
    | None => mret (res_status_json 404 (JsonError "User not found"))
    | Some user => mret (res_json (JsonUser user))
    end).

Definition updateUser (env : Env) (req : Request) : M Response :=
  handle (
    let body := req_body req in
    let id := req_id req in
    body ← destructure "firstName" body;
    let firstName := field body "firstName" in
    let lastName := field body "lastName" in
    let email := field body "email" in
    if negb (truthy firstName) || negb (truthy lastName) || negb (truthy email)
    then mret (res_status_json 400
                 (JsonError "firstName, lastName, and email are required"))
    else
      user ← User_findById id;
      match user with
      | None => mret (res_status_json 404 (JsonError "User not found"))
      | Some user =>
          let user := loaded user in
          let user := assign "firstName" uo_firstName with_firstName firstName user in
          let user := assign "lastName" uo_lastName with_lastName lastName user in
          let user := assign "email" uo_email with_email email user in
          user ← user_save env user;
          mret (res_json (JsonUser user))
      end).

Definition deleteUser (req : Request) : M Response :=
  handle (
    let id := req_id req in
    user ← User_findByIdAndDelete id;
    match user with
    | None => mret (res_status_json 404 (JsonError "User not found"))
    | Some _ => mret (res_json (JsonMessage "User deleted"))
    end).

Definition getPosts (req : Request) : M Response :=
  handle (
    posts ← Post_find_populate;
    mret (res_json (JsonPosts posts))).

Definition createPost (env : Env) (req : Request) : M Response :=
  handle (
    body ← destructure "title" (req_body req);
    let title := field body "title" in
    let content := field body "content" in
    let userId := field body "userId" in
    if negb (truthy title) || negb (truthy content) || negb (truthy userId)
    then mret (res_status_json 400 (JsonError "title, content, and userId are required"))
    else
      post ← Post_create env title content userId;
      populatedPost ← post_populate post;
      mret (res_json (JsonPost populatedPost))).

Definition getPostById (req : Request) : M Response :=
  handle (
    let id := req_id req in
    post ← Post_findById_populate id;
    match post with
    | None => mret (res_status_json 404 (JsonError "Post not found"))
    | Some post => mret (res_json (JsonPost post))
    end).

Definition updatePost (env : Env) (req : Request) : M Response :=
  handle (
    body ← destructure "title" (req_body req);
    let title := field body "title" in
    let content := field body "content" in
    let userId := field body "userId" in
    let id := req_id req in
    if negb (truthy title) || negb (truthy content) || negb (truthy userId)
    then mret (res_status_json 400 (JsonError "title, content, and userId are required"))
    else
      post ← Post_findById id;
      match post with
      | None => mret (res_status_json 404 (JsonError "Post not found"))
      | Some post =>
          let post := loaded post in
          let post := assign "title" po_title with_title title post in
          let post := assign "content" po_content with_content content post in
          let post := assign_userId userId post in
          post ← post_save env post;
          populatedPost ← post_populate post;
          mret (res_json (JsonPost populatedPost))
      end).

Definition deletePost (req : Request) : M Response :=
  handle (
    let id := req_id req in
    post ← Post_findByIdAndDelete id;
    match post with
    | None => mret (res_status_json 404 (JsonError "Post not found"))
    | Some _ => mret (res_json (JsonMessage "Post deleted"))
    end).

(** A field is present in a body when the presence check of the handlers
    passes on it, that is when [!field] is [false]: the property is defined
    and its value is not the empty string (nor [false]). *)
Definition present (body : gmap string JsVal) (k : string) : Prop :=
  truthy (field body k) = true.

Global Instance present_dec body k : Decision (present body k).
Proof. unfold present. apply _. Defined.

(** The answers the handlers share. *)
Definition required_user_create : Response :=
  res_status_json 400 (JsonError "firstName, lastName, email, and password are required").
Definition required_user_update : Response :=
  res_status_json 400 (JsonError "firstName, lastName, and email are required").
Definition required_post : Response :=
  res_status_json 400 (JsonError "title, content, and userId are required").
Definition no_body (property : string) : Response :=
  res_status_json 500 (JsonFailure (TypeError property)).
Definition not_found (m : Model) : Response :=
  res_status_json 404
    (JsonError match m with User => "User not found" | Post => "Post not found" end).
Definition deleted (m : Model) : Response :=
  res_json
    (JsonMessage match m with User => "User deleted" | Post => "Post deleted" end).

(** What [populate] leaves at [userId] for a stored post. *)
Definition author (db : Db) (p : PostDoc) : Ref :=
  match users db !! p_userId p with
  | Some u => RefUser (p_userId p) (u_firstName u) (u_lastName u) (u_email u)
  | None => RefNull
  end.

(** ** What the schemas guarantee of a stored document *)

(** A stored user passes the validators of [userSchema], and its trimmed
    paths are trimmed. *)
Definition user_valid (u : UserDoc) : Prop :=
  Schema.user_errors true (Some (u_firstName u)) (Some (u_lastName u))
    (Some (u_email u)) (Some (u_password u)) (CastTo (u_isActive u)) = []
  ∧ JS.trim (u_firstName u) = u_firstName u
  ∧ JS.trim (u_lastName u) = u_lastName u
  ∧ JS.trim (u_email u) = u_email u.

Definition post_valid (p : PostDoc) : Prop :=
  Schema.post_errors (Some (p_title p)) (Some (p_content p)) (CastTo (p_userId p)) = []
  ∧ JS.trim (p_title p) = p_title p
  ∧ JS.trim (p_content p) = p_content p.

(** The unique index on [email]. *)
Definition emails_unique (m : gmap N UserDoc) : Prop :=
  ∀ i j u v, m !! i = Some u → m !! j = Some v → u_email u = u_email v → i = j.

(** The databases the handlers produce: every document is valid for its
    schema and no two users share an email. *)
Definition db_valid (db : Db) : Prop :=
  map_Forall (λ _ u, user_valid u) (users db)
  ∧ emails_unique (users db)
  ∧ map_Forall (λ _ p, post_valid p) (posts db).

(** The stored user after an update that was accepted: the three editable
    paths hold the new values, and [updatedAt] moves when one of them
    changed. *)
Definition updated_user (now : N) (f l e : string) (u : UserDoc) : UserDoc :=
  {| u_firstName := f; u_lastName := l; u_email := e;
     u_password := u_password u; u_isActive := u_isActive u;
     u_createdAt := u_createdAt u;
     u_updatedAt :=
       if decide (u_firstName u = f ∧ u_lastName u = l ∧ u_email u = e)
       then u_updatedAt u else now |}.

(** The trimmed paths of a document in memory hold trimmed strings. *)
Definition user_trimmed (o : UserObj) : Prop :=
  (∀ x, uo_firstName o = Some x → JS.trim x = x)
  ∧ (∀ x, uo_lastName o = Some x → JS.trim x = x)
  ∧ (∀ x, uo_email o = Some x → JS.trim x = x).

Definition post_trimmed (o : PostObj) : Prop :=
  (∀ x, po_title o = Some x → JS.trim x = x)
  ∧ (∀ x, po_content o = Some x → JS.trim x = x).

(** ** The words of a regular expression *)

(** What it is for a word to match a regular expression as a whole; [JS.test]
    decides it. *)
Inductive regex_matches : JS.regex → list ascii → Prop :=
| MatchEps : regex_matches JS.REps []
| MatchClass p c : p c = true → regex_matches (JS.RClass p) [c]
| MatchCat r1 r2 w1 w2 :
    regex_matches r1 w1 → regex_matches r2 w2 →
    regex_matches (JS.RCat r1 r2) (w1 ++ w2)
| MatchAltL r1 r2 w : regex_matches r1 w → regex_matches (JS.RAlt r1 r2) w
| MatchAltR r1 r2 w : regex_matches r2 w → regex_matches (JS.RAlt r1 r2) w
| MatchStarNil r : regex_matches (JS.RStar r) []
| MatchStarApp r w1 w2 :
    regex_matches r w1 → regex_matches (JS.RStar r) w2 →
    regex_matches (JS.RStar r) (w1 ++ w2).

(** ** Bodies whose fields are strings *)

(** The body gives a create-User request these four strings. *)
Definition user_body (body : gmap string JsVal) (f l e p : string) : Prop :=
  body !! "firstName" = Some (JsString f)
  ∧ body !! "lastName" = Some (JsString l)
  ∧ body !! "email" = Some (JsString e)
  ∧ body !! "password" = Some (JsString p).

(** The body gives an update-User request these three strings. *)
Definition name_body (body : gmap string JsVal) (f l e : string) : Prop :=
  body !! "firstName" = Some (JsString f)
  ∧ body !! "lastName" = Some (JsString l)
  ∧ body !! "email" = Some (JsString e).

(** The body gives a Post request these three strings. *)
Definition post_body (body : gmap string JsVal) (t c s : string) : Prop :=
  body !! "title" = Some (JsString t)
  ∧ body !! "content" = Some (JsString c)
  ∧ body !! "userId" = Some (JsString s).

(** The user [create] stores for four well-shaped strings. *)
Definition created_user (env : Env) (f l e p : string) (isActive : JsVal) : UserDoc :=
  {| u_firstName := JS.trim f; u_lastName := JS.trim l; u_email := JS.trim e;
     u_password := p;
     u_isActive := match castBoolean isActive with CastTo b => b | _ => true end;
     u_createdAt := env_now env; u_updatedAt := env_now env |}.

(** A user as [create] returns it: every path, the password too. *)
Definition full_user (i : N) (u : UserDoc) : UserObj :=
  {| uo_id := i;
     uo_firstName := Some (u_firstName u);
     uo_lastName := Some (u_lastName u);
     uo_email := Some (u_email u);
     uo_password := Some (u_password u);
     uo_isActive := u_isActive u;
     uo_createdAt := u_createdAt u;
     uo_updatedAt := u_updatedAt u |}.

(** The stored post after an update that was accepted. *)
Definition updated_post (now : N) (t c : string) (uid : N) (p : PostDoc) : PostDoc :=
  {| p_title := t; p_content := c; p_userId := uid;
     p_createdAt := p_createdAt p;
     p_updatedAt :=
       if decide (p_title p = t ∧ p_content p = c ∧ p_userId p = uid)
       then p_updatedAt p else now |}.

(** ** Sample data *)

Module Sample.

Definition ada_id : string := "65a1b2c3d4e5f60718293a4b".
Definition ada_oid : N := Eval vm_compute in default 0%N (castObjectId ada_id).
Definition other_id : string := "0123456789abcdef01234567".
Definition other_oid : N := Eval vm_compute in default 0%N (castObjectId other_id).
Definition post_id : string := "aaaaaaaaaaaaaaaaaaaaaaaa".
Definition post_oid : N := Eval vm_compute in default 0%N (castObjectId post_id).

Definition ada : UserDoc :=
  {| u_firstName := "Ada"; u_lastName := "Lovelace"; u_email := "ada@example.org";
     u_password := "analytical"; u_isActive := true;
     u_createdAt := 100; u_updatedAt := 100 |}.

Definition hello : PostDoc :=
  {| p_title := "Hello"; p_content := "First post"; p_userId := ada_oid;
     p_createdAt := 110; p_updatedAt := 110 |}.

Definition db1 : Db := {| users := {[ ada_oid := ada ]}; posts := {[ post_oid := hello ]} |}.

Definition env1 : Env := {| env_now := 200; env_oid := other_oid |}.

Definition body (l : list (string * JsVal)) : option (gmap string JsVal) :=
  Some (list_to_map l).

(** A request without a body. *)
Definition get (id : string) : Request := {| req_id := id; req_body := None |}.

(** A second user with the email of [ada]. *)
Definition req_duplicate : Request :=
  {| req_id := "";
     req_body := body [("firstName", JsString "Augusta"); ("lastName", JsString "King");
                       ("email", JsString "ada@example.org");
                       ("password", JsString "difference")] |}.

(** No password. *)
Definition req_no_password : Request :=
  {| req_id := "";
     req_body := body [("firstName", JsString "Grace"); ("lastName", JsString "Hopper");
                       ("email", JsString "grace@example.org")] |}.

(** Four fields present; the email has no [@] and the password two characters. *)
Definition req_bad_format : Request :=
  {| req_id := "";
     req_body := body [("firstName", JsString "Grace"); ("lastName", JsString "Hopper");
                       ("email", JsString "grace"); ("password", JsString "pw")] |}.

(** An update of [ada], with a field the handler does not know. *)
Definition req_update : Request :=
  {| req_id := ada_id;
     req_body := body [("firstName", JsString " Ada "); ("lastName", JsString "Byron");
                       ("email", JsString "ada@example.org");
                       ("password", JsString "overwritten?");
                       ("isActive", JsBoolean false)] |}.

(** An update of [ada] whose email does not match the pattern. *)
Definition req_update_bad_email : Request :=
  {| req_id := ada_id;
     req_body := body [("firstName", JsString "Ada"); ("lastName", JsString "Byron");
                       ("email", JsString "nope")] |}.

(** An update that names no last name, on an id nobody has. *)
Definition req_update_no_lastName : Request :=
  {| req_id := other_id;
     req_body := body [("firstName", JsString "Ada");
                       ("email", JsString "ada@example.org")] |}.

(** A post whose [userId] is well formed and names no stored user. *)
Definition req_post_dangling : Request :=
  {| req_id := "";
     req_body := body [("title", JsString "Orphan"); ("content", JsString "No author");
                       ("userId", JsString post_id)] |}.

(** A post whose [userId] is not an id. *)
Definition req_post_bad_userId : Request :=
  {| req_id := "";
     req_body := body [("title", JsString "Orphan"); ("content", JsString "No author");
                       ("userId", JsString "abc")] |}.

(** A second user, and the database with both. *)
Definition grace : UserDoc :=
  {| u_firstName := "Grace"; u_lastName := "Hopper"; u_email := "grace@example.org";
     u_password := "compiler"; u_isActive := true;
     u_createdAt := 120; u_updatedAt := 120 |}.

Definition db2 : Db := set_users (<[other_oid := grace]> (users db1)) db1.

Definition env2 : Env := {| env_now := 300; env_oid := 7 |}.

(** A well-shaped new user. *)
Definition req_create : Request :=
  {| req_id := "";
     req_body := body [("firstName", JsString " Grace"); ("lastName", JsString "Hopper");
                       ("email", JsString "grace@example.org ");
                       ("password", JsString "compiler");
                       ("isActive", JsBoolean false)] |}.

(** A create-Post request without a title, and one with the empty title. *)
Definition req_post_no_title : Request :=
  {| req_id := "";
     req_body := body [("content", JsString "No title"); ("userId", JsString ada_id)] |}.

Definition req_post_empty_title : Request :=
  {| req_id := "";
     req_body := body [("title", JsString ""); ("content", JsString "No title");
                       ("userId", JsString ada_id)] |}.

(** A create-Post request whose title is white space. *)
Definition req_post_blank_title : Request :=
  {| req_id := "";
     req_body := body [("title", JsString "  "); ("content", JsString "No title");
                       ("userId", JsString ada_id)] |}.

(** Nothing of the values is right: [isActive] is no boolean, the email has
    no [@], the password is short. *)
Definition req_bad_isActive : Request :=
  {| req_id := "";
     req_body := body [("firstName", JsString "Grace"); ("lastName", JsString "Hopper");
                       ("email", JsString "grace"); ("password", JsString "pw");
                       ("isActive", JsString "maybe")] |}.

(** A post with a blank title and a [userId] that is not an id. *)
Definition req_post_bad_both : Request :=
  {| req_id := "";
     req_body := body [("title", JsString "  "); ("content", JsString "No title");
                       ("userId", JsString "abc")] |}.

(** An update of [ada] that takes the email of [grace]. *)
Definition req_update_taken : Request :=
  {| req_id := ada_id;
     req_body := body [("firstName", JsString "Ada"); ("lastName", JsString "Lovelace");
                       ("email", JsString "grace@example.org")] |}.

(** A well-shaped update of a user, on an id that is not one. *)
Definition req_update_malformed : Request :=
  {| req_id := "42";
     req_body := body [("firstName", JsString "Ada"); ("lastName", JsString "Lovelace");
                       ("email", JsString "ada@example.org")] |}.

(** A well-shaped update of nobody. *)
Definition req_update_nobody : Request :=
  {| req_id := other_id;
     req_body := body [("firstName", JsString "Ada"); ("lastName", JsString "Lovelace");
                       ("email", JsString "ada@example.org")] |}.

(** An update of the post [hello] that gives it to a user nobody is. *)
Definition req_post_update : Request :=
  {| req_id := post_id;
     req_body := body [("title", JsString " Hello again "); ("content", JsString "First post");
                       ("userId", JsString other_id)] |}.

(** An update of the post [hello] with a blank title and a [userId] that is
    not an id. *)
Definition req_post_update_bad : Request :=
  {| req_id := post_id;
     req_body := body [("title", JsString "  "); ("content", JsString "First post");
                       ("userId", JsString "abc")] |}.

End Sample.

(** * Properties *)

(** ** Running the storage calls *)

(** Unfolds the monad, and nothing of the maps underneath. *)
Ltac run :=
  cbv [mbind M_bind mret M_ret call read write throw handle app destructure].

Section Run.

Context (db : Db).

Lemma run_castId_ok id i :
  castObjectId id = Some i →
  castId id db = {| final := db; calls := []; value := inr i |}.
Proof. intros H. unfold castId. rewrite H. reflexivity. Qed.

Lemma run_castId_fail id :
  castObjectId id = None →
  castId id db =
    {| final := db; calls := []; value := inl (CastError "ObjectId" id "_id") |}.
Proof. intros H. unfold castId. rewrite H. reflexivity. Qed.

Lemma run_User_findById id i :
  castObjectId id = Some i →
  User_findById id db =
    {| final := db; calls := [CallFindById User id];
       value := inr (loaded_user i <$> users db !! i) |}.
Proof.
  intros H. unfold User_findById. run.
  rewrite (run_castId_ok _ _ H). reflexivity.
Qed.

Lemma run_User_findById_malformed id :
  castObjectId id = None →
  User_findById id db =
    {| final := db; calls := [CallFindById User id];
       value := inl (CastError "ObjectId" id "_id") |}.
Proof.
  intros H. unfold User_findById. run.
  rewrite (run_castId_fail _ H). reflexivity.
Qed.

Lemma run_Post_findById id i :
  castObjectId id = Some i →
  Post_findById id db =
    {| final := db; calls := [CallFindById Post id];
       value := inr (loaded_post i <$> posts db !! i) |}.
Proof.
  intros H. unfold Post_findById. run.
  rewrite (run_castId_ok _ _ H). reflexivity.
Qed.

Lemma run_Post_findById_populate id i :
  castObjectId id = Some i →
  Post_findById_populate id db =
    {| final := db; calls := [CallFindById Post id; CallPopulate];
       value := inr (populated db <$> (loaded_post i <$> posts db !! i)) |}.
Proof.
  intros H. unfold Post_findById_populate. run.
  rewrite (run_castId_ok _ _ H). reflexivity.
Qed.

Lemma run_Post_findById_populate_malformed id :
  castObjectId id = None →
  Post_findById_populate id db =
    {| final := db; calls := [CallFindById Post id; CallPopulate];
       value := inl (CastError "ObjectId" id "_id") |}.
Proof.
  intros H. unfold Post_findById_populate. run.
  rewrite (run_castId_fail _ H). reflexivity.
Qed.

Lemma run_User_findByIdAndDelete id i :
  castObjectId id = Some i →
  User_findByIdAndDelete id db =
    match users db !! i with
    | Some u =>
        {| final := set_users (delete i (users db)) db;
           calls := [CallFindByIdAndDelete User id];
           value := inr (Some (loaded_user i u)) |}
    | None =>
        {| final := db; calls := [CallFindByIdAndDelete User id]; value := inr None |}
    end.
Proof.
  intros H. unfold User_findByIdAndDelete. run.
  rewrite (run_castId_ok _ _ H).
  destruct (users db !! i); reflexivity.
Qed.

Lemma run_Post_findByIdAndDelete id i :
  castObjectId id = Some i →
  Post_findByIdAndDelete id db =
    match posts db !! i with
    | Some p =>
        {| final := set_posts (delete i (posts db)) db;
           calls := [CallFindByIdAndDelete Post id];
           value := inr (Some (loaded_post i p)) |}
    | None =>
        {| final := db; calls := [CallFindByIdAndDelete Post id]; value := inr None |}
    end.
Proof.
  intros H. unfold Post_findByIdAndDelete. run.
  rewrite (run_castId_ok _ _ H).
  destruct (posts db !! i); reflexivity.
Qed.

End Run.

(** ** Reading one record *)

Lemma getUserById_run req db i :
  castObjectId (req_id req) = Some i →
  getUserById req db =
    {| final := db; calls := [CallFindById User (req_id req)];
       value := inr match users db !! i with
                    | Some u => res_json (JsonUser (loaded_user i u))
                    | None => not_found User
                    end |}.
Proof.
  intros H. unfold getUserById. run.
  rewrite (run_User_findById _ _ _ H).
  destruct (users db !! i); reflexivity.
Qed.

Lemma getPostById_run req db i :
  castObjectId (req_id req) = Some i →
  getPostById req db =
    {| final := db; calls := [CallFindById Post (req_id req); CallPopulate];
       value := inr match posts db !! i with
                    | Some p => res_json (JsonPost (populated db (loaded_post i p)))
                    | None => not_found Post
                    end |}.
Proof.
  intros H. unfold getPostById. run.
  rewrite (run_Post_findById_populate _ _ _ H).
  destruct (posts db !! i); reflexivity.
Qed.

Lemma populated_loaded db i p :
  populated db (loaded_post i p) =
    {| po_id := i; po_title := Some (p_title p); po_content := Some (p_content p);
       po_userId := Some (author db p);
       po_createdAt := p_createdAt p; po_updatedAt := p_updatedAt p |}.
Proof. reflexivity. Qed.

(** C7: a get-by-id request whose well-formed id names no stored record is
    answered 404 with [{ error: "User not found" }], respectively
    [{ error: "Post not found" }]; a stored post is returned with its
    [userId] populated. *)
Theorem get_by_id_not_found req db i :
  castObjectId (req_id req) = Some i →
  (users db !! i = None →
     value (getUserById req db)
     = inr {| status := 404; json := JsonError "User not found" |})
  ∧ (posts db !! i = None →
     value (getPostById req db)
     = inr {| status := 404; json := JsonError "Post not found" |})
  ∧ (∀ p, posts db !! i = Some p →
     value (getPostById req db)
     = inr {| status := 200;
              json := JsonPost
                {| po_id := i; po_title := Some (p_title p);
                   po_content := Some (p_content p);
                   po_userId :=
                     Some match users db !! p_userId p with
                          | Some u =>
                              RefUser (p_userId p)
                                (u_firstName u) (u_lastName u) (u_email u)
                          | None => RefNull
                          end;
                   po_createdAt := p_createdAt p;
                   po_updatedAt := p_updatedAt p |} |}).
Proof.
  intros H. split; [|split].
  - intros E. rewrite (getUserById_run _ _ _ H), E. reflexivity.
  - intros E. rewrite (getPostById_run _ _ _ H), E. reflexivity.
  - intros p E. rewrite (getPostById_run _ _ _ H), E. reflexivity.
Qed.

Lemma getUserById_run_malformed req db :
  castObjectId (req_id req) = None →
  getUserById req db =
    {| final := db; calls := [CallFindById User (req_id req)];
       value := inr (res_status_json 500
                       (JsonFailure (CastError "ObjectId" (req_id req) "_id"))) |}.
Proof.
  intros H. unfold getUserById. run.
  rewrite (run_User_findById_malformed _ _ H). reflexivity.
Qed.

Lemma getPostById_run_malformed req db :
  castObjectId (req_id req) = None →
  getPostById req db =
    {| final := db; calls := [CallFindById Post (req_id req); CallPopulate];
       value := inr (res_status_json 500
                       (JsonFailure (CastError "ObjectId" (req_id req) "_id"))) |}.
Proof.
  intros H. unfold getPostById. run.
  rewrite (run_Post_findById_populate_malformed _ _ H). reflexivity.
Qed.

(** C9: a get-by-id request with a malformed id makes the lookup throw a
    cast error, which is not the not-found signal; the handler has no case
    for it, and the catch answers 500. *)
Theorem get_by_id_malformed req db :
  castObjectId (req_id req) = None →
  getUserById req db =
    {| final := db; calls := [CallFindById User (req_id req)];
       value := inr {| status := 500;
                       json := JsonFailure (CastError "ObjectId" (req_id req) "_id") |} |}
  ∧ getPostById req db =
    {| final := db; calls := [CallFindById Post (req_id req); CallPopulate];
       value := inr {| status := 500;
                       json := JsonFailure (CastError "ObjectId" (req_id req) "_id") |} |}
  ∧ value (User_findById (req_id req) db) = inl (CastError "ObjectId" (req_id req) "_id")
  ∧ value (Post_findById_populate (req_id req) db)
    = inl (CastError "ObjectId" (req_id req) "_id").
Proof.
  intros H. repeat split.
  - by apply getUserById_run_malformed.
  - by apply getPostById_run_malformed.
  - rewrite (run_User_findById_malformed _ _ H). reflexivity.
  - rewrite (run_Post_findById_populate_malformed _ _ H). reflexivity.
Qed.

(** ** Deleting *)

Lemma deleteUser_run req db i :
  castObjectId (req_id req) = Some i →
  deleteUser req db =
    match users db !! i with
    | Some _ =>
        {| final := set_users (delete i (users db)) db;
           calls := [CallFindByIdAndDelete User (req_id req)];
           value := inr (deleted User) |}
    | None =>
        {| final := db; calls := [CallFindByIdAndDelete User (req_id req)];
           value := inr (not_found User) |}
    end.
Proof.
  intros H. unfold deleteUser. run.
  rewrite (run_User_findByIdAndDelete _ _ _ H).
  destruct (users db !! i); reflexivity.
Qed.

Lemma deletePost_run req db i :
  castObjectId (req_id req) = Some i →
  deletePost req db =
    match posts db !! i with
    | Some _ =>
        {| final := set_posts (delete i (posts db)) db;
           calls := [CallFindByIdAndDelete Post (req_id req)];
           value := inr (deleted Post) |}
    | None =>
        {| final := db; calls := [CallFindByIdAndDelete Post (req_id req)];
           value := inr (not_found Post) |}
    end.
Proof.
  intros H. unfold deletePost. run.
  rewrite (run_Post_findByIdAndDelete _ _ _ H).
  destruct (posts db !! i); reflexivity.
Qed.

(** C4: deleting is one find-and-delete storage call. When the record is
    stored, the call removes it and the answer is 200 with
    [{ message: "User deleted" }] (or ["Post deleted"]); deleting the same
    id again finds nothing and is answered 404. *)
Theorem delete_twice req db i :
  castObjectId (req_id req) = Some i →
  calls (deleteUser req db) = [CallFindByIdAndDelete User (req_id req)]
  ∧ calls (deletePost req db) = [CallFindByIdAndDelete Post (req_id req)]
  ∧ (∀ u, users db !! i = Some u →
       let r := deleteUser req db in
       value r = inr {| status := 200; json := JsonMessage "User deleted" |}
       ∧ users (final r) = delete i (users db)
       ∧ posts (final r) = posts db
       ∧ users (final r) !! i = None
       ∧ value (deleteUser req (final r))
         = inr {| status := 404; json := JsonError "User not found" |}
       ∧ calls (deleteUser req (final r)) = [CallFindByIdAndDelete User (req_id req)]
       ∧ final (deleteUser req (final r)) = final r)
  ∧ (∀ p, posts db !! i = Some p →
       let r := deletePost req db in
       value r = inr {| status := 200; json := JsonMessage "Post deleted" |}
       ∧ posts (final r) = delete i (posts db)
       ∧ users (final r) = users db
       ∧ posts (final r) !! i = None
       ∧ value (deletePost req (final r))
         = inr {| status := 404; json := JsonError "Post not found" |}
       ∧ calls (deletePost req (final r)) = [CallFindByIdAndDelete Post (req_id req)]
       ∧ final (deletePost req (final r)) = final r).
Proof.
  intros H. split; [|split; [|split]].
  - rewrite (deleteUser_run _ _ _ H). destruct (users db !! i); reflexivity.
  - rewrite (deletePost_run _ _ _ H). destruct (posts db !! i); reflexivity.
  - intros u E r. subst r. rewrite (deleteUser_run _ db _ H), E. cbn [final value].
    assert (G : users (set_users (delete i (users db)) db) !! i = None)
      by apply lookup_delete_eq.
    rewrite (deleteUser_run _ _ _ H), G. repeat split; reflexivity.
  - intros p E r. subst r. rewrite (deletePost_run _ db _ H), E. cbn [final value].
    assert (G : posts (set_posts (delete i (posts db)) db) !! i = None)
      by apply lookup_delete_eq.
    rewrite (deletePost_run _ _ _ H), G. repeat split; reflexivity.
Qed.

(** ** Listing *)

Lemma getUsers_run req db :
  getUsers req db =
    {| final := db; calls := [CallFind User];
       value := inr (res_json (JsonUsers
                  ((λ iu, loaded_user iu.1 iu.2) <$> map_to_list (users db)))) |}.
Proof. reflexivity. Qed.

Lemma getPosts_run req db :
  getPosts req db =
    {| final := db; calls := [CallFind Post; CallPopulate];
       value := inr (res_json (JsonPosts
                  ((λ ip, populated db (loaded_post ip.1 ip.2))
                     <$> map_to_list (posts db)))) |}.
Proof. reflexivity. Qed.

(** C5: the answers of list-Users and of get-User-by-id hold no password:
    every stored user is listed, with its other fields, and the field
    [password] is absent from each listed user and from the user returned
    by id. *)
Theorem password_not_returned req db :
  (∃ us,
      value (getUsers req db) = inr {| status := 200; json := JsonUsers us |}
      ∧ Forall (λ o, uo_password o = None) us
      ∧ ∀ i u, users db !! i = Some u →
          ∃ o, o ∈ us ∧ uo_id o = i ∧ uo_password o = None
               ∧ uo_firstName o = Some (u_firstName u)
               ∧ uo_lastName o = Some (u_lastName u)
               ∧ uo_email o = Some (u_email u)
               ∧ uo_isActive o = u_isActive u)
  ∧ (∀ i u, castObjectId (req_id req) = Some i → users db !! i = Some u →
      ∃ o, value (getUserById req db) = inr {| status := 200; json := JsonUser o |}
           ∧ uo_id o = i ∧ uo_password o = None
           ∧ uo_firstName o = Some (u_firstName u)
           ∧ uo_lastName o = Some (u_lastName u)
           ∧ uo_email o = Some (u_email u)
           ∧ uo_isActive o = u_isActive u)
  ∧ (∀ st o, value (getUserById req db) = inr {| status := st; json := JsonUser o |} →
      uo_password o = None).
Proof.
  split; [|split].
  - eexists. rewrite getUsers_run. split; [reflexivity|]. split.
    + apply Forall_forall. intros o Ho.
      apply list_elem_of_fmap in Ho as (iu & -> & _). reflexivity.
    + intros i u E. exists (loaded_user i u). split; [|by repeat split].
      apply list_elem_of_fmap. exists (i, u). split; [reflexivity|].
      by apply elem_of_map_to_list.
  - intros i u H E. exists (loaded_user i u).
    rewrite (getUserById_run _ _ _ H), E. by repeat split.
  - intros st o. destruct (castObjectId (req_id req)) as [i|] eqn:H.
    + rewrite (getUserById_run _ _ _ H). destruct (users db !! i); cbn [value].
      * intros [= _ <-]. reflexivity.
      * discriminate.
    + rewrite (getUserById_run_malformed _ db H). discriminate.
Qed.

(** C8: list-Posts returns every stored post, each with its [userId]
    replaced by the first name, last name and email of the user it names
    (beside that user's [_id]), or by [null] when no such user is stored. *)
Theorem getPosts_populated req db :
  ∃ ps,
    getPosts req db =
      {| final := db; calls := [CallFind Post; CallPopulate];
         value := inr {| status := 200; json := JsonPosts ps |} |}
    ∧ length ps = size (posts db)
    ∧ ∀ o, o ∈ ps ↔
        ∃ i p, posts db !! i = Some p
          ∧ o = {| po_id := i;
                   po_title := Some (p_title p);
                   po_content := Some (p_content p);
                   po_userId :=
                     Some match users db !! p_userId p with
                          | Some u =>
                              RefUser (p_userId p)
                                (u_firstName u) (u_lastName u) (u_email u)
                          | None => RefNull
                          end;
                   po_createdAt := p_createdAt p;
                   po_updatedAt := p_updatedAt p |}.
Proof.
  eexists. rewrite getPosts_run. split; [reflexivity|]. split.
  - by rewrite length_fmap, length_map_to_list.
  - intros o. rewrite list_elem_of_fmap. split.
    + intros ([i p] & -> & Hin). apply elem_of_map_to_list in Hin.
      exists i, p. split; [done|]. apply populated_loaded.
    + intros (i & p & E & ->). exists (i, p). split.
      * symmetry. apply populated_loaded.
      * by apply elem_of_map_to_list.
Qed.

(** ** The presence checks *)

Lemma absent_not_present (body : gmap string JsVal) k :
  body !! k = None → ¬ present body k.
Proof. unfold present, field. intros ->. discriminate. Qed.

Lemma empty_not_present (body : gmap string JsVal) k :
  body !! k = Some (JsString "") → ¬ present body k.
Proof. unfold present, field. intros ->. discriminate. Qed.

Lemma present_string (body : gmap string JsVal) k s :
  body !! k = Some (JsString s) → s ≠ "" → present body k.
Proof. unfold present, field. intros -> H. by destruct s. Qed.

Lemma not_present_false body k : ¬ present body k → truthy (field body k) = false.
Proof. unfold present. by destruct (truthy _). Qed.

(** Closes a goal [c = true], where [c] is the condition of a presence
    check, from a hypothesis that one of the fields is not present. *)
Ltac missing k H :=
  apply list_elem_of_In in k; cbn [In] in k;
  apply not_present_false in H;
  repeat (destruct k as [<- | k]; [rewrite H; cbn [negb orb]; by rewrite ?orb_true_r |]);
  destruct k.

(** A field is present only in a body that was parsed. *)
Lemma present_parsed req k :
  present (body_of req) k → ∃ body, req_body req = Some body.
Proof.
  unfold present, body_of, field. destruct (req_body req); [eauto|].
  cbn [default id]. rewrite lookup_empty. discriminate.
Qed.

Lemma parsed_body_of req body : req_body req = Some body → body_of req = body.
Proof. unfold body_of. by intros ->. Qed.

Lemma lookup_parsed req k v :
  body_of req !! k = Some v → ∃ body, req_body req = Some body ∧ body !! k = Some v.
Proof.
  unfold body_of. destruct (req_body req) as [body|]; cbn [default id].
  - eauto.
  - by rewrite lookup_empty.
Qed.

Lemma createUser_no_body env req db :
  req_body req = None →
  createUser env req db =
    {| final := db; calls := []; value := inr (no_body "firstName") |}.
Proof. intros E. unfold createUser. rewrite E. reflexivity. Qed.

Lemma createUser_missing env req db k :
  k ∈ ["firstName"; "lastName"; "email"; "password"] →
  ¬ present (body_of req) k →
  createUser env req db =
    {| final := db; calls := [];
       value := inr (if req_body req is Some _ then required_user_create
                     else no_body "firstName") |}.
Proof.
  intros Hk H. unfold createUser, body_of in *.
  destruct (req_body req) as [body|]; [|reflexivity]. cbn [default id] in H.
  run.
  match goal with |- context [if ?c then _ else _] => assert (C : c = true) by missing Hk H end.
  rewrite C. reflexivity.
Qed.

Lemma updateUser_no_body env req db :
  req_body req = None →
  updateUser env req db =
    {| final := db; calls := []; value := inr (no_body "firstName") |}.
Proof. intros E. unfold updateUser. rewrite E. reflexivity. Qed.

Lemma updateUser_missing env req db k :
  k ∈ ["firstName"; "lastName"; "email"] →
  ¬ present (body_of req) k →
  updateUser env req db =
    {| final := db; calls := [];
       value := inr (if req_body req is Some _ then required_user_update
                     else no_body "firstName") |}.
Proof.
  intros Hk H. unfold updateUser, body_of in *.
  destruct (req_body req) as [body|]; [|reflexivity]. cbn [default id] in H.
  run.
  match goal with |- context [if ?c then _ else _] => assert (C : c = true) by missing Hk H end.
  rewrite C. reflexivity.
Qed.

Lemma createPost_no_body env req db :
  req_body req = None →
  createPost env req db =
    {| final := db; calls := []; value := inr (no_body "title") |}.
Proof. intros E. unfold createPost. rewrite E. reflexivity. Qed.

Lemma createPost_missing env req db k :
  k ∈ ["title"; "content"; "userId"] →
  ¬ present (body_of req) k →
  createPost env req db =
    {| final := db; calls := [];
       value := inr (if req_body req is Some _ then required_post
                     else no_body "title") |}.
Proof.
  intros Hk H. unfold createPost, body_of in *.
  destruct (req_body req) as [body|]; [|reflexivity]. cbn [default id] in H.
  run.
  match goal with |- context [if ?c then _ else _] => assert (C : c = true) by missing Hk H end.
  rewrite C. reflexivity.
Qed.

Lemma updatePost_no_body env req db :
  req_body req = None →
  updatePost env req db =
    {| final := db; calls := []; value := inr (no_body "title") |}.
Proof. intros E. unfold updatePost. rewrite E. reflexivity. Qed.

Lemma updatePost_missing env req db k :
  k ∈ ["title"; "content"; "userId"] →
  ¬ present (body_of req) k →
  updatePost env req db =
    {| final := db; calls := [];
       value := inr (if req_body req is Some _ then required_post
                     else no_body "title") |}.
Proof.
  intros Hk H. unfold updatePost, body_of in *.
  destruct (req_body req) as [body|]; [|reflexivity]. cbn [default id] in H.
  run.
  match goal with |- context [if ?c then _ else _] => assert (C : c = true) by missing Hk H end.
  rewrite C. reflexivity.
Qed.

Lemma handle_destructure property body (k : gmap string JsVal → M Response) db :
  handle (b ← destructure property (Some body); k b) db = handle (k body) db.
Proof.
  cbv [handle destructure mbind M_bind mret M_ret].
  destruct (k body db) as [d c [e|x]]; reflexivity.
Qed.

(** Names the body of a request of which the field [k] is present by [H]. *)
Ltac parsed H k :=
  let body := fresh "body" in
  let E := fresh "E" in
  destruct (present_parsed _ k (H k ltac:(set_solver))) as [body E];
  rewrite ?(parsed_body_of _ _ E) in *; rewrite ?E, ?handle_destructure.

Lemma createUser_missing_parsed env req db body k :
  req_body req = Some body →
  k ∈ ["firstName"; "lastName"; "email"; "password"] →
  body !! k = None ∨ ¬ present body k →
  createUser env req db = {| final := db; calls := []; value := inr required_user_create |}.
Proof.
  intros E Hk H.
  rewrite (createUser_missing _ _ _ k Hk), E; [done|].
  rewrite (parsed_body_of _ _ E). destruct H; [by apply absent_not_present | done].
Qed.

Lemma updateUser_missing_parsed env req db body k :
  req_body req = Some body →
  k ∈ ["firstName"; "lastName"; "email"] →
  body !! k = None ∨ ¬ present body k →
  updateUser env req db = {| final := db; calls := []; value := inr required_user_update |}.
Proof.
  intros E Hk H.
  rewrite (updateUser_missing _ _ _ k Hk), E; [done|].
  rewrite (parsed_body_of _ _ E). destruct H; [by apply absent_not_present | done].
Qed.

Lemma createPost_missing_parsed env req db body k :
  req_body req = Some body →
  k ∈ ["title"; "content"; "userId"] →
  body !! k = None ∨ ¬ present body k →
  createPost env req db = {| final := db; calls := []; value := inr required_post |}.
Proof.
  intros E Hk H.
  rewrite (createPost_missing _ _ _ k Hk), E; [done|].
  rewrite (parsed_body_of _ _ E). destruct H; [by apply absent_not_present | done].
Qed.

Lemma updatePost_missing_parsed env req db body k :
  req_body req = Some body →
  k ∈ ["title"; "content"; "userId"] →
  body !! k = None ∨ ¬ present body k →
  updatePost env req db = {| final := db; calls := []; value := inr required_post |}.
Proof.
  intros E Hk H.
  rewrite (updatePost_missing _ _ _ k Hk), E; [done|].
  rewrite (parsed_body_of _ _ E). destruct H; [by apply absent_not_present | done].
Qed.

(** When every field is present the check is passed. *)
Ltac all_present H :=
  repeat match goal with
    | |- context [truthy (field ?b ?k)] =>
        rewrite (H k ltac:(set_solver) : truthy (field b k) = true)
    end; reflexivity.

Lemma run_User_findOne email db :
  User_findOne email db =
    {| final := db; calls := [CallFindOne User email];
       value := inr (matching_user db email) |}.
Proof. reflexivity. Qed.

Lemma User_create_calls env fn ln em pw ia db :
  calls (User_create env fn ln em pw ia db) = [CallCreate User].
Proof.
  unfold User_create. run.
  destruct (new_user env fn ln em pw ia); [reflexivity|].
  destruct (decide (is_Some (users db !! env_oid env))); [reflexivity|].
  destruct (decide (email_free _ _ _)); reflexivity.
Qed.

Lemma createUser_present env req db :
  (∀ k, k ∈ ["firstName"; "lastName"; "email"; "password"] → present (body_of req) k) →
  createUser env req db =
    handle (
      found ← User_findOne (field (body_of req) "email");
      if found is Some _
      then mret (res_status_json 400 (JsonError "User already exists"))
      else
        user ← User_create env (field (body_of req) "firstName")
                  (field (body_of req) "lastName") (field (body_of req) "email")
                  (field (body_of req) "password") (field (body_of req) "isActive");
        mret (res_json (JsonUser user))) db.
Proof.
  intros H. unfold createUser. parsed H "firstName". run.
  match goal with |- context [if ?c then _ else _] => assert (C : c = false) by all_present H end.
  rewrite C. reflexivity.
Qed.

Lemma createUser_calls env req db :
  (∀ k, k ∈ ["firstName"; "lastName"; "email"; "password"] → present (body_of req) k) →
  ∃ rest,
    calls (createUser env req db) = CallFindOne User (field (body_of req) "email") :: rest
    ∧ (rest = [] ∨ rest = [CallCreate User]).
Proof.
  intros H. rewrite (createUser_present _ _ _ H). run.
  rewrite run_User_findOne.
  destruct (matching_user db _).
  - exists []. split; [reflexivity | by left].
  - pose proof (User_create_calls env (field (body_of req) "firstName")
      (field (body_of req) "lastName") (field (body_of req) "email")
      (field (body_of req) "password") (field (body_of req) "isActive") db) as Hc.
    destruct (User_create _ _ _ _ _ _ db) as [d c [e|o]]; cbn [calls] in Hc; subst c;
      exists [CallCreate User]; (split; [reflexivity | by right]).
Qed.

(** C6, amended: a create-User request with a body in which one of
    [firstName], [lastName], [email], [password] is missing is answered 400
    with the message that names the four fields, and makes no storage call.
    A request without a body is answered 500, the fields being read off
    [undefined], and makes no storage call either. The check is of presence
    only: when the four fields are present, whatever the shape of the email
    and the length of the password, the request reaches storage. *)
Theorem createUser_missing_field env req db :
  (∀ body k, req_body req = Some body →
        k ∈ ["firstName"; "lastName"; "email"; "password"] →
        body !! k = None ∨ ¬ present body k →
        createUser env req db =
          {| final := db; calls := [];
             value := inr {| status := 400;
                             json := JsonError
                               "firstName, lastName, email, and password are required" |} |})
  ∧ (req_body req = None →
        createUser env req db =
          {| final := db; calls := [];
             value := inr {| status := 500;
                             json := JsonFailure (TypeError "firstName") |} |})
  ∧ (∀ body, req_body req = Some body →
       (∀ k, k ∈ ["firstName"; "lastName"; "email"; "password"] → present body k) →
       ∃ rest, calls (createUser env req db)
               = CallFindOne User (field body "email") :: rest).
Proof.
  split; [|split].
  - intros body k E Hk H. exact (createUser_missing_parsed env req db body k E Hk H).
  - apply createUser_no_body.
  - intros body E H. rewrite <- (parsed_body_of _ _ E) in *.
    destruct (createUser_calls env req db H) as (rest & Ec & _). eauto.
Qed.

(** C10, amended: in both update handlers the presence check comes before
    the lookup: a request with a body in which a required editable field is
    missing is answered 400 and makes no storage call, whatever its id. A
    request without a body is answered 500, before the lookup too: it makes
    no storage call, whatever its id. *)
Theorem update_missing_field env req db :
  (∀ body k, req_body req = Some body →
        k ∈ ["firstName"; "lastName"; "email"] →
        body !! k = None ∨ ¬ present body k →
        updateUser env req db =
          {| final := db; calls := [];
             value := inr {| status := 400;
                             json := JsonError
                               "firstName, lastName, and email are required" |} |})
  ∧ (∀ body k, req_body req = Some body →
        k ∈ ["title"; "content"; "userId"] →
        body !! k = None ∨ ¬ present body k →
        updatePost env req db =
          {| final := db; calls := [];
             value := inr {| status := 400;
                             json := JsonError
                               "title, content, and userId are required" |} |})
  ∧ (req_body req = None →
        updateUser env req db =
          {| final := db; calls := [];
             value := inr {| status := 500;
                             json := JsonFailure (TypeError "firstName") |} |}
        ∧ updatePost env req db =
          {| final := db; calls := [];
             value := inr {| status := 500;
                             json := JsonFailure (TypeError "title") |} |}).
Proof.
  split; [|split].
  - intros body k E Hk H. exact (updateUser_missing_parsed env req db body k E Hk H).
  - intros body k E Hk H. exact (updatePost_missing_parsed env req db body k E Hk H).
  - intros E. split; [by apply updateUser_no_body | by apply updatePost_no_body].
Qed.

(** ** Trimming *)

Section Trim.

Import JS.

Lemma trim_start_suffix l : ∃ p, l = (p ++ trim_start l)%list.
Proof.
  induction l as [|c r [p IH]]; [by exists []|]. cbn [trim_start].
  destruct (is_ws c).
  - exists (c :: p). cbn. by rewrite <- IH.
  - by exists [].
Qed.

Lemma trim_start_head l c r : trim_start l = c :: r → is_ws c = false.
Proof.
  induction l as [|a l IH]; [discriminate|]. cbn [trim_start].
  destruct (is_ws a) eqn:E; [exact IH|]. by intros [= <- _].
Qed.

Lemma trim_start_fixed l :
  (∀ c r, l = c :: r → is_ws c = false) → trim_start l = l.
Proof.
  destruct l as [|c r]; [done|]. intros H. cbn [trim_start].
  by rewrite (H c r eq_refl).
Qed.

Lemma trim_start_idem l : trim_start (trim_start l) = trim_start l.
Proof. apply trim_start_fixed. intros c r. apply trim_start_head. Qed.

Lemma trim_chars_start l : trim_start (trim_chars l) = trim_chars l.
Proof.
  apply trim_start_fixed. intros c r E. unfold trim_chars in E.
  destruct (trim_start_suffix (rev (trim_start l))) as [p Hp].
  apply (f_equal (@rev ascii)) in Hp. rewrite rev_involutive, rev_app_distr, E in Hp.
  by apply (trim_start_head l c (r ++ rev p)).
Qed.

Lemma trim_chars_idem l : trim_chars (trim_chars l) = trim_chars l.
Proof.
  unfold trim_chars at 1. rewrite trim_chars_start. unfold trim_chars.
  by rewrite rev_involutive, trim_start_idem.
Qed.

Lemma trim_idem s : trim (trim s) = trim s.
Proof.
  unfold trim. by rewrite list_ascii_of_string_of_list_ascii, trim_chars_idem.
Qed.

End Trim.

Lemma castTrimmed_trimmed v s : castTrimmed v = Some s → JS.trim s = s.
Proof.
  unfold castTrimmed. destruct (castString v); [|discriminate].
  intros [= <-]. apply trim_idem.
Qed.

Lemma trim_nonempty t : JS.trim t ≠ "" → t ≠ "".
Proof. intros H ->. by apply H. Qed.

Lemma test_nonempty r s : JS.nullable r = false → JS.test r s = true → s ≠ "".
Proof. intros Hn Ht ->. cbn in Ht. congruence. Qed.

(** ** Looking a user up by email *)

Lemma matching_user_found db email e i u :
  castTrimmed email = Some e →
  users db !! i = Some u → u_email u = e →
  is_Some (matching_user db email).
Proof.
  intros Hc Hi He. unfold matching_user. rewrite Hc.
  assert (Hin : (i, u) ∈ map_to_list (filter (λ iu, u_email iu.2 = e) (users db))).
  { apply elem_of_map_to_list, map_lookup_filter_Some. by split. }
  destruct (map_to_list _) as [|x l]; [by apply not_elem_of_nil in Hin|].
  by eexists.
Qed.

Lemma matching_user_none db email :
  (∀ e, castTrimmed email = Some e → email_free e None (users db)) →
  matching_user db email = None.
Proof.
  intros H. unfold matching_user. destruct (castTrimmed email) as [e|]; [|done].
  specialize (H e eq_refl).
  destruct (map_to_list _) as [|[i u] l] eqn:E; [done|].
  assert (Hin : (i, u) ∈ map_to_list (filter (λ iu, u_email iu.2 = e) (users db)))
    by (rewrite E; left).
  apply elem_of_map_to_list, map_lookup_filter_Some in Hin as [Hi He].
  destruct (H i u Hi) as [?|?]; done.
Qed.

(** C1: a create-User request in which the four required fields are
    present, and whose email is the email of a stored user, is answered 400
    with [{ error: "User already exists" }] and inserts nothing; the check
    is a read of its own ([findOne] by email), made before any write: it is
    the first storage call of every such request, and [create] can only
    follow it. *)
Theorem createUser_duplicate_email env req db e i u :
  db_valid db →
  (∀ k, k ∈ ["firstName"; "lastName"; "email"; "password"] → present (body_of req) k) →
  body_of req !! "email" = Some (JsString e) →
  users db !! i = Some u →
  u_email u = e →
  createUser env req db =
    {| final := db;
       calls := [CallFindOne User (JsString e)];
       value := inr {| status := 400; json := JsonError "User already exists" |} |}
  ∧ ∀ db0, ∃ rest,
      calls (createUser env req db0) = CallFindOne User (JsString e) :: rest
      ∧ (rest = [] ∨ rest = [CallCreate User]).
Proof.
  intros (Hu & _ & _) H Hb Hi He.
  assert (Hf : field (body_of req) "email" = JsString e) by (unfold field; by rewrite Hb).
  split.
  - rewrite (createUser_present _ _ _ H). run. rewrite run_User_findOne, Hf.
    destruct (matching_user_found db (JsString e) e i u) as [o ->]; try done.
    cbn. f_equal. rewrite <- He. apply (Hu i u Hi).
  - intros db0. rewrite <- Hf. by apply createUser_calls.
Qed.

(** ** Creating a post *)

Lemma run_Post_create env title content userId db t c uid :
  castTrimmed title = Some t → t ≠ "" →
  castTrimmed content = Some c → c ≠ "" →
  castRef userId = CastTo uid →
  posts db !! env_oid env = None →
  Post_create env title content userId db =
    {| final :=
         set_posts
           (<[env_oid env :=
                {| p_title := t; p_content := c; p_userId := uid;
                   p_createdAt := env_now env; p_updatedAt := env_now env |}]>
              (posts db)) db;
       calls := [CallCreate Post];
       value :=
         inr (loaded_post (env_oid env)
                {| p_title := t; p_content := c; p_userId := uid;
                   p_createdAt := env_now env; p_updatedAt := env_now env |}) |}.
Proof.
  intros Ht Ht' Hc Hc' Hu Hf. unfold Post_create, new_post.
  rewrite Ht, Hc, Hu.
  destruct t as [|a t]; [done|]. destruct c as [|b c]; [done|].
  cbn [Schema.post_errors Schema.path_errors Schema.required Schema.cast_ok
       Schema.required_cast app].
  run.
  destruct (decide (is_Some (posts db !! env_oid env))) as [[x Hx]|_]; [congruence|].
  reflexivity.
Qed.

Lemma createPost_present env req db :
  (∀ k, k ∈ ["title"; "content"; "userId"] → present (body_of req) k) →
  createPost env req db =
    handle (
      post ← Post_create env (field (body_of req) "title")
                (field (body_of req) "content") (field (body_of req) "userId");
      populatedPost ← post_populate post;
      mret (res_json (JsonPost populatedPost))) db.
Proof.
  intros H. unfold createPost. parsed H "title". run.
  match goal with |- context [if ?c then _ else _] => assert (C : c = false) by all_present H end.
  rewrite C. reflexivity.
Qed.

(** C2, as the code has it: a create-Post request whose [title] and
    [content] are strings that are not blank, and whose [userId] is a
    well-formed id, creates the post under the generated id (an id no stored
    post has), without any read of the users: it does so whether or not a
    user with that id is stored. When none is, the post returned by the
    creation and by a later get-by-id has [null] at [userId]. *)
Theorem createPost_without_user env req db t c s uid :
  body_of req !! "title" = Some (JsString t) → JS.trim t ≠ "" →
  body_of req !! "content" = Some (JsString c) → JS.trim c ≠ "" →
  body_of req !! "userId" = Some (JsString s) → castObjectId s = Some uid →
  posts db !! env_oid env = None →
  let p := {| p_title := JS.trim t; p_content := JS.trim c; p_userId := uid;
              p_createdAt := env_now env; p_updatedAt := env_now env |} in
  let shown (r : Ref) :=
    {| po_id := env_oid env; po_title := Some (JS.trim t);
       po_content := Some (JS.trim c); po_userId := Some r;
       po_createdAt := env_now env; po_updatedAt := env_now env |} in
  let r := createPost env req db in
  value r = inr {| status := 200; json := JsonPost (shown (author db p)) |}
  ∧ calls r = [CallCreate Post; CallPopulate]
  ∧ posts (final r) = <[env_oid env := p]> (posts db)
  ∧ users (final r) = users db
  ∧ (users db !! uid = None →
       value r = inr {| status := 200; json := JsonPost (shown RefNull) |}
       ∧ ∀ req', castObjectId (req_id req') = Some (env_oid env) →
           value (getPostById req' (final r))
           = inr {| status := 200; json := JsonPost (shown RefNull) |}).
Proof.
  intros Ht Ht' Hc Hc' Hs Hu Hfresh p shown r.
  assert (Ft : field (body_of req) "title" = JsString t) by (unfold field; by rewrite Ht).
  assert (Fc : field (body_of req) "content" = JsString c) by (unfold field; by rewrite Hc).
  assert (Fu : field (body_of req) "userId" = JsString s) by (unfold field; by rewrite Hs).
  assert (Hp : ∀ k, k ∈ ["title"; "content"; "userId"] → present (body_of req) k).
  { intros k Hk. apply list_elem_of_In in Hk. cbn [In] in Hk.
    destruct Hk as [<-|[<-|[<-|[]]]].
    - apply (present_string _ _ t Ht). by apply trim_nonempty.
    - apply (present_string _ _ c Hc). by apply trim_nonempty.
    - apply (present_string _ _ s Hs). intros ->. discriminate. }
  assert (E : createPost env req db =
    {| final := set_posts (<[env_oid env := p]> (posts db)) db;
       calls := [CallCreate Post; CallPopulate];
       value := inr {| status := 200; json := JsonPost (shown (author db p)) |} |}).
  { rewrite (createPost_present _ _ _ Hp), Ft, Fc, Fu. run.
    rewrite (run_Post_create env _ _ _ db (JS.trim t) (JS.trim c) uid); try done.
    unfold castRef. by rewrite Hu. }
  subst r. rewrite E. cbn [value calls final].
  do 4 (split; [reflexivity|]). intros Hn. split.
  - unfold author. cbn [p_userId p]. by rewrite Hn.
  - intros req' Hid. rewrite (getPostById_run _ _ _ Hid).
    cbn [value set_posts posts]. rewrite lookup_insert_eq.
    rewrite populated_loaded. unfold author.
    cbn [users set_posts p_userId p]. by rewrite Hn.
Qed.

(** ** Updating a user *)

Ltac simp_doc :=
  cbn [doc modified invalid loaded loaded_user loaded_post
       uo_id uo_firstName uo_lastName uo_email uo_password uo_isActive
       uo_createdAt uo_updatedAt
       with_firstName with_lastName with_email with_user_updatedAt
       po_id po_title po_content po_userId po_createdAt po_updatedAt
       with_title with_content with_userId with_post_updatedAt].

(** Decides the membership of a path in a list of modified paths. *)
Ltac decide_paths :=
  repeat match goal with
    | |- context [decide (?p ∈ ?l)] =>
        first [ rewrite (decide_True (P := p ∈ l)) by (repeat constructor)
              | rewrite (decide_False (P := p ∈ l))
                  by (rewrite list_elem_of_In; cbn [In]; intuition discriminate) ]
    end.

Lemma set_users_id db : set_users (users db) db = db.
Proof. by destruct db. Qed.

Lemma updateUser_present env req db :
  (∀ k, k ∈ ["firstName"; "lastName"; "email"] → present (body_of req) k) →
  updateUser env req db =
    handle (
      user ← User_findById (req_id req);
      match user with
      | None => mret (res_status_json 404 (JsonError "User not found"))
      | Some user =>
          user ← user_save env
            (assign "email" uo_email with_email (field (body_of req) "email")
               (assign "lastName" uo_lastName with_lastName
                  (field (body_of req) "lastName")
                  (assign "firstName" uo_firstName with_firstName
                     (field (body_of req) "firstName") (loaded user))));
          mret (res_json (JsonUser user))
      end) db.
Proof.
  intros H. unfold updateUser. parsed H "firstName". run.
  match goal with |- context [if ?c then _ else _] => assert (C : c = false) by all_present H end.
  rewrite C. reflexivity.
Qed.

Lemma run_update_save env db i u fn ln em f l e :
  users db !! i = Some u →
  castTrimmed fn = Some f → f ≠ "" →
  castTrimmed ln = Some l → l ≠ "" →
  castTrimmed em = Some e → JS.test Schema.email_pattern e = true →
  email_free e (Some i) (users db) →
  user_save env
    (assign "email" uo_email with_email em
       (assign "lastName" uo_lastName with_lastName ln
          (assign "firstName" uo_firstName with_firstName fn
             (loaded (loaded_user i u))))) db =
    {| final := set_users (<[i := updated_user (env_now env) f l e u]> (users db)) db;
       calls := [CallSave User i];
       value := inr (loaded_user i (updated_user (env_now env) f l e u)) |}.
Proof.
  intros Hi Hf Hf' Hl Hl' He He' Hfree.
  assert (e ≠ "") as He'' by (by apply (test_nonempty Schema.email_pattern)).
  unfold assign. rewrite Hf, Hl, He. simp_doc.
  destruct (decide (Some (u_firstName u) = Some f)) as [[= Ef]|Nf]; simp_doc;
  (destruct (decide (Some (u_lastName u) = Some l)) as [[= El]|Nl]); simp_doc;
  (destruct (decide (Some (u_email u) = Some e)) as [[= Ee]|Ne]); simp_doc.
  all: unfold user_save; simp_doc; rewrite ?Ef, ?El, ?Ee.
  all: destruct f as [|a0 f0]; [done|]; destruct l as [|a1 l0]; [done|];
       destruct e as [|a2 e0]; [done|].
  all: cbn [bool_decide decide_rel is_Some_dec Schema.user_errors Schema.path_errors
            Schema.required Schema.matches Schema.cast_ok app].
  all: rewrite He'; cbn [Schema.path_errors app]; run; rewrite ?Hi.
  all: unfold saved_user, updated_user; simp_doc; decide_paths; cbn [default].
  1: { rewrite decide_True by done. rewrite <- Ef, <- El, <- Ee.
       replace {| u_firstName := u_firstName u; u_lastName := u_lastName u;
                  u_email := u_email u; u_password := u_password u;
                  u_isActive := u_isActive u; u_createdAt := u_createdAt u;
                  u_updatedAt := u_updatedAt u |} with u by (by destruct u).
       by rewrite insert_id, set_users_id. }
  all: cbn [u_email id]; rewrite ?Ee;
       rewrite (decide_True (P := _ ∨ email_free _ _ _)) by (right; exact Hfree).
  all: rewrite decide_False by (intros (?&?&?); congruence).
  all: unfold with_user_updatedAt, with_email, with_lastName, with_firstName, loaded_user;
       simp_doc;
       cbn [u_firstName u_lastName u_email u_password u_isActive u_createdAt u_updatedAt].
  all: by rewrite ?Ef, ?El, ?Ee.
Qed.

(** The handler reads three fields of the body and nothing else. *)
Lemma updateUser_reads env req req' db :
  req_id req' = req_id req →
  is_Some (req_body req) → is_Some (req_body req') →
  (∀ k, k ∈ ["firstName"; "lastName"; "email"] → body_of req' !! k = body_of req !! k) →
  updateUser env req' db = updateUser env req db.
Proof.
  intros Hid [b E] [b' E'] H.
  rewrite (parsed_body_of _ _ E), (parsed_body_of _ _ E') in H.
  unfold updateUser. rewrite E, E'. cbv zeta. rewrite !handle_destructure.
  unfold field.
  rewrite Hid, (H "firstName"), (H "lastName"), (H "email") by (repeat constructor).
  reflexivity.
Qed.

(** C3, as the code has it: an update-User request on a stored id, whose
    [firstName] and [lastName] are strings that are not blank and whose
    [email] is a string that matches the pattern once trimmed and is the
    email of no other user, is answered 200; the stored record gets the
    three values, trimmed, and a new [updatedAt] when one of them changed;
    its password, [isActive] and [createdAt] stay, and so does every other
    record; the rest of the body is not read. *)
Theorem updateUser_overwrites env req db i u f l e :
  castObjectId (req_id req) = Some i →
  users db !! i = Some u →
  body_of req !! "firstName" = Some (JsString f) → JS.trim f ≠ "" →
  body_of req !! "lastName" = Some (JsString l) → JS.trim l ≠ "" →
  body_of req !! "email" = Some (JsString e) →
  JS.test Schema.email_pattern (JS.trim e) = true →
  email_free (JS.trim e) (Some i) (users db) →
  let u' :=
    {| u_firstName := JS.trim f; u_lastName := JS.trim l; u_email := JS.trim e;
       u_password := u_password u; u_isActive := u_isActive u;
       u_createdAt := u_createdAt u;
       u_updatedAt :=
         if decide (u_firstName u = JS.trim f ∧ u_lastName u = JS.trim l
                    ∧ u_email u = JS.trim e)
         then u_updatedAt u else env_now env |} in
  let r := updateUser env req db in
  value r = inr {| status := 200; json := JsonUser (loaded_user i u') |}
  ∧ calls r = [CallFindById User (req_id req); CallSave User i]
  ∧ users (final r) !! i = Some u'
  ∧ (∀ j, j ≠ i → users (final r) !! j = users db !! j)
  ∧ posts (final r) = posts db
  ∧ ∀ req', req_id req' = req_id req →
      (∀ k, k ∈ ["firstName"; "lastName"; "email"] →
            body_of req' !! k = body_of req !! k) →
      updateUser env req' db = r.
Proof.
  intros Hid Hi Hf Hf' Hl Hl' He He' Hfree u' r.
  assert (Hp : ∀ k, k ∈ ["firstName"; "lastName"; "email"] → present (body_of req) k).
  { intros k Hk. apply list_elem_of_In in Hk. cbn [In] in Hk.
    destruct Hk as [<-|[<-|[<-|[]]]].
    - apply (present_string _ _ f Hf). by apply trim_nonempty.
    - apply (present_string _ _ l Hl). by apply trim_nonempty.
    - apply (present_string _ _ e He). apply trim_nonempty.
      by apply (test_nonempty Schema.email_pattern). }
  assert (E : r =
    {| final := set_users (<[i := u']> (users db)) db;
       calls := [CallFindById User (req_id req); CallSave User i];
       value := inr {| status := 200; json := JsonUser (loaded_user i u') |} |}).
  { subst r. rewrite (updateUser_present _ _ _ Hp). run.
    rewrite (run_User_findById _ _ _ Hid), Hi. cbn [fmap option_fmap option_map].
    unfold field. rewrite Hf, Hl, He. cbn [default].
    rewrite (run_update_save env db i u _ _ _ (JS.trim f) (JS.trim l) (JS.trim e));
      try done. }
  rewrite E. cbn [value calls final set_users users posts].
  split; [reflexivity|]. split; [reflexivity|].
  split; [apply lookup_insert_eq|].
  split; [intros j Hj; by apply lookup_insert_ne|].
  split; [reflexivity|].
  intros req' Hid' Hk. rewrite <- E. apply updateUser_reads; [done| | |done].
  - destruct (present_parsed req "firstName") as [b Eb];
      [apply Hp; repeat constructor | by exists b].
  - destruct (present_parsed req' "firstName") as [b Eb]; [|by exists b].
    unfold present, field. rewrite (Hk "firstName") by (repeat constructor).
    apply (Hp "firstName"). repeat constructor.
Qed.

(** ** The handlers keep the database valid *)

Lemma path_errors_nil path cs :
  Schema.path_errors path cs = [] ↔ Forall (λ c, c = None) cs.
Proof.
  induction cs as [|[e|] cs IH]; cbn [Schema.path_errors].
  - split; [constructor | done].
  - split; [done | by inversion 1].
  - rewrite IH. split; [by constructor | by inversion 1].
Qed.

Lemma user_errors_nil wp fn ln em pw (ia : Cast bool) :
  Schema.user_errors wp fn ln em pw ia = [] ↔
    Schema.required "First name is required" fn = None
    ∧ Schema.required "Last name is required" ln = None
    ∧ Schema.required "Email is required" em = None
    ∧ Schema.matches Schema.email_pattern "Email is not valid" em = None
    ∧ (wp = true →
         Schema.required "Password is required" pw = None
         ∧ Schema.minlength 6 "Password must be at least 6 characters long" pw = None)
    ∧ Schema.cast_ok ia = None.
Proof.
  unfold Schema.user_errors.
  rewrite !app_nil, !path_errors_nil, !Forall_cons, !Forall_nil.
  destruct wp.
  - rewrite path_errors_nil, !Forall_cons, !Forall_nil. intuition auto.
  - intuition (try discriminate; auto).
Qed.

Lemma post_errors_nil ti co (ui : Cast N) :
  Schema.post_errors ti co ui = [] ↔
    Schema.required "Title is required" ti = None
    ∧ Schema.required "Content is required" co = None
    ∧ Schema.cast_ok ui = None
    ∧ Schema.required_cast "User ID is required" ui = None.
Proof.
  unfold Schema.post_errors.
  rewrite !app_nil, !path_errors_nil, !Forall_cons, !Forall_nil. tauto.
Qed.

Lemma new_user_valid env fn ln em pw ia u :
  new_user env fn ln em pw ia = inr u → user_valid u.
Proof.
  unfold new_user.
  destruct (Schema.user_errors _ _ _ _ _ _) eqn:E; [|discriminate].
  destruct (castTrimmed fn) as [f|] eqn:Ef; [|discriminate].
  destruct (castTrimmed ln) as [l|] eqn:El; [|discriminate].
  destruct (castTrimmed em) as [e|] eqn:Ee; [|discriminate].
  destruct (castString pw) as [p|] eqn:Ep; [|discriminate].
  intros [= <-]. unfold user_valid.
  cbn [u_firstName u_lastName u_email u_password u_isActive].
  apply castTrimmed_trimmed in Ef, El, Ee. repeat split; try done.
  apply user_errors_nil. apply user_errors_nil in E. tauto.
Qed.

Lemma new_post_valid env ti co ui p :
  new_post env ti co ui = inr p → post_valid p.
Proof.
  unfold new_post.
  destruct (Schema.post_errors _ _ _) eqn:E; [|discriminate].
  destruct (castTrimmed ti) as [t|] eqn:Et; [|discriminate].
  destruct (castTrimmed co) as [c|] eqn:Ec; [|discriminate].
  destruct (castRef ui) as [i| |] eqn:Ei; try discriminate.
  intros [= <-]. unfold post_valid. cbn [p_title p_content p_userId].
  apply castTrimmed_trimmed in Et, Ec. by repeat split.
Qed.

(** What [create] can do to the database. *)
Lemma User_create_final env fn ln em pw ia db :
  final (User_create env fn ln em pw ia db) = db
  ∨ ∃ u, user_valid u
      ∧ users db !! env_oid env = None
      ∧ email_free (u_email u) None (users db)
      ∧ final (User_create env fn ln em pw ia db)
        = set_users (<[env_oid env := u]> (users db)) db.
Proof.
  unfold User_create. run.
  destruct (new_user env fn ln em pw ia) as [errs|u] eqn:E; [by left|].
  destruct (decide (is_Some (users db !! env_oid env))) as [|Hn]; [by left|].
  destruct (decide (email_free _ _ _)) as [Hf|]; [|by left].
  right. exists u. split; [by eapply new_user_valid|].
  split; [by apply eq_None_not_Some|]. by split.
Qed.

Lemma Post_create_final env ti co ui db :
  final (Post_create env ti co ui db) = db
  ∨ ∃ p, post_valid p
      ∧ final (Post_create env ti co ui db)
        = set_posts (<[env_oid env := p]> (posts db)) db.
Proof.
  unfold Post_create. run.
  destruct (new_post env ti co ui) as [errs|p] eqn:E; [by left|].
  destruct (decide (is_Some (posts db !! env_oid env))); [by left|].
  right. exists p. split; [by eapply new_post_valid | done].
Qed.

Lemma db_valid_empty : db_valid {| users := ∅; posts := ∅ |}.
Proof.
  split; [apply map_Forall_empty|]. split; [|apply map_Forall_empty].
  intros i j u v H. cbn [users] in H. by rewrite lookup_empty in H.
Qed.

Lemma db_valid_insert_user db i u :
  db_valid db → user_valid u → email_free (u_email u) (Some i) (users db) →
  db_valid (set_users (<[i := u]> (users db)) db).
Proof.
  intros (Hu & Hq & Hp) Hv Hf. split; [|split]; cbn [users posts set_users].
  - by apply map_Forall_insert_2.
  - intros j k v w Hj Hk E.
    destruct (decide (j = i)) as [->|Nj], (decide (k = i)) as [->|Nk]; [done|..].
    + rewrite lookup_insert_eq in Hj. rewrite lookup_insert_ne in Hk by done.
      injection Hj as <-. destruct (Hf k w Hk) as [[= ->]|]; done.
    + rewrite lookup_insert_eq in Hk. rewrite lookup_insert_ne in Hj by done.
      injection Hk as <-. destruct (Hf j v Hj) as [[= ->]|]; done.
    + rewrite lookup_insert_ne in Hj, Hk by done. by apply (Hq j k v w).
  - done.
Qed.

Lemma email_free_weaken e self m : email_free e None m → email_free e self m.
Proof. intros H i u Hi. destruct (H i u Hi) as [|]; [done | by right]. Qed.

Lemma db_valid_delete_user db i :
  db_valid db → db_valid (set_users (delete i (users db)) db).
Proof.
  intros (Hu & Hq & Hp). split; [|split]; cbn [users posts set_users].
  - by apply map_Forall_delete.
  - intros j k v w Hj Hk. apply lookup_delete_Some in Hj as [_ Hj].
    apply lookup_delete_Some in Hk as [_ Hk]. by apply Hq.
  - done.
Qed.

Lemma db_valid_insert_post db i p :
  db_valid db → post_valid p → db_valid (set_posts (<[i := p]> (posts db)) db).
Proof.
  intros (Hu & Hq & Hp) Hv. split; [|split]; cbn [users posts set_posts]; try done.
  by apply map_Forall_insert_2.
Qed.

Lemma db_valid_delete_post db i :
  db_valid db → db_valid (set_posts (delete i (posts db)) db).
Proof.
  intros (Hu & Hq & Hp). split; [|split]; cbn [users posts set_posts]; try done.
  by apply map_Forall_delete.
Qed.

Lemma pick_cases (P : string → Prop) {A B : Prop} (d : {A} + {B}) new old :
  P old → (∀ x, new = Some x → P x) →
  P (if d then default old new else old).
Proof. intros Ho Hn. destruct d, new; cbn [default]; auto. Qed.

Lemma saved_user_valid now t u :
  user_valid u →
  user_trimmed (doc t) →
  Schema.user_errors (bool_decide (is_Some (uo_password (doc t))))
    (uo_firstName (doc t)) (uo_lastName (doc t)) (uo_email (doc t))
    (uo_password (doc t)) (CastTo (uo_isActive (doc t))) = [] →
  user_valid (saved_user now t u).
Proof.
  intros (Hv & Tf & Tl & Te) (Sf & Sl & Se) E.
  apply user_errors_nil in Hv as (Vf & Vl & Ve & Vm & Vp & _).
  apply user_errors_nil in E as (Ef & El & Ee & Em & Ep & _).
  unfold user_valid, saved_user.
  cbn [u_firstName u_lastName u_email u_password u_isActive].
  split; [apply user_errors_nil; repeat split|repeat split].
  - apply (pick_cases (λ x, Schema.required _ (Some x) = None)); [done|].
    by intros x Hx; rewrite <- Hx.
  - apply (pick_cases (λ x, Schema.required _ (Some x) = None)); [done|].
    by intros x Hx; rewrite <- Hx.
  - apply (pick_cases (λ x, Schema.required _ (Some x) = None)); [done|].
    by intros x Hx; rewrite <- Hx.
  - apply (pick_cases (λ x, Schema.matches _ _ (Some x) = None)); [done|].
    by intros x Hx; rewrite <- Hx.
  - apply (pick_cases (λ x, Schema.required _ (Some x) = None)); [by apply Vp|].
    intros x Hx. rewrite Hx in Ep. by destruct Ep.
  - apply (pick_cases (λ x, Schema.minlength _ _ (Some x) = None)); [by apply Vp|].
    intros x Hx. rewrite Hx in Ep. by destruct Ep.
  - apply (pick_cases (λ x, JS.trim x = x)); auto.
  - apply (pick_cases (λ x, JS.trim x = x)); auto.
  - apply (pick_cases (λ x, JS.trim x = x)); auto.
Qed.

Lemma user_save_valid env t db :
  db_valid db → user_trimmed (doc t) → db_valid (final (user_save env t db)).
Proof.
  intros Hv Ht. unfold user_save. cbv [mbind M_bind mret M_ret call read write throw].
  destruct (invalid t ++ _)%list eqn:E; [|done].
  apply app_nil in E as [_ E].
  destruct (modified t) eqn:Em; [done|].
  destruct (users db !! uo_id (doc t)) as [u|] eqn:Hu; [|done].
  destruct (decide (_ ∨ email_free _ _ _)) as [Hf|]; [|done].
  cbn [final]. apply db_valid_insert_user; [done| |].
  - apply saved_user_valid; [|done..]. by apply (proj1 Hv _ _ Hu).
  - destruct Hf as [Hf|Hf]; [|done].
    unfold saved_user. cbn [u_email]. rewrite decide_False by (by rewrite Em).
    intros j v Hj. destruct (decide (u_email v = u_email u)) as [Eq|]; [|by right].
    left. f_equal. by apply (proj1 (proj2 Hv) j _ v u).
Qed.

Lemma assign_user_trimmed v (t : Tracked UserObj) :
  user_trimmed (doc t) →
  user_trimmed (doc (assign "firstName" uo_firstName with_firstName v t))
  ∧ user_trimmed (doc (assign "lastName" uo_lastName with_lastName v t))
  ∧ user_trimmed (doc (assign "email" uo_email with_email v t)).
Proof.
  intros (Hf & Hl & He). unfold assign.
  repeat split; case_decide; cbn [doc]; try done;
    cbn [uo_firstName uo_lastName uo_email with_firstName with_lastName with_email];
    intros x Hx; by apply (castTrimmed_trimmed v).
Qed.

Lemma loaded_user_trimmed i u : user_valid u → user_trimmed (loaded_user i u).
Proof.
  intros (_ & Hf & Hl & He). repeat split; intros x [= <-]; done.
Qed.

Lemma saved_post_valid now t p :
  post_valid p →
  post_trimmed (doc t) →
  Schema.post_errors (po_title (doc t)) (po_content (doc t)) (ref_cast t) = [] →
  post_valid (saved_post now t p).
Proof.
  intros (Hv & Tt & Tc) (St & Sc) E.
  apply post_errors_nil in Hv as (Vt & Vc & _).
  apply post_errors_nil in E as (Et & Ec & _).
  unfold post_valid, saved_post. cbn [p_title p_content p_userId].
  split; [apply post_errors_nil; repeat split|split].
  - apply (pick_cases (λ x, Schema.required _ (Some x) = None)); [done|].
    by intros x Hx; rewrite <- Hx.
  - apply (pick_cases (λ x, Schema.required _ (Some x) = None)); [done|].
    by intros x Hx; rewrite <- Hx.
  - apply (pick_cases (λ x, JS.trim x = x)); auto.
  - apply (pick_cases (λ x, JS.trim x = x)); auto.
Qed.

Lemma post_save_valid env t db :
  db_valid db → post_trimmed (doc t) → db_valid (final (post_save env t db)).
Proof.
  intros Hv Ht. unfold post_save. run.
  destruct (Schema.post_errors _ _ _) eqn:E; [|done].
  destruct (modified t); [done|].
  destruct (posts db !! po_id (doc t)) as [p|] eqn:Hp; [|done].
  cbn [final]. apply db_valid_insert_post; [done|].
  apply saved_post_valid; [|done..]. by apply (proj2 (proj2 Hv) _ _ Hp).
Qed.

Lemma assign_post_trimmed v (t : Tracked PostObj) :
  post_trimmed (doc t) →
  post_trimmed (doc (assign "title" po_title with_title v t))
  ∧ post_trimmed (doc (assign "content" po_content with_content v t))
  ∧ post_trimmed (doc (assign_userId v t)).
Proof.
  intros (Ht & Hc). unfold assign, assign_userId.
  repeat split; repeat case_match; cbn [doc]; try done;
    cbn [po_title po_content with_title with_content with_userId];
    intros x Hx; by apply (castTrimmed_trimmed v).
Qed.

Lemma loaded_post_trimmed i p : post_valid p → post_trimmed (loaded_post i p).
Proof. intros (_ & Ht & Hc). split; intros x [= <-]; done. Qed.

Lemma present_or_missing body (ks : list string) :
  (∀ k, k ∈ ks → present body k) ∨ (∃ k, k ∈ ks ∧ ¬ present body k).
Proof.
  destruct (decide (Forall (present body) ks)) as [H|H].
  - left. by apply Forall_forall.
  - right. apply not_Forall_Exists in H; [|apply _]. by apply Exists_exists in H.
Qed.

Lemma handle_final m db : final (handle m db) = final (m db).
Proof. unfold handle. by destruct (m db) as [d c [e|r]]. Qed.

Lemma bind_final_pure {A B} (m : M A) (f : A → M B) db :
  (∀ a d, final (f a d) = d) → final ((m ≫= f) db) = final (m db).
Proof.
  intros H. cbv [mbind M_bind]. destruct (m db) as [d c [e|a]]; [done|].
  specialize (H a d). by destruct (f a d).
Qed.

Lemma bind_final {A B} (m : M A) (f : A → M B) db (P : Db → Prop) :
  P (final (m db)) → (∀ a d, P d → P (final (f a d))) → P (final ((m ≫= f) db)).
Proof.
  intros Hm H. cbv [mbind M_bind]. destruct (m db) as [d c [e|a]]; [done|].
  specialize (H a d Hm). by destruct (f a d).
Qed.

Lemma castId_final id db : final (castId id db) = db.
Proof. unfold castId. by destruct (castObjectId id). Qed.

Lemma User_findById_final id db : final (User_findById id db) = db.
Proof.
  destruct (castObjectId id) eqn:E.
  - by rewrite (run_User_findById _ _ _ E).
  - by rewrite (run_User_findById_malformed _ _ E).
Qed.

Lemma User_findById_loaded id db o :
  value (User_findById id db) = inr (Some o) →
  ∃ i u, users db !! i = Some u ∧ o = loaded_user i u.
Proof.
  destruct (castObjectId id) as [i|] eqn:E.
  - rewrite (run_User_findById _ _ _ E). cbn [value].
    destruct (users db !! i) as [u|] eqn:Hu; [|discriminate].
    intros [= <-]. by exists i, u.
  - by rewrite (run_User_findById_malformed _ _ E).
Qed.

Lemma Post_findById_final id db : final (Post_findById id db) = db.
Proof.
  unfold Post_findById. run. rewrite <- (castId_final id db) at 2.
  by destruct (castId id db) as [d c [e|a]].
Qed.

Lemma Post_findById_loaded id db o :
  value (Post_findById id db) = inr (Some o) →
  ∃ i p, posts db !! i = Some p ∧ o = loaded_post i p.
Proof.
  destruct (castObjectId id) as [i|] eqn:E.
  - rewrite (run_Post_findById _ _ _ E). cbn [value].
    destruct (posts db !! i) as [p|] eqn:Hp; [|discriminate].
    intros [= <-]. by exists i, p.
  - unfold Post_findById. run. unfold castId. by rewrite E.
Qed.

(** A request with the four fields well shaped and an email nobody has is
    answered 200 with the new user, whose [_id] is the generated one. *)
Lemma createUser_new_email env req db f l e p :
  body_of req !! "firstName" = Some (JsString f) → JS.trim f ≠ "" →
  body_of req !! "lastName" = Some (JsString l) → JS.trim l ≠ "" →
  body_of req !! "email" = Some (JsString e) →
  JS.test Schema.email_pattern (JS.trim e) = true →
  body_of req !! "password" = Some (JsString p) → (6 ≤ String.length p)%nat →
  body_of req !! "isActive" = None →
  email_free (JS.trim e) None (users db) →
  users db !! env_oid env = None →
  createUser env req db =
    {| final :=
         set_users
           (<[env_oid env :=
                {| u_firstName := JS.trim f; u_lastName := JS.trim l;
                   u_email := JS.trim e; u_password := p; u_isActive := true;
                   u_createdAt := env_now env; u_updatedAt := env_now env |}]>
              (users db)) db;
       calls := [CallFindOne User (JsString e); CallCreate User];
       value :=
         inr {| status := 200;
                json := JsonUser
                  {| uo_id := env_oid env; uo_firstName := Some (JS.trim f);
                     uo_lastName := Some (JS.trim l); uo_email := Some (JS.trim e);
                     uo_password := Some p; uo_isActive := true;
                     uo_createdAt := env_now env; uo_updatedAt := env_now env |} |} |}.
Proof.
  intros Hf Hf' Hl Hl' He He' Hp Hp' Ha Hfree Hfresh.
  assert (Hpne : p ≠ "") by (intros ->; cbn in Hp'; lia).
  assert (Hpr : ∀ k, k ∈ ["firstName"; "lastName"; "email"; "password"] →
                     present (body_of req) k).
  { intros k Hk. apply list_elem_of_In in Hk. cbn [In] in Hk.
    destruct Hk as [<-|[<-|[<-|[<-|[]]]]].
    - apply (present_string _ _ f Hf). by apply trim_nonempty.
    - apply (present_string _ _ l Hl). by apply trim_nonempty.
    - apply (present_string _ _ e He). apply trim_nonempty.
      by apply (test_nonempty Schema.email_pattern).
    - by apply (present_string _ _ p Hp). }
  rewrite (createUser_present _ _ _ Hpr). unfold field.
  rewrite Hf, Hl, He, Hp, Ha. cbn [default id]. run.
  rewrite run_User_findOne, (matching_user_none db (JsString e))
    by (by intros e0 [= <-]).
  unfold User_create, new_user. cbn [castTrimmed castString castBoolean fmap option_fmap option_map].
  assert (E : Schema.user_errors true (Some (JS.trim f)) (Some (JS.trim l))
                (Some (JS.trim e)) (Some p) (@CastAbsent bool) = []).
  { apply user_errors_nil.
    pose proof (test_nonempty Schema.email_pattern _ eq_refl He') as Hne.
    unfold Schema.required, Schema.matches, Schema.minlength, JS.length.
    rewrite He'. apply Nat.leb_le in Hp'. rewrite Hp'.
    destruct (JS.trim f), (JS.trim l), (JS.trim e), p; by repeat split. }
  rewrite E. run.
  destruct (decide (is_Some (users db !! env_oid env))) as [[x Hx]|_]; [congruence|].
  cbn [u_email]. rewrite (decide_True (P := email_free _ _ _)) by done.
  reflexivity.
Qed.

Lemma assign_modified {A} path (get : A → option string) set v (t : Tracked A) :
  modified (assign path get set v t) ⊆ path :: modified t.
Proof.
  unfold assign. case_decide; cbn [modified]; [|done].
  intros x Hx. by right.
Qed.

(** Whatever the request, [updateUser] leaves the password, [isActive] and
    [createdAt] of every stored user as they were, and stores no new user. *)
Lemma updateUser_frame env req db j v :
  users (final (updateUser env req db)) !! j = Some v →
  ∃ v0, users db !! j = Some v0
        ∧ u_password v = u_password v0
        ∧ u_isActive v = u_isActive v0
        ∧ u_createdAt v = u_createdAt v0.
Proof.
  assert (Same : users db !! j = Some v →
    ∃ v0, users db !! j = Some v0 ∧ u_password v = u_password v0
          ∧ u_isActive v = u_isActive v0 ∧ u_createdAt v = u_createdAt v0)
    by (intros ?; by exists v).
  destruct (present_or_missing (body_of req)
              ["firstName"; "lastName"; "email"]) as [H|(k & Hk & H)];
    [|by rewrite (updateUser_missing _ _ _ k Hk H)].
  rewrite (updateUser_present _ _ _ H), handle_final.
  cbv [mbind M_bind]. pose proof (User_findById_final (req_id req) db) as Hf.
  pose proof (User_findById_loaded (req_id req) db) as Hl.
  destruct (User_findById (req_id req) db) as [d c [e|[o|]]];
    cbn [final value] in *; subst d; [done| |done].
  destruct (Hl o eq_refl) as (i & u & Hu & ->).
  match goal with |- context [user_save env ?t db] => set (t0 := t) end.
  assert (Hm : "password" ∉ modified t0).
  { intros Hin. subst t0.
    apply assign_modified, elem_of_cons in Hin as [|Hin]; [done|].
    apply assign_modified, elem_of_cons in Hin as [|Hin]; [done|].
    apply assign_modified, elem_of_cons in Hin as [|Hin]; [done|].
    by apply not_elem_of_nil in Hin. }
  assert (Hid : uo_id (doc t0) = i).
  { subst t0. unfold assign. by repeat case_decide. }
  assert (F : users (final (user_save env t0 db)) !! j = Some v →
    ∃ v0, users db !! j = Some v0 ∧ u_password v = u_password v0
          ∧ u_isActive v = u_isActive v0 ∧ u_createdAt v = u_createdAt v0).
  { unfold user_save. cbv [mbind M_bind mret M_ret call read write throw].
    destruct (invalid t0 ++ _)%list; [|done].
    destruct (modified t0) eqn:Em; [done|]. rewrite Hid, Hu.
    destruct (decide (_ ∨ email_free _ _ _)); [|done].
    cbn [final users set_users].
    destruct (decide (j = i)) as [->|Hj].
    - rewrite lookup_insert_eq. intros [= <-]. exists u. split; [done|].
      unfold saved_user. cbn [u_password u_isActive u_createdAt].
      rewrite decide_False by (by rewrite Em). done.
    - by rewrite lookup_insert_ne. }
  by destruct (user_save env t0 db) as [d' c' [e'|o']].
Qed.

Section Valid.

Context (env : Env) (req : Request) (db : Db) (Hv : db_valid db).

Lemma getUsers_valid : db_valid (final (getUsers req db)).
Proof. by rewrite getUsers_run. Qed.

Lemma getPosts_valid : db_valid (final (getPosts req db)).
Proof. by rewrite getPosts_run. Qed.

Lemma getUserById_valid : db_valid (final (getUserById req db)).
Proof.
  unfold getUserById. rewrite handle_final, bind_final_pure, User_findById_final; [done|].
  by intros [o|] d.
Qed.

Lemma getPostById_valid : db_valid (final (getPostById req db)).
Proof.
  unfold getPostById. rewrite handle_final, bind_final_pure.
  - destruct (castObjectId (req_id req)) eqn:E.
    + by rewrite (run_Post_findById_populate _ _ _ E).
    + by rewrite (run_Post_findById_populate_malformed _ _ E).
  - by intros [o|] d.
Qed.

Lemma deleteUser_valid : db_valid (final (deleteUser req db)).
Proof.
  destruct (castObjectId (req_id req)) as [i|] eqn:E.
  - rewrite (deleteUser_run _ _ _ E). destruct (users db !! i); [|done].
    by apply db_valid_delete_user.
  - unfold deleteUser, User_findByIdAndDelete. run. unfold castId. by rewrite E.
Qed.

Lemma deletePost_valid : db_valid (final (deletePost req db)).
Proof.
  destruct (castObjectId (req_id req)) as [i|] eqn:E.
  - rewrite (deletePost_run _ _ _ E). destruct (posts db !! i); [|done].
    by apply db_valid_delete_post.
  - unfold deletePost, Post_findByIdAndDelete. run. unfold castId. by rewrite E.
Qed.

Lemma createUser_valid : db_valid (final (createUser env req db)).
Proof.
  destruct (present_or_missing (body_of req)
              ["firstName"; "lastName"; "email"; "password"]) as [H|(k & Hk & H)].
  - rewrite (createUser_present _ _ _ H), handle_final.
    apply bind_final; [done|]. intros [o|] d Hd; [done|].
    apply bind_final; [|done].
    destruct (User_create_final env (field (body_of req) "firstName")
      (field (body_of req) "lastName") (field (body_of req) "email")
      (field (body_of req) "password") (field (body_of req) "isActive") d)
      as [->|(u & Hu & _ & Hf & ->)]; [done|].
    apply db_valid_insert_user; [done..|]. by apply email_free_weaken.
  - by rewrite (createUser_missing _ _ _ k Hk H).
Qed.

Lemma updateUser_valid : db_valid (final (updateUser env req db)).
Proof.
  destruct (present_or_missing (body_of req)
              ["firstName"; "lastName"; "email"]) as [H|(k & Hk & H)].
  - rewrite (updateUser_present _ _ _ H), handle_final.
    cbv [mbind M_bind]. pose proof (User_findById_final (req_id req) db) as Hf.
    pose proof (User_findById_loaded (req_id req) db) as Hl.
    destruct (User_findById (req_id req) db) as [d c [e|[o|]]];
      cbn [final value] in *; subst d; [done| |done].
    destruct (Hl o eq_refl) as (i & u & Hu & ->).
    match goal with |- context [user_save env ?t db] =>
      pose proof (user_save_valid env t db Hv) as Hs;
      destruct (user_save env t db) as [d' c' [e'|o']] end;
      cbn [final] in *; apply Hs;
      apply assign_user_trimmed, assign_user_trimmed, assign_user_trimmed;
      apply loaded_user_trimmed, (proj1 Hv _ _ Hu).
  - by rewrite (updateUser_missing _ _ _ k Hk H).
Qed.

Lemma createPost_valid : db_valid (final (createPost env req db)).
Proof.
  destruct (present_or_missing (body_of req)
              ["title"; "content"; "userId"]) as [H|(k & Hk & H)].
  - rewrite (createPost_present _ _ _ H), handle_final.
    apply bind_final; [|intros o d Hd; by apply bind_final].
    destruct (Post_create_final env (field (body_of req) "title")
      (field (body_of req) "content") (field (body_of req) "userId") db)
      as [->|(p & Hp & ->)]; [done|].
    by apply db_valid_insert_post.
  - by rewrite (createPost_missing _ _ _ k Hk H).
Qed.

Lemma updatePost_valid : db_valid (final (updatePost env req db)).
Proof.
  destruct (present_or_missing (body_of req)
              ["title"; "content"; "userId"]) as [H|(k & Hk & H)].
  - unfold updatePost. parsed H "title". cbv beta zeta.
    match goal with |- context [if ?c then _ else _] =>
      assert (C : c = false) by all_present H end.
    rewrite handle_final. cbv [mbind M_bind mret M_ret]. rewrite C.
    pose proof (Post_findById_final (req_id req) db) as Hf.
    pose proof (Post_findById_loaded (req_id req) db) as Hl.
    destruct (Post_findById (req_id req) db) as [d c [e|[o|]]];
      cbn [final value] in *; subst d; [done| |done].
    destruct (Hl o eq_refl) as (i & p & Hp & ->).
    match goal with |- context [post_save env ?t db] =>
      pose proof (post_save_valid env t db Hv) as Hs;
      destruct (post_save env t db) as [d' c' [e'|o']] end;
      cbn [final] in *.
    all: assert (db_valid d') by
      (apply Hs; apply assign_post_trimmed, assign_post_trimmed, assign_post_trimmed;
       apply loaded_post_trimmed, (proj2 (proj2 Hv) _ _ Hp)).
    all: done.
  - by rewrite (updatePost_missing _ _ _ k Hk H).
Qed.

End Valid.

(** ** Sample requests *)

Section Samples.

Import Sample.

Lemma db1_valid : db_valid db1.
Proof.
  split; [|split].
  - apply map_Forall_singleton. by vm_compute.
  - intros i j u v Hi Hj _. cbn [users db1] in Hi, Hj.
    apply lookup_singleton_Some in Hi as [<- _].
    by apply lookup_singleton_Some in Hj as [<- _].
  - apply map_Forall_singleton. by vm_compute.
Qed.

Lemma createUser_duplicate_email_witness :
  createUser env1 req_duplicate db1 =
    {| final := db1;
       calls := [CallFindOne User (JsString "ada@example.org")];
       value := inr {| status := 400; json := JsonError "User already exists" |} |}.
Proof.
  refine (proj1 (createUser_duplicate_email env1 req_duplicate db1
                   "ada@example.org" ada_oid ada db1_valid _ _ _ _)).
  - intros k Hk. apply list_elem_of_In in Hk. cbn [In] in Hk.
    destruct Hk as [<-|[<-|[<-|[<-|[]]]]]; reflexivity.
  - reflexivity.
  - reflexivity.
  - reflexivity.
Defined.

(** A field that is there and empty does not pass the presence check: the
    answer names the required fields even when the email is taken. *)
Example createUser_empty_field_is_missing :
  createUser env1
    {| req_id := "";
       req_body := body [("firstName", JsString ""); ("lastName", JsString "King");
                         ("email", JsString "ada@example.org");
                         ("password", JsString "difference")] |} db1
  = {| final := db1; calls := [];
       value := inr {| status := 400;
                       json := JsonError
                         "firstName, lastName, email, and password are required" |} |}.
Proof. by vm_compute. Qed.

(** The same email with white space around it is the same email. *)
Example createUser_duplicate_trimmed :
  value (createUser env1
           {| req_id := "";
              req_body := body [("firstName", JsString "Augusta");
                                ("lastName", JsString "King");
                                ("email", JsString " ada@example.org ");
                                ("password", JsString "difference")] |} db1)
  = inr {| status := 400; json := JsonError "User already exists" |}.
Proof. by vm_compute. Qed.

Lemma createPost_without_user_witness :
  value (createPost env1 req_post_dangling db1)
  = inr {| status := 200;
           json := JsonPost
             {| po_id := other_oid; po_title := Some "Orphan";
                po_content := Some "No author"; po_userId := Some RefNull;
                po_createdAt := 200; po_updatedAt := 200 |} |}
  ∧ value (getPostById (get other_id) (final (createPost env1 req_post_dangling db1)))
    = inr {| status := 200;
             json := JsonPost
               {| po_id := other_oid; po_title := Some "Orphan";
                  po_content := Some "No author"; po_userId := Some RefNull;
                  po_createdAt := 200; po_updatedAt := 200 |} |}.
Proof.
  assert (Ht : JS.trim "Orphan" ≠ "") by (by vm_compute).
  assert (Hc : JS.trim "No author" ≠ "") by (by vm_compute).
  assert (Hu : castObjectId post_id = Some post_oid) by reflexivity.
  assert (Hf : posts db1 !! env_oid env1 = None) by reflexivity.
  assert (Hn : users db1 !! post_oid = None) by reflexivity.
  destruct (createPost_without_user env1 req_post_dangling db1
              "Orphan" "No author" post_id post_oid
              eq_refl Ht eq_refl Hc eq_refl Hu Hf) as (_ & _ & _ & _ & H).
  destruct (H Hn) as [H1 H2]. split.
  - exact H1.
  - apply (H2 (get other_id)). reflexivity.
Defined.

(** A [userId] that is not an id: all three fields are present, and the
    creation fails. *)
Lemma createPost_malformed_userId :
  present (body_of req_post_bad_userId) "title"
  ∧ present (body_of req_post_bad_userId) "content"
  ∧ present (body_of req_post_bad_userId) "userId"
  ∧ createPost env1 req_post_bad_userId db1 =
      {| final := db1;
         calls := [CallCreate Post];
         value := inr {| status := 500;
                         json := JsonFailure
                           (ValidationError "Post" [("userId", PathCast)]) |} |}.
Proof. repeat split; by vm_compute. Qed.

Lemma updateUser_overwrites_witness :
  value (updateUser env1 req_update db1)
  = inr {| status := 200;
           json := JsonUser
             {| uo_id := ada_oid; uo_firstName := Some "Ada";
                uo_lastName := Some "Byron"; uo_email := Some "ada@example.org";
                uo_password := None; uo_isActive := true;
                uo_createdAt := 100; uo_updatedAt := 200 |} |}
  ∧ users (final (updateUser env1 req_update db1)) !! ada_oid
    = Some {| u_firstName := "Ada"; u_lastName := "Byron";
              u_email := "ada@example.org"; u_password := "analytical";
              u_isActive := true; u_createdAt := 100; u_updatedAt := 200 |}.
Proof.
  assert (Hid : castObjectId (req_id req_update) = Some ada_oid) by reflexivity.
  assert (Hu : users db1 !! ada_oid = Some ada) by reflexivity.
  assert (Hf : JS.trim " Ada " ≠ "") by (by vm_compute).
  assert (Hl : JS.trim "Byron" ≠ "") by (by vm_compute).
  assert (He : JS.test Schema.email_pattern (JS.trim "ada@example.org") = true)
    by (by vm_compute).
  assert (Hfree : email_free (JS.trim "ada@example.org") (Some ada_oid) (users db1)).
  { apply map_Forall_singleton. by left. }
  destruct (updateUser_overwrites env1 req_update db1 ada_oid ada
              " Ada " "Byron" "ada@example.org"
              Hid Hu eq_refl Hf eq_refl Hl eq_refl He Hfree) as (H1 & _ & H2 & _).
  split.
  - exact H1.
  - exact H2.
Defined.

(** An email that does not match the pattern: the three fields are present,
    the id is stored, and nothing is overwritten. *)
Lemma updateUser_invalid_email_rejected :
  castObjectId (req_id req_update_bad_email) = Some ada_oid
  ∧ users db1 !! ada_oid = Some ada
  ∧ present (body_of req_update_bad_email) "firstName"
  ∧ present (body_of req_update_bad_email) "lastName"
  ∧ present (body_of req_update_bad_email) "email"
  ∧ updateUser env1 req_update_bad_email db1 =
      {| final := db1;
         calls := [CallFindById User ada_id; CallSave User ada_oid];
         value := inr {| status := 500;
                         json := JsonFailure
                           (ValidationError "User"
                              [("email", PathMessage "Email is not valid")]) |} |}
  ∧ users (final (updateUser env1 req_update_bad_email db1)) !! ada_oid = Some ada.
Proof. repeat split; by vm_compute. Qed.

Lemma delete_twice_witness :
  value (deleteUser (get ada_id) db1)
  = inr {| status := 200; json := JsonMessage "User deleted" |}
  ∧ value (deleteUser (get ada_id) (final (deleteUser (get ada_id) db1)))
    = inr {| status := 404; json := JsonError "User not found" |}
  ∧ calls (deleteUser (get ada_id) db1) = [CallFindByIdAndDelete User ada_id].
Proof.
  assert (Hid : castObjectId (req_id (get ada_id)) = Some ada_oid) by reflexivity.
  assert (Hu : users db1 !! ada_oid = Some ada) by reflexivity.
  destruct (delete_twice (get ada_id) db1 ada_oid Hid) as (Hc & _ & H & _).
  destruct (H ada Hu) as (H1 & _ & _ & _ & H2 & _).
  split; [exact H1|]. split; [exact H2 | exact Hc].
Defined.

Lemma password_not_returned_witness :
  ∃ o, value (getUserById (get ada_id) db1)
       = inr {| status := 200; json := JsonUser o |}
       ∧ uo_id o = ada_oid ∧ uo_password o = None.
Proof.
  assert (Hid : castObjectId (req_id (get ada_id)) = Some ada_oid) by reflexivity.
  assert (Hu : users db1 !! ada_oid = Some ada) by reflexivity.
  destruct (password_not_returned (get ada_id) db1) as (_ & H & _).
  destruct (H ada_oid ada Hid Hu) as (o & H1 & H2 & H3 & _).
  exists o. split; [exact H1|]. split; [exact H2 | exact H3].
Defined.

(** The user [create] returns is the document it built: password included. *)
Example createUser_returns_password :
  value (createUser env1
           {| req_id := "";
              req_body := body [("firstName", JsString "Grace");
                                ("lastName", JsString "Hopper");
                                ("email", JsString "grace@example.org");
                                ("password", JsString "compiler")] |} db1)
  = inr {| status := 200;
           json := JsonUser
             {| uo_id := other_oid; uo_firstName := Some "Grace";
                uo_lastName := Some "Hopper"; uo_email := Some "grace@example.org";
                uo_password := Some "compiler"; uo_isActive := true;
                uo_createdAt := 200; uo_updatedAt := 200 |} |}.
Proof. by vm_compute. Qed.

Lemma createUser_missing_field_witness :
  createUser env1 req_no_password db1 =
    {| final := db1; calls := [];
       value := inr {| status := 400;
                       json := JsonError
                         "firstName, lastName, email, and password are required" |} |}.
Proof.
  assert (Hk : "password" ∈ ["firstName"; "lastName"; "email"; "password"])
    by (repeat constructor).
  pose (b := body_of req_no_password).
  assert (E : req_body req_no_password = Some b) by reflexivity.
  assert (Hm : b !! "password" = None) by reflexivity.
  exact (proj1 (createUser_missing_field env1 req_no_password db1)
           b "password" E Hk (or_introl Hm)).
Defined.

(** No body at all: every field is missing, and the answer is 500, not
    400. *)
Lemma createUser_without_body :
  req_body (get "") = None
  ∧ (∀ k, ¬ present (body_of (get "")) k)
  ∧ createUser env1 (get "") db1 =
      {| final := db1; calls := [];
         value := inr {| status := 500;
                         json := JsonFailure (TypeError "firstName") |} |}
  ∧ (∀ j, value (createUser env1 (get "") db1) ≠ inr {| status := 400; json := j |}).
Proof.
  split; [reflexivity|]. split; [|split].
  - intros k. apply absent_not_present. apply lookup_empty.
  - reflexivity.
  - intros j. discriminate.
Qed.

(** The shape of the email and the length of the password are the storage
    layer's business: the request passes the check of the handler, and the
    validators of the schema reject it. *)
Example createUser_format_checked_by_storage :
  createUser env1 req_bad_format db1 =
    {| final := db1;
       calls := [CallFindOne User (JsString "grace"); CallCreate User];
       value := inr {| status := 500;
                       json := JsonFailure
                         (ValidationError "User"
                            [("email", PathMessage "Email is not valid");
                             ("password",
                              PathMessage
                                "Password must be at least 6 characters long")]) |} |}.
Proof. by vm_compute. Qed.

Lemma get_by_id_not_found_witness :
  value (getUserById (get other_id) db1)
  = inr {| status := 404; json := JsonError "User not found" |}
  ∧ value (getPostById (get other_id) db1)
    = inr {| status := 404; json := JsonError "Post not found" |}
  ∧ value (getPostById (get post_id) db1)
    = inr {| status := 200;
             json := JsonPost
               {| po_id := post_oid; po_title := Some "Hello";
                  po_content := Some "First post";
                  po_userId :=
                    Some (RefUser ada_oid "Ada" "Lovelace" "ada@example.org");
                  po_createdAt := 110; po_updatedAt := 110 |} |}.
Proof.
  assert (Hid : castObjectId (req_id (get other_id)) = Some other_oid) by reflexivity.
  assert (Hid' : castObjectId (req_id (get post_id)) = Some post_oid) by reflexivity.
  assert (Hu : users db1 !! other_oid = None) by reflexivity.
  assert (Hp : posts db1 !! other_oid = None) by reflexivity.
  assert (Hp' : posts db1 !! post_oid = Some hello) by reflexivity.
  destruct (get_by_id_not_found (get other_id) db1 other_oid Hid) as (H1 & H2 & _).
  destruct (get_by_id_not_found (get post_id) db1 post_oid Hid') as (_ & _ & H3).
  split; [exact (H1 Hu)|]. split; [exact (H2 Hp) | exact (H3 hello Hp')].
Defined.

Lemma getPosts_populated_witness :
  ∃ ps,
    value (getPosts (get "") db1) = inr {| status := 200; json := JsonPosts ps |}
    ∧ length ps = 1
    ∧ {| po_id := post_oid; po_title := Some "Hello";
         po_content := Some "First post";
         po_userId := Some (RefUser ada_oid "Ada" "Lovelace" "ada@example.org");
         po_createdAt := 110; po_updatedAt := 110 |} ∈ ps.
Proof.
  destruct (getPosts_populated (get "") db1) as (ps & H & Hl & Hm).
  exists ps. split; [by rewrite H|]. split; [exact Hl|].
  apply Hm. exists post_oid, hello. split; reflexivity.
Defined.

Lemma get_by_id_malformed_witness :
  value (getUserById (get "42") db1)
  = inr {| status := 500; json := JsonFailure (CastError "ObjectId" "42" "_id") |}
  ∧ value (getPostById (get "42") db1)
    = inr {| status := 500; json := JsonFailure (CastError "ObjectId" "42" "_id") |}.
Proof.
  assert (Hid : castObjectId (req_id (get "42")) = None) by reflexivity.
  destruct (get_by_id_malformed (get "42") db1 Hid) as (H1 & H2 & _).
  rewrite H1, H2. split; reflexivity.
Defined.

Lemma update_missing_field_witness :
  updateUser env1 req_update_no_lastName db1 =
    {| final := db1; calls := [];
       value := inr {| status := 400;
                       json := JsonError
                         "firstName, lastName, and email are required" |} |}
  ∧ users db1 !! other_oid = None.
Proof.
  assert (Hk : "lastName" ∈ ["firstName"; "lastName"; "email"]) by (repeat constructor).
  pose (b := body_of req_update_no_lastName).
  assert (E : req_body req_update_no_lastName = Some b) by reflexivity.
  assert (Hm : b !! "lastName" = None) by reflexivity.
  split.
  - exact (proj1 (update_missing_field env1 req_update_no_lastName db1)
             b "lastName" E Hk (or_introl Hm)).
  - reflexivity.
Defined.

(** No body at all, on an id that is stored: every editable field is
    missing, and the answer of both update handlers is 500, not 400. *)
Lemma update_without_body :
  req_body (get ada_id) = None
  ∧ req_body (get post_id) = None
  ∧ (∀ k, ¬ present (body_of (get ada_id)) k ∧ ¬ present (body_of (get post_id)) k)
  ∧ updateUser env1 (get ada_id) db1 =
      {| final := db1; calls := [];
         value := inr {| status := 500;
                         json := JsonFailure (TypeError "firstName") |} |}
  ∧ updatePost env1 (get post_id) db1 =
      {| final := db1; calls := [];
         value := inr {| status := 500;
                         json := JsonFailure (TypeError "title") |} |}
  ∧ (∀ j, value (updateUser env1 (get ada_id) db1) ≠ inr {| status := 400; json := j |})
  ∧ (∀ j, value (updatePost env1 (get post_id) db1) ≠ inr {| status := 400; json := j |}).
Proof.
  split; [reflexivity|]. split; [reflexivity|]. split; [|split; [|split; [|split]]].
  - intros k. split; apply absent_not_present; apply lookup_empty.
  - reflexivity.
  - reflexivity.
  - intros j. discriminate.
  - intros j. discriminate.
Qed.

End Samples.

(** * More of the handlers *)

(** ** The rest of the presence checks, and the ids of update and delete *)

Lemma updatePost_present env req db :
  (∀ k, k ∈ ["title"; "content"; "userId"] → present (body_of req) k) →
  updatePost env req db =
    handle (
      post ← Post_findById (req_id req);
      match post with
      | None => mret (res_status_json 404 (JsonError "Post not found"))
      | Some post =>
          post ← post_save env
            (assign_userId (field (body_of req) "userId")
               (assign "content" po_content with_content
                  (field (body_of req) "content")
                  (assign "title" po_title with_title
                     (field (body_of req) "title") (loaded post))));
          populatedPost ← post_populate post;
          mret (res_json (JsonPost populatedPost))
      end) db.
Proof.
  intros H. unfold updatePost. parsed H "title". run.
  match goal with |- context [if ?c then _ else _] => assert (C : c = false) by all_present H end.
  rewrite C. reflexivity.
Qed.

Lemma Post_create_calls env ti co ui db :
  calls (Post_create env ti co ui db) = [CallCreate Post].
Proof.
  unfold Post_create. run.
  destruct (new_post env ti co ui); [reflexivity|].
  destruct (decide (is_Some (posts db !! env_oid env))); reflexivity.
Qed.

(** X1: a create-Post request with a body in which [title], [content] or
    [userId] is missing is answered 400 with the message that names the
    three fields and makes no storage call; a request without a body is
    answered 500, the fields being read off [undefined], and makes no storage
    call either; when the three are present the first storage call is the
    creation itself: nothing is read before the write. *)
Theorem createPost_missing_field env req db :
  (∀ body k, req_body req = Some body →
        k ∈ ["title"; "content"; "userId"] →
        body !! k = None ∨ ¬ present body k →
        createPost env req db =
          {| final := db; calls := [];
             value := inr {| status := 400;
                             json := JsonError
                               "title, content, and userId are required" |} |})
  ∧ (req_body req = None →
        createPost env req db =
          {| final := db; calls := [];
             value := inr {| status := 500;
                             json := JsonFailure (TypeError "title") |} |})
  ∧ (∀ body, req_body req = Some body →
       (∀ k, k ∈ ["title"; "content"; "userId"] → present body k) →
       ∃ rest, calls (createPost env req db) = CallCreate Post :: rest).
Proof.
  split; [|split].
  - intros body k E Hk H. exact (createPost_missing_parsed env req db body k E Hk H).
  - apply createPost_no_body.
  - intros body E H. rewrite <- (parsed_body_of _ _ E) in H.
    rewrite (createPost_present _ _ _ H). run.
    pose proof (Post_create_calls env (field (body_of req) "title")
      (field (body_of req) "content") (field (body_of req) "userId") db) as Hc.
    destruct (Post_create _ _ _ _ db) as [d c [e|o]]; cbn [calls] in Hc; subst c.
    + by exists [].
    + by eexists.
Qed.

(** X2: the presence checks are checks of truthiness: a required field
    that is there with the empty string as its value is a missing field, for
    the four handlers that check. *)
Theorem empty_field_is_missing env req db k :
  body_of req !! k = Some (JsString "") →
  (k ∈ ["firstName"; "lastName"; "email"; "password"] →
     createUser env req db =
       {| final := db; calls := []; value := inr required_user_create |})
  ∧ (k ∈ ["firstName"; "lastName"; "email"] →
     updateUser env req db =
       {| final := db; calls := []; value := inr required_user_update |})
  ∧ (k ∈ ["title"; "content"; "userId"] →
     createPost env req db =
       {| final := db; calls := []; value := inr required_post |}
     ∧ updatePost env req db =
       {| final := db; calls := []; value := inr required_post |}).
Proof.
  intros H. apply lookup_parsed in H as (body & E & H).
  apply empty_not_present in H. split; [|split].
  - intros Hk. apply (createUser_missing_parsed _ _ _ body k); auto.
  - intros Hk. apply (updateUser_missing_parsed _ _ _ body k); auto.
  - intros Hk. split.
    + apply (createPost_missing_parsed _ _ _ body k); auto.
    + apply (updatePost_missing_parsed _ _ _ body k); auto.
Qed.

(** X3: an update whose fields are present and whose well-formed id names
    no stored record is answered 404 after the one lookup, and changes
    nothing. *)
Theorem update_not_found env req db i :
  castObjectId (req_id req) = Some i →
  ((∀ k, k ∈ ["firstName"; "lastName"; "email"] → present (body_of req) k) →
   users db !! i = None →
   updateUser env req db =
     {| final := db; calls := [CallFindById User (req_id req)];
        value := inr {| status := 404; json := JsonError "User not found" |} |})
  ∧ ((∀ k, k ∈ ["title"; "content"; "userId"] → present (body_of req) k) →
     posts db !! i = None →
     updatePost env req db =
       {| final := db; calls := [CallFindById Post (req_id req)];
          value := inr {| status := 404; json := JsonError "Post not found" |} |}).
Proof.
  intros Hid. split; intros H Hn.
  - rewrite (updateUser_present _ _ _ H). run.
    rewrite (run_User_findById _ _ _ Hid), Hn. reflexivity.
  - rewrite (updatePost_present _ _ _ H). run.
    rewrite (run_Post_findById _ _ _ Hid), Hn. reflexivity.
Qed.

Lemma run_Post_findById_malformed id db :
  castObjectId id = None →
  Post_findById id db =
    {| final := db; calls := [CallFindById Post id];
       value := inl (CastError "ObjectId" id "_id") |}.
Proof.
  intros H. unfold Post_findById. run.
  rewrite (run_castId_fail _ _ H). reflexivity.
Qed.

(** X4: a malformed id is not a missing record for update and delete
    either: the storage call throws the cast error, the answer is 500 and
    nothing changes. *)
Theorem update_delete_malformed env req db :
  castObjectId (req_id req) = None →
  let failure := {| status := 500;
                    json := JsonFailure (CastError "ObjectId" (req_id req) "_id") |} in
  deleteUser req db =
    {| final := db; calls := [CallFindByIdAndDelete User (req_id req)];
       value := inr failure |}
  ∧ deletePost req db =
    {| final := db; calls := [CallFindByIdAndDelete Post (req_id req)];
       value := inr failure |}
  ∧ ((∀ k, k ∈ ["firstName"; "lastName"; "email"] → present (body_of req) k) →
     updateUser env req db =
       {| final := db; calls := [CallFindById User (req_id req)];
          value := inr failure |})
  ∧ ((∀ k, k ∈ ["title"; "content"; "userId"] → present (body_of req) k) →
     updatePost env req db =
       {| final := db; calls := [CallFindById Post (req_id req)];
          value := inr failure |}).
Proof.
  intros Hid failure. split; [|split; [|split]].
  - unfold deleteUser, User_findByIdAndDelete. run.
    rewrite (run_castId_fail _ _ Hid). reflexivity.
  - unfold deletePost, Post_findByIdAndDelete. run.
    rewrite (run_castId_fail _ _ Hid). reflexivity.
  - intros H. rewrite (updateUser_present _ _ _ H). run.
    rewrite (run_User_findById_malformed _ _ Hid). reflexivity.
  - intros H. rewrite (updatePost_present _ _ _ H). run.
    rewrite (run_Post_findById_malformed _ _ Hid). reflexivity.
Qed.

(** ** What every request leaves alone *)

Lemma user_save_posts env t db : posts (final (user_save env t db)) = posts db.
Proof.
  unfold user_save. cbv [mbind M_bind mret M_ret call read write throw].
  destruct (invalid t ++ _)%list; [|done].
  destruct (modified t); [done|].
  destruct (users db !! uo_id (doc t)); [|done].
  by destruct (decide (_ ∨ email_free _ _ _)).
Qed.

Lemma post_save_users env t db : users (final (post_save env t db)) = users db.
Proof.
  unfold post_save. cbv [mbind M_bind mret M_ret call read write throw].
  destruct (Schema.post_errors _ _ _); [|done].
  destruct (modified t); [done|].
  by destruct (posts db !! po_id (doc t)).
Qed.

Lemma User_create_posts env fn ln em pw ia db :
  posts (final (User_create env fn ln em pw ia db)) = posts db.
Proof.
  by destruct (User_create_final env fn ln em pw ia db) as [->|(u & _ & _ & _ & ->)].
Qed.

Lemma Post_create_users env ti co ui db :
  users (final (Post_create env ti co ui db)) = users db.
Proof. by destruct (Post_create_final env ti co ui db) as [->|(p & _ & ->)]. Qed.

Lemma deleteUser_final req db :
  final (deleteUser req db) = db
  ∨ ∃ i u, castObjectId (req_id req) = Some i ∧ users db !! i = Some u
      ∧ deleteUser req db =
          {| final := set_users (delete i (users db)) db;
             calls := [CallFindByIdAndDelete User (req_id req)];
             value := inr (deleted User) |}.
Proof.
  destruct (castObjectId (req_id req)) as [i|] eqn:E.
  - rewrite (deleteUser_run _ _ _ E). destruct (users db !! i) as [u|] eqn:Hu.
    + right. by exists i, u.
    + by left.
  - left. unfold deleteUser, User_findByIdAndDelete. run.
    by rewrite (run_castId_fail _ _ E).
Qed.

Lemma deletePost_final req db :
  final (deletePost req db) = db
  ∨ ∃ i p, castObjectId (req_id req) = Some i ∧ posts db !! i = Some p
      ∧ deletePost req db =
          {| final := set_posts (delete i (posts db)) db;
             calls := [CallFindByIdAndDelete Post (req_id req)];
             value := inr (deleted Post) |}.
Proof.
  destruct (castObjectId (req_id req)) as [i|] eqn:E.
  - rewrite (deletePost_run _ _ _ E). destruct (posts db !! i) as [p|] eqn:Hp.
    + right. by exists i, p.
    + by left.
  - left. unfold deletePost, Post_findByIdAndDelete. run.
    by rewrite (run_castId_fail _ _ E).
Qed.

Lemma getUserById_final req db : final (getUserById req db) = db.
Proof.
  unfold getUserById. rewrite handle_final, bind_final_pure, User_findById_final; [done|].
  by intros [o|] d.
Qed.

Lemma getPostById_final req db : final (getPostById req db) = db.
Proof.
  destruct (castObjectId (req_id req)) eqn:E.
  - by rewrite (getPostById_run _ _ _ E).
  - by rewrite (getPostById_run_malformed _ _ E).
Qed.

(** X5: the handlers of a resource write to the collection of that
    resource only: no request on users changes a post, no request on posts
    changes a user, and the four reading handlers change nothing at all. In
    particular there is no cascade from users to posts. *)
Theorem handlers_keep_to_their_collection env req db :
  final (getUsers req db) = db
  ∧ final (getUserById req db) = db
  ∧ final (getPosts req db) = db
  ∧ final (getPostById req db) = db
  ∧ posts (final (createUser env req db)) = posts db
  ∧ posts (final (updateUser env req db)) = posts db
  ∧ posts (final (deleteUser req db)) = posts db
  ∧ users (final (createPost env req db)) = users db
  ∧ users (final (updatePost env req db)) = users db
  ∧ users (final (deletePost req db)) = users db.
Proof.
  split; [by rewrite getUsers_run|]. split; [apply getUserById_final|].
  split; [by rewrite getPosts_run|]. split; [apply getPostById_final|].
  split; [|split; [|split; [|split; [|split]]]].
  - destruct (present_or_missing (body_of req)
                ["firstName"; "lastName"; "email"; "password"]) as [H|(k & Hk & H)];
      [|by rewrite (createUser_missing _ _ _ k Hk H)].
    rewrite (createUser_present _ _ _ H), handle_final.
    apply (bind_final _ _ _ (λ d, posts d = posts db)); [done|].
    intros [o|] d Hd; [done|].
    apply (bind_final _ _ _ (λ d, posts d = posts db)); [|done].
    by rewrite User_create_posts.
  - destruct (present_or_missing (body_of req)
                ["firstName"; "lastName"; "email"]) as [H|(k & Hk & H)];
      [|by rewrite (updateUser_missing _ _ _ k Hk H)].
    rewrite (updateUser_present _ _ _ H), handle_final.
    apply (bind_final _ _ _ (λ d, posts d = posts db));
      [by rewrite User_findById_final|].
    intros [o|] d Hd; [|done].
    apply (bind_final _ _ _ (λ d, posts d = posts db)); [|done].
    by rewrite user_save_posts.
  - by destruct (deleteUser_final req db) as [->|(i & u & _ & _ & ->)].
  - destruct (present_or_missing (body_of req)
                ["title"; "content"; "userId"]) as [H|(k & Hk & H)];
      [|by rewrite (createPost_missing _ _ _ k Hk H)].
    rewrite (createPost_present _ _ _ H), handle_final.
    apply (bind_final _ _ _ (λ d, users d = users db));
      [by rewrite Post_create_users|].
    intros o d Hd. by apply (bind_final _ _ _ (λ d, users d = users db)).
  - destruct (present_or_missing (body_of req)
                ["title"; "content"; "userId"]) as [H|(k & Hk & H)];
      [|by rewrite (updatePost_missing _ _ _ k Hk H)].
    rewrite (updatePost_present _ _ _ H), handle_final.
    apply (bind_final _ _ _ (λ d, users d = users db));
      [by rewrite Post_findById_final|].
    intros [o|] d Hd; [|done].
    apply (bind_final _ _ _ (λ d, users d = users db));
      [by rewrite post_save_users|].
    intros o' d' Hd'. by apply (bind_final _ _ _ (λ d, users d = users db)).
  - by destruct (deletePost_final req db) as [->|(i & p & _ & _ & ->)].
Qed.

(** X6: the database is valid after every request on a valid database:
    each stored document passes the validators of its schema, with its
    trimmed paths trimmed, and no two users have the same email. *)
Theorem handlers_keep_valid env req db :
  db_valid db →
  db_valid (final (getUsers req db))
  ∧ db_valid (final (createUser env req db))
  ∧ db_valid (final (getUserById req db))
  ∧ db_valid (final (updateUser env req db))
  ∧ db_valid (final (deleteUser req db))
  ∧ db_valid (final (getPosts req db))
  ∧ db_valid (final (createPost env req db))
  ∧ db_valid (final (getPostById req db))
  ∧ db_valid (final (updatePost env req db))
  ∧ db_valid (final (deletePost req db)).
Proof.
  intros Hv.
  split; [by apply getUsers_valid|]. split; [by apply createUser_valid|].
  split; [by apply getUserById_valid|]. split; [by apply updateUser_valid|].
  split; [by apply deleteUser_valid|]. split; [by apply getPosts_valid|].
  split; [by apply createPost_valid|]. split; [by apply getPostById_valid|].
  split; [by apply updatePost_valid | by apply deletePost_valid].
Qed.

(** Closes a goal [value _ = inr r → _] whose answer is 200 or 500, from
    [Hs : status r = 400 ∨ status r = 404]. *)
Ltac refuse Hs :=
  cbn [value final]; intros [= <-];
  cbn [status res_json res_status_json] in Hs; destruct Hs; discriminate.

(** X7: a request that is answered 400 or 404 has changed nothing: every
    handler sends these answers before it writes. *)
Theorem rejected_requests_change_nothing env req db r :
  status r = 400 ∨ status r = 404 →
  (value (createUser env req db) = inr r → final (createUser env req db) = db)
  ∧ (value (updateUser env req db) = inr r → final (updateUser env req db) = db)
  ∧ (value (deleteUser req db) = inr r → final (deleteUser req db) = db)
  ∧ (value (createPost env req db) = inr r → final (createPost env req db) = db)
  ∧ (value (updatePost env req db) = inr r → final (updatePost env req db) = db)
  ∧ (value (deletePost req db) = inr r → final (deletePost req db) = db).
Proof.
  intros Hs. split; [|split; [|split; [|split; [|split]]]].
  - destruct (present_or_missing (body_of req)
                ["firstName"; "lastName"; "email"; "password"]) as [H|(k & Hk & H)];
      [|by rewrite (createUser_missing _ _ _ k Hk H)].
    rewrite (createUser_present _ _ _ H). run. rewrite run_User_findOne.
    destruct (matching_user db _); [done|].
    destruct (User_create _ _ _ _ _ _ db) as [d c [e|o]]; refuse Hs.
  - destruct (present_or_missing (body_of req)
                ["firstName"; "lastName"; "email"]) as [H|(k & Hk & H)];
      [|by rewrite (updateUser_missing _ _ _ k Hk H)].
    rewrite (updateUser_present _ _ _ H). run.
    pose proof (User_findById_final (req_id req) db) as Hf.
    destruct (User_findById (req_id req) db) as [d c [e|[o|]]];
      cbn [final] in Hf; subst d; [done| |done].
    destruct (user_save env _ db) as [d' c' [e'|o']]; refuse Hs.
  - destruct (deleteUser_final req db) as [->|(i & u & _ & _ & ->)]; [done|].
    unfold deleted. refuse Hs.
  - destruct (present_or_missing (body_of req)
                ["title"; "content"; "userId"]) as [H|(k & Hk & H)];
      [|by rewrite (createPost_missing _ _ _ k Hk H)].
    rewrite (createPost_present _ _ _ H). unfold post_populate. run.
    destruct (Post_create _ _ _ _ db) as [d c [e|o]]; refuse Hs.
  - destruct (present_or_missing (body_of req)
                ["title"; "content"; "userId"]) as [H|(k & Hk & H)];
      [|by rewrite (updatePost_missing _ _ _ k Hk H)].
    rewrite (updatePost_present _ _ _ H). unfold post_populate. run.
    pose proof (Post_findById_final (req_id req) db) as Hf.
    destruct (Post_findById (req_id req) db) as [d c [e|[o|]]];
      cbn [final] in Hf; subst d; [done| |done].
    destruct (post_save env _ db) as [d' c' [e'|o']]; refuse Hs.
  - destruct (deletePost_final req db) as [->|(i & p & _ & _ & ->)]; [done|].
    unfold deleted. refuse Hs.
Qed.

(** ** The storage calls of a request *)

Lemma user_save_calls env t db :
  calls (user_save env t db) = [CallSave User (uo_id (doc t))].
Proof.
  unfold user_save. cbv [mbind M_bind mret M_ret call read write throw].
  destruct (invalid t ++ _)%list; [|done].
  destruct (modified t); [done|].
  destruct (users db !! uo_id (doc t)); [|done].
  by destruct (decide (_ ∨ email_free _ _ _)).
Qed.

Lemma post_save_calls env t db :
  calls (post_save env t db) = [CallSave Post (po_id (doc t))].
Proof.
  unfold post_save. cbv [mbind M_bind mret M_ret call read write throw].
  destruct (Schema.post_errors _ _ _); [|done].
  destruct (modified t); [done|].
  by destruct (posts db !! po_id (doc t)).
Qed.

Lemma assigned_user_id fn ln em o :
  uo_id (doc (assign "email" uo_email with_email em
                (assign "lastName" uo_lastName with_lastName ln
                   (assign "firstName" uo_firstName with_firstName fn (loaded o)))))
  = uo_id o.
Proof. unfold assign. by repeat case_decide. Qed.

Lemma assigned_post_id ti co ui o :
  po_id (doc (assign_userId ui
                (assign "content" po_content with_content co
                   (assign "title" po_title with_title ti (loaded o)))))
  = po_id o.
Proof. unfold assign_userId, assign. by repeat case_match. Qed.

(** X8: the storage calls a request can make, in order. A handler makes at
    most three; at most one of them writes ([create], [save],
    [findByIdAndDelete]), and in the handlers that look a record up the
    lookup comes before the write. *)
Theorem storage_calls env req db :
  calls (getUsers req db) = [CallFind User]
  ∧ calls (getUserById req db) = [CallFindById User (req_id req)]
  ∧ calls (deleteUser req db) = [CallFindByIdAndDelete User (req_id req)]
  ∧ calls (getPosts req db) = [CallFind Post; CallPopulate]
  ∧ calls (getPostById req db) = [CallFindById Post (req_id req); CallPopulate]
  ∧ calls (deletePost req db) = [CallFindByIdAndDelete Post (req_id req)]
  ∧ calls (createUser env req db)
    ∈ [ []; [CallFindOne User (field (body_of req) "email")];
        [CallFindOne User (field (body_of req) "email"); CallCreate User] ]
  ∧ (∃ i, calls (updateUser env req db)
          ∈ [ []; [CallFindById User (req_id req)];
              [CallFindById User (req_id req); CallSave User i] ])
  ∧ calls (createPost env req db)
    ∈ [ []; [CallCreate Post]; [CallCreate Post; CallPopulate] ]
  ∧ (∃ i, calls (updatePost env req db)
          ∈ [ []; [CallFindById Post (req_id req)];
              [CallFindById Post (req_id req); CallSave Post i];
              [CallFindById Post (req_id req); CallSave Post i; CallPopulate] ]).
Proof.
  split; [by rewrite getUsers_run|]. split.
  { destruct (castObjectId (req_id req)) eqn:E.
    - by rewrite (getUserById_run _ _ _ E).
    - by rewrite (getUserById_run_malformed _ _ E). }
  split.
  { by destruct (deleteUser_final req db) as [Hf|(i & u & _ & _ & ->)];
      [unfold deleteUser, User_findByIdAndDelete; run;
       destruct (castId (req_id req) db) as [d c [e|i]] eqn:Ec;
       unfold castId in Ec; destruct (castObjectId (req_id req));
       injection Ec as <- <- ?; try done; destruct (users db !! i)|]. }
  split; [by rewrite getPosts_run|]. split.
  { destruct (castObjectId (req_id req)) eqn:E.
    - by rewrite (getPostById_run _ _ _ E).
    - by rewrite (getPostById_run_malformed _ _ E). }
  split.
  { by destruct (deletePost_final req db) as [Hf|(i & u & _ & _ & ->)];
      [unfold deletePost, Post_findByIdAndDelete; run;
       destruct (castId (req_id req) db) as [d c [e|i]] eqn:Ec;
       unfold castId in Ec; destruct (castObjectId (req_id req));
       injection Ec as <- <- ?; try done; destruct (posts db !! i)|]. }
  split.
  { destruct (present_or_missing (body_of req)
                ["firstName"; "lastName"; "email"; "password"]) as [H|(k & Hk & H)].
    - destruct (createUser_calls env req db H) as (rest & -> & [->| ->]).
      + right; left.
      + do 2 right; left.
    - rewrite (createUser_missing _ _ _ k Hk H). left. }
  split.
  { destruct (present_or_missing (body_of req)
                ["firstName"; "lastName"; "email"]) as [H|(k & Hk & H)];
      [|exists 0%N; rewrite (updateUser_missing _ _ _ k Hk H); left].
    rewrite (updateUser_present _ _ _ H).
    destruct (castObjectId (req_id req)) as [i|] eqn:E.
    - exists i. run. rewrite (run_User_findById _ _ _ E).
      destruct (users db !! i) as [u|]; cbn [fmap option_fmap option_map];
        [|right; left].
      match goal with |- context [user_save env ?t db] =>
        pose proof (user_save_calls env t db) as Hc;
        rewrite assigned_user_id in Hc;
        destruct (user_save env t db) as [d' c' [e'|o']] end;
        cbn [calls uo_id loaded_user] in *; subst c'; do 2 right; left.
    - exists 0%N. run. rewrite (run_User_findById_malformed _ _ E). right; left. }
  split.
  { destruct (present_or_missing (body_of req)
                ["title"; "content"; "userId"]) as [H|(k & Hk & H)];
      [|rewrite (createPost_missing _ _ _ k Hk H); left].
    rewrite (createPost_present _ _ _ H). unfold post_populate. run.
    pose proof (Post_create_calls env (field (body_of req) "title")
      (field (body_of req) "content") (field (body_of req) "userId") db) as Hc.
    destruct (Post_create _ _ _ _ db) as [d c [e|o]]; cbn [calls] in *; subst c.
    - right; left.
    - do 2 right; left. }
  destruct (present_or_missing (body_of req)
              ["title"; "content"; "userId"]) as [H|(k & Hk & H)];
    [|exists 0%N; rewrite (updatePost_missing _ _ _ k Hk H); left].
  rewrite (updatePost_present _ _ _ H). unfold post_populate.
  destruct (castObjectId (req_id req)) as [i|] eqn:E.
  - exists i. run. rewrite (run_Post_findById _ _ _ E).
    destruct (posts db !! i) as [p|]; cbn [fmap option_fmap option_map];
      [|right; left].
    match goal with |- context [post_save env ?t db] =>
      pose proof (post_save_calls env t db) as Hc;
      rewrite assigned_post_id in Hc;
      destruct (post_save env t db) as [d' c' [e'|o']] end;
      cbn [calls po_id loaded_post] in *; subst c'.
    + do 2 right; left.
    + do 3 right; left.
  - exists 0%N. run. rewrite (run_Post_findById_malformed _ _ E). right; left.
Qed.

(** ** Creating a user, and reading it back *)

Lemma new_user_ok env f l e p ia :
  JS.trim f ≠ "" → JS.trim l ≠ "" →
  JS.test Schema.email_pattern (JS.trim e) = true →
  (6 ≤ String.length p)%nat →
  castBoolean ia ≠ CastFailed →
  new_user env (JsString f) (JsString l) (JsString e) (JsString p) ia
  = inr (created_user env f l e p ia).
Proof.
  intros Hf Hl He Hp Ha. unfold new_user, created_user.
  cbn [castTrimmed castString fmap option_fmap option_map].
  assert (E : Schema.user_errors true (Some (JS.trim f)) (Some (JS.trim l))
                (Some (JS.trim e)) (Some p) (castBoolean ia) = []).
  { apply user_errors_nil.
    pose proof (test_nonempty Schema.email_pattern _ eq_refl He) as Hne.
    unfold Schema.required, Schema.matches, Schema.minlength, JS.length.
    assert (Hpne : p ≠ "") by (intros ->; cbn in Hp; lia).
    rewrite He. apply Nat.leb_le in Hp. rewrite Hp.
    destruct (JS.trim f), (JS.trim l), (JS.trim e), p, (castBoolean ia);
      by repeat split. }
  by rewrite E.
Qed.

Lemma user_body_present body f l e p :
  user_body body f l e p →
  JS.trim f ≠ "" → JS.trim l ≠ "" → JS.trim e ≠ "" → p ≠ "" →
  ∀ k, k ∈ ["firstName"; "lastName"; "email"; "password"] → present body k.
Proof.
  intros (Hf & Hl & He & Hp) Hf' Hl' He' Hp' k Hk.
  apply list_elem_of_In in Hk. cbn [In] in Hk.
  destruct Hk as [<-|[<-|[<-|[<-|[]]]]].
  - apply (present_string _ _ f Hf). by apply trim_nonempty.
  - apply (present_string _ _ l Hl). by apply trim_nonempty.
  - apply (present_string _ _ e He). by apply trim_nonempty.
  - by apply (present_string _ _ p Hp).
Qed.

Lemma user_body_fields body f l e p :
  user_body body f l e p →
  field body "firstName" = JsString f ∧ field body "lastName" = JsString l
  ∧ field body "email" = JsString e ∧ field body "password" = JsString p.
Proof. intros (Hf & Hl & He & Hp). unfold field. by rewrite Hf, Hl, He, Hp. Qed.

Lemma createUser_run_ok env req db f l e p :
  user_body (body_of req) f l e p →
  JS.trim f ≠ "" → JS.trim l ≠ "" →
  JS.test Schema.email_pattern (JS.trim e) = true →
  (6 ≤ String.length p)%nat →
  castBoolean (field (body_of req) "isActive") ≠ CastFailed →
  email_free (JS.trim e) None (users db) →
  users db !! env_oid env = None →
  createUser env req db =
    {| final :=
         set_users
           (<[env_oid env :=
                created_user env f l e p (field (body_of req) "isActive")]>
              (users db)) db;
       calls := [CallFindOne User (JsString e); CallCreate User];
       value :=
         inr (res_json (JsonUser
                (full_user (env_oid env)
                   (created_user env f l e p (field (body_of req) "isActive"))))) |}.
Proof.
  intros Hb Hf Hl He Hp Ha Hfree Hfresh.
  assert (Hne : JS.trim e ≠ "") by (by apply (test_nonempty Schema.email_pattern)).
  assert (Hpne : p ≠ "") by (intros ->; cbn in Hp; lia).
  rewrite (createUser_present _ _ _ (user_body_present _ _ _ _ _ Hb Hf Hl Hne Hpne)).
  destruct (user_body_fields _ _ _ _ _ Hb) as (-> & -> & -> & ->). run.
  rewrite run_User_findOne, (matching_user_none db (JsString e))
    by (by intros e0 [= <-]).
  unfold User_create. rewrite (new_user_ok env f l e p _ Hf Hl He Hp Ha). run.
  destruct (decide (is_Some (users db !! env_oid env))) as [[x Hx]|_]; [congruence|].
  rewrite (decide_True (P := email_free _ _ _)) by done.
  reflexivity.
Qed.

(** X9: a create-User request whose first and last name are not blank,
    whose email matches the pattern once trimmed and belongs to nobody,
    whose password has six characters or more, and whose [isActive], when
    the body has one, casts to a boolean (it is a boolean, or one of the
    strings [true], [1], [yes], [false], [0], [no]), stores the user under
    the generated id with the names and email trimmed, the password as
    given, and [isActive] as cast, or [true] when the body has none; it is
    answered 200 with the stored user, password included. *)
Theorem createUser_stores env req db f l e p :
  user_body (body_of req) f l e p →
  JS.trim f ≠ "" → JS.trim l ≠ "" →
  JS.test Schema.email_pattern (JS.trim e) = true →
  (6 ≤ String.length p)%nat →
  castBoolean (field (body_of req) "isActive") ≠ CastFailed →
  email_free (JS.trim e) None (users db) →
  users db !! env_oid env = None →
  let u :=
    {| u_firstName := JS.trim f; u_lastName := JS.trim l; u_email := JS.trim e;
       u_password := p;
       u_isActive :=
         match castBoolean (field (body_of req) "isActive") with
         | CastTo b => b
         | _ => true
         end;
       u_createdAt := env_now env; u_updatedAt := env_now env |} in
  let r := createUser env req db in
  value r = inr {| status := 200;
                   json := JsonUser
                     {| uo_id := env_oid env;
                        uo_firstName := Some (JS.trim f);
                        uo_lastName := Some (JS.trim l);
                        uo_email := Some (JS.trim e);
                        uo_password := Some p;
                        uo_isActive := u_isActive u;
                        uo_createdAt := env_now env;
                        uo_updatedAt := env_now env |} |}
  ∧ calls r = [CallFindOne User (JsString e); CallCreate User]
  ∧ users (final r) = <[env_oid env := u]> (users db)
  ∧ (body_of req !! "isActive" = None → u_isActive u = true)
  ∧ (∀ b, body_of req !! "isActive" = Some (JsBoolean b) → u_isActive u = b).
Proof.
  intros Hb Hf Hl He Hp Ha Hfree Hfresh u r. subst r.
  rewrite (createUser_run_ok env req db f l e p) by done.
  split; [reflexivity|]. split; [reflexivity|]. split; [reflexivity|].
  subst u. cbn [u_isActive]. unfold field. split.
  - by intros ->.
  - by intros b ->.
Qed.

(** X10: what was created can be read back, without its password: after a
    create-User request that stored a user, get-by-id on the generated id
    returns that user, list-Users includes it, and a second create-User
    request with the same body is answered 400 and stores nothing. *)
Theorem createUser_then_read env req db f l e p :
  user_body (body_of req) f l e p →
  JS.trim f ≠ "" → JS.trim l ≠ "" →
  JS.test Schema.email_pattern (JS.trim e) = true →
  (6 ≤ String.length p)%nat →
  castBoolean (field (body_of req) "isActive") ≠ CastFailed →
  email_free (JS.trim e) None (users db) →
  users db !! env_oid env = None →
  let db' := final (createUser env req db) in
  let shown :=
    {| uo_id := env_oid env;
       uo_firstName := Some (JS.trim f); uo_lastName := Some (JS.trim l);
       uo_email := Some (JS.trim e); uo_password := None;
       uo_isActive :=
         match castBoolean (field (body_of req) "isActive") with
         | CastTo b => b
         | _ => true
         end;
       uo_createdAt := env_now env; uo_updatedAt := env_now env |} in
  (∀ req', castObjectId (req_id req') = Some (env_oid env) →
     value (getUserById req' db') = inr {| status := 200; json := JsonUser shown |})
  ∧ (∀ req', ∃ us,
       value (getUsers req' db') = inr {| status := 200; json := JsonUsers us |}
       ∧ shown ∈ us)
  ∧ (∀ env',
       createUser env' req db' =
         {| final := db'; calls := [CallFindOne User (JsString e)];
            value := inr {| status := 400; json := JsonError "User already exists" |} |}).
Proof.
  intros Hb Hf Hl He Hp Ha Hfree Hfresh db' shown. subst db'.
  rewrite (createUser_run_ok env req db f l e p) by done. cbn [final].
  set (u := created_user env f l e p (field (body_of req) "isActive")).
  assert (Hu : users (set_users (<[env_oid env := u]> (users db)) db) !! env_oid env
               = Some u) by apply lookup_insert_eq.
  split; [|split].
  - intros req' Hid. by rewrite (getUserById_run _ _ _ Hid), Hu.
  - intros req'. eexists. rewrite getUsers_run. split; [reflexivity|].
    apply list_elem_of_fmap. exists (env_oid env, u). split; [reflexivity|].
    by apply elem_of_map_to_list.
  - intros env'.
    assert (Hne : JS.trim e ≠ "") by (by apply (test_nonempty Schema.email_pattern)).
    assert (Hpne : p ≠ "") by (intros ->; cbn in Hp; lia).
    rewrite (createUser_present _ _ _ (user_body_present _ _ _ _ _ Hb Hf Hl Hne Hpne)).
    destruct (user_body_fields _ _ _ _ _ Hb) as (_ & _ & -> & _). run.
    rewrite run_User_findOne.
    by destruct (matching_user_found _ (JsString e) (JS.trim e) (env_oid env) u
                   eq_refl Hu eq_refl) as [o ->].
Qed.

(** ** Deleting a user who has posts *)

(** X11: deleting a user deletes that user only. Afterwards get-by-id
    on the user is answered 404, the posts are all there, and a post of the
    deleted user is returned with [null] at [userId]. *)
Theorem deleteUser_leaves_posts req db i u :
  castObjectId (req_id req) = Some i →
  users db !! i = Some u →
  let db' := final (deleteUser req db) in
  posts db' = posts db
  ∧ (∀ req', castObjectId (req_id req') = Some i →
       value (getUserById req' db')
       = inr {| status := 404; json := JsonError "User not found" |})
  ∧ (∀ req' j p,
       castObjectId (req_id req') = Some j →
       posts db !! j = Some p → p_userId p = i →
       value (getPostById req' db')
       = inr {| status := 200;
                json := JsonPost
                  {| po_id := j; po_title := Some (p_title p);
                     po_content := Some (p_content p);
                     po_userId := Some RefNull;
                     po_createdAt := p_createdAt p;
                     po_updatedAt := p_updatedAt p |} |}).
Proof.
  intros Hid Hu db'. subst db'. rewrite (deleteUser_run _ _ _ Hid), Hu. cbn [final].
  assert (Hn : users (set_users (delete i (users db)) db) !! i = None)
    by apply lookup_delete_eq.
  split; [reflexivity|]. split.
  - intros req' Hid'. by rewrite (getUserById_run _ _ _ Hid'), Hn.
  - intros req' j p Hid' Hp Hi. rewrite (getPostById_run _ _ _ Hid').
    cbn [posts set_users]. rewrite Hp, populated_loaded. unfold author.
    by rewrite Hi, Hn.
Qed.

(** ** Requests the storage layer rejects *)

(** The validators report messages, and each for its own path: a cast
    error comes from a cast only. *)
Lemma required_message msg v e : Schema.required msg v = Some e → e = PathMessage msg.
Proof. unfold Schema.required. repeat case_match; congruence. Qed.



Lemma path_errors_elem path cs p e :
  (p, e) ∈ Schema.path_errors path cs → p = path ∧ Some e ∈ cs.
Proof.
  induction cs as [|[e'|] cs IH]; cbn [Schema.path_errors].
  - by intros ?%elem_of_nil.
  - intros [[= -> ->]|Hin]%elem_of_cons.
    + split; [done | left].
    + by apply elem_of_nil in Hin.
  - intros Hin. destruct (IH Hin). split; [done | by right].
Qed.


Lemma post_validators_paths ti co path e :
  (path, e) ∈
    (Schema.path_errors "title" [Schema.required "Title is required" ti]
     ++ Schema.path_errors "content" [Schema.required "Content is required" co])%list →
  (path = "title" ∧ e = PathMessage "Title is required")
  ∨ (path = "content" ∧ e = PathMessage "Content is required").
Proof.
  intros [Hin|Hin]%elem_of_app; apply path_errors_elem in Hin as [-> Hin];
    apply elem_of_cons in Hin as [Hin|Hin]; try (by apply elem_of_nil in Hin);
    symmetry in Hin; apply required_message in Hin; auto.
Qed.


Lemma new_post_errors env t c s :
  Schema.post_errors (Some (JS.trim t)) (Some (JS.trim c)) (castRef (JsString s)) ≠ [] →
  new_post env (JsString t) (JsString c) (JsString s)
  = inl (Schema.post_errors (Some (JS.trim t)) (Some (JS.trim c))
           (castRef (JsString s))).
Proof.
  intros H. unfold new_post.
  cbn [castTrimmed castString fmap option_fmap option_map].
  by destruct (Schema.post_errors _ _ _).
Qed.


(** X13: the same for posts. A create-Post request whose three fields are
    non-empty strings and whose values break a validator of the schema is
    answered 500 with the validation error after the one [create] call, and
    stores nothing: so for a blank title or content, and for a [userId] that
    is not an id. The error names the failed cast of [userId] first, before
    the title and the content. *)
Theorem createPost_rejects_invalid env req db t c s :
  post_body (body_of req) t c s →
  t ≠ "" → c ≠ "" → s ≠ "" →
  let errs :=
    Schema.post_errors (Some (JS.trim t)) (Some (JS.trim c)) (castRef (JsString s)) in
  (errs ≠ [] →
   createPost env req db =
     {| final := db;
        calls := [CallCreate Post];
        value := inr {| status := 500;
                        json := JsonFailure (ValidationError "Post" errs) |} |})
  ∧ (JS.trim t = "" → ("title", PathMessage "Title is required") ∈ errs)
  ∧ (JS.trim c = "" → ("content", PathMessage "Content is required") ∈ errs)
  ∧ (castObjectId s = None →
       ∃ rest, errs = ("userId", PathCast) :: rest
               ∧ ∀ path e, (path, e) ∈ rest → path ≠ "userId" ∧ e ≠ PathCast)
  ∧ (is_Some (castObjectId s) → ∀ path e, (path, e) ∈ errs → path ≠ "userId").
Proof.
  intros (Bt & Bc & Bs) Ht Hc Hs errs. split; [|split; [|split; [|split]]].
  - intros Herrs.
    assert (Hpr : ∀ k, k ∈ ["title"; "content"; "userId"] → present (body_of req) k).
    { intros k Hk. apply list_elem_of_In in Hk. cbn [In] in Hk.
      destruct Hk as [<-|[<-|[<-|[]]]]; by eapply present_string. }
    rewrite (createPost_present _ _ _ Hpr). unfold field.
    rewrite Bt, Bc, Bs. cbn [default id]. run.
    unfold Post_create. by rewrite (new_post_errors env t c s Herrs).
  - intros E. subst errs. unfold Schema.post_errors. rewrite E.
    cbn [Schema.required Schema.path_errors]. set_solver.
  - intros E. subst errs. unfold Schema.post_errors. rewrite E.
    cbn [Schema.required Schema.path_errors]. set_solver.
  - intros E. subst errs. unfold Schema.post_errors, castRef. rewrite E.
    change (Schema.path_errors "userId" [Schema.cast_ok CastFailed])
      with [("userId", PathCast)].
    change (Schema.path_errors "userId"
              [Schema.required_cast "User ID is required" (@CastFailed N)])
      with (@nil (string * PathError)).
    rewrite app_assoc, app_nil_r.
    eexists. split; [reflexivity|].
    intros path e' Hin. by apply post_validators_paths in Hin as [[-> ->]|[-> ->]].
  - intros [i E] path e' Hin. subst errs. unfold Schema.post_errors, castRef in Hin.
    rewrite E in Hin.
    change (Schema.path_errors "userId" [Schema.cast_ok (CastTo i)])
      with (@nil (string * PathError)) in Hin.
    change (Schema.path_errors "userId"
              [Schema.required_cast "User ID is required" (CastTo i)])
      with (@nil (string * PathError)) in Hin.
    rewrite app_assoc, app_nil_r in Hin.
    by apply post_validators_paths in Hin as [[-> ->]|[-> ->]].
Qed.

(** ** Updates the storage layer rejects, and updates made twice *)

(** The document [updateUser] hands to [save]. *)
Lemma assigned_user i u fn ln em f l e :
  castTrimmed fn = Some f → castTrimmed ln = Some l → castTrimmed em = Some e →
  let t := assign "email" uo_email with_email em
             (assign "lastName" uo_lastName with_lastName ln
                (assign "firstName" uo_firstName with_firstName fn
                   (loaded (loaded_user i u)))) in
  doc t = {| uo_id := i; uo_firstName := Some f; uo_lastName := Some l;
             uo_email := Some e; uo_password := None;
             uo_isActive := u_isActive u; uo_createdAt := u_createdAt u;
             uo_updatedAt := u_updatedAt u |}
  ∧ invalid t = []
  ∧ (u_email u ≠ e → ∃ rest, modified t = "email" :: rest).
Proof.
  intros Hf Hl He t. subst t. unfold assign. rewrite Hf, Hl, He. simp_doc.
  destruct (decide (Some (u_firstName u) = Some f)) as [[= Ef]|Nf]; simp_doc;
  (destruct (decide (Some (u_lastName u) = Some l)) as [[= El]|Nl]); simp_doc;
  (destruct (decide (Some (u_email u) = Some e)) as [[= Ee]|Ne]); simp_doc.
  all: unfold with_email, with_lastName, with_firstName, loaded_user; simp_doc.
  all: rewrite ?Ef, ?El, ?Ee.
  all: split; [reflexivity|]; split; [reflexivity|].
  all: intros Hne; try done; by eexists.
Qed.

Lemma name_body_present body f l e :
  name_body body f l e → f ≠ "" → l ≠ "" → e ≠ "" →
  ∀ k, k ∈ ["firstName"; "lastName"; "email"] → present body k.
Proof.
  intros (Hf & Hl & He) Hf' Hl' He' k Hk.
  apply list_elem_of_In in Hk. cbn [In] in Hk.
  destruct Hk as [<-|[<-|[<-|[]]]]; by eapply present_string.
Qed.

Lemma updateUser_run_found env req db i u f l e :
  castObjectId (req_id req) = Some i →
  users db !! i = Some u →
  name_body (body_of req) f l e → f ≠ "" → l ≠ "" → e ≠ "" →
  updateUser env req db =
    let r :=
      handle (
        user ← user_save env
          (assign "email" uo_email with_email (JsString e)
             (assign "lastName" uo_lastName with_lastName (JsString l)
                (assign "firstName" uo_firstName with_firstName (JsString f)
                   (loaded (loaded_user i u)))));
        mret (res_json (JsonUser user))) db in
    {| final := final r;
       calls := CallFindById User (req_id req) :: calls r;
       value := value r |}.
Proof.
  intros Hid Hi Hb Hf Hl He.
  rewrite (updateUser_present _ _ _ (name_body_present _ _ _ _ Hb Hf Hl He)).
  destruct Hb as (Bf & Bl & Be). unfold field. rewrite Bf, Bl, Be. cbn [default id].
  run. rewrite (run_User_findById _ _ _ Hid), Hi.
  cbn [fmap option_fmap option_map].
  by destruct (user_save env _ db) as [d c [x|o]].
Qed.

Lemma updateUser_run_ok env req db i u f l e :
  castObjectId (req_id req) = Some i →
  users db !! i = Some u →
  name_body (body_of req) f l e →
  JS.trim f ≠ "" → JS.trim l ≠ "" →
  JS.test Schema.email_pattern (JS.trim e) = true →
  email_free (JS.trim e) (Some i) (users db) →
  updateUser env req db =
    {| final :=
         set_users
           (<[i := updated_user (env_now env) (JS.trim f) (JS.trim l) (JS.trim e) u]>
              (users db)) db;
       calls := [CallFindById User (req_id req); CallSave User i];
       value :=
         inr (res_json (JsonUser
                (loaded_user i
                   (updated_user (env_now env) (JS.trim f) (JS.trim l) (JS.trim e)
                      u)))) |}.
Proof.
  intros Hid Hi Hb Hf Hl He Hfree.
  assert (He' : JS.trim e ≠ "") by (by apply (test_nonempty Schema.email_pattern)).
  rewrite (updateUser_run_found env req db i u f l e Hid Hi Hb)
    by (by apply trim_nonempty).
  cbv [handle mbind M_bind mret M_ret].
  by rewrite (run_update_save env db i u _ _ _ (JS.trim f) (JS.trim l) (JS.trim e)).
Qed.

(** X14: an update-User request on a stored id whose three fields are
    non-empty strings, and whose values break a validator of the schema once
    trimmed (a blank name, an email that does not match the pattern), is
    answered 500 with the validation error after [findById] and [save]; the
    record stays as it was. *)
Theorem updateUser_rejects_invalid env req db i u f l e :
  castObjectId (req_id req) = Some i →
  users db !! i = Some u →
  name_body (body_of req) f l e →
  f ≠ "" → l ≠ "" → e ≠ "" →
  let errs :=
    Schema.user_errors false (Some (JS.trim f)) (Some (JS.trim l)) (Some (JS.trim e))
      None (CastTo (u_isActive u)) in
  (errs ≠ [] →
   updateUser env req db =
     {| final := db;
        calls := [CallFindById User (req_id req); CallSave User i];
        value := inr {| status := 500;
                        json := JsonFailure (ValidationError "User" errs) |} |})
  ∧ (JS.trim f = "" → ("firstName", PathMessage "First name is required") ∈ errs)
  ∧ (JS.trim l = "" → ("lastName", PathMessage "Last name is required") ∈ errs)
  ∧ (JS.trim e ≠ "" → JS.test Schema.email_pattern (JS.trim e) = false →
       ("email", PathMessage "Email is not valid") ∈ errs).
Proof.
  intros Hid Hi Hb Hf Hl He errs. split; [|split; [|split]].
  - intros Herrs. rewrite (updateUser_run_found env req db i u f l e) by done.
    destruct (assigned_user i u (JsString f) (JsString l) (JsString e)
                (JS.trim f) (JS.trim l) (JS.trim e) eq_refl eq_refl eq_refl)
      as (Hd & Hinv & _).
    cbv [handle mbind M_bind mret M_ret]. unfold user_save.
    rewrite Hd, Hinv. simp_doc. rewrite ?app_nil_l.
    cbn [bool_decide decide_rel is_Some_dec]. fold errs.
    cbv [mbind M_bind mret M_ret call throw].
    by destruct errs.
  - intros E. subst errs. unfold Schema.user_errors. rewrite E.
    cbn [Schema.required Schema.path_errors]. set_solver.
  - intros E. subst errs. unfold Schema.user_errors. rewrite E.
    cbn [Schema.required Schema.path_errors]. set_solver.
  - intros Hne Ht. subst errs. unfold Schema.user_errors.
    destruct (JS.trim e) as [|a e'] eqn:E; [done|].
    cbn [Schema.required Schema.matches Schema.path_errors]. rewrite Ht.
    set_solver.
Qed.

(** X15: the unique index holds on update too. An update-User request
    that is valid in itself and gives a user the email of another user is
    answered 500 with the duplicate-key error of the index, and the record
    stays as it was: the handler has no check of its own here, as it has on
    creation. *)
Theorem updateUser_email_taken env req db i u j v f l e :
  db_valid db →
  castObjectId (req_id req) = Some i →
  users db !! i = Some u →
  name_body (body_of req) f l e →
  JS.trim f ≠ "" → JS.trim l ≠ "" →
  JS.test Schema.email_pattern (JS.trim e) = true →
  j ≠ i → users db !! j = Some v → u_email v = JS.trim e →
  updateUser env req db =
    {| final := db;
       calls := [CallFindById User (req_id req); CallSave User i];
       value := inr {| status := 500;
                       json := JsonFailure (DuplicateKey "email_1") |} |}.
Proof.
  intros (_ & Hq & _) Hid Hi Hb Hf Hl He Hj Hv Hve.
  assert (He' : JS.trim e ≠ "") by (by apply (test_nonempty Schema.email_pattern)).
  assert (Hne : u_email u ≠ JS.trim e).
  { intros E. apply Hj. apply (Hq j i v u Hv Hi). congruence. }
  rewrite (updateUser_run_found env req db i u f l e Hid Hi Hb)
    by (by apply trim_nonempty).
  destruct (assigned_user i u (JsString f) (JsString l) (JsString e)
              (JS.trim f) (JS.trim l) (JS.trim e) eq_refl eq_refl eq_refl)
    as (Hd & Hinv & Hm).
  destruct (Hm Hne) as [rest Hmod].
  cbv [handle mbind M_bind mret M_ret]. unfold user_save, saved_user.
  rewrite Hd, Hinv, Hmod. simp_doc. rewrite ?app_nil_l.
  cbn [bool_decide decide_rel is_Some_dec].
  assert (E : Schema.user_errors false (Some (JS.trim f)) (Some (JS.trim l))
                (Some (JS.trim e)) None (CastTo (u_isActive u)) = []).
  { apply user_errors_nil. unfold Schema.required, Schema.matches. rewrite He.
    by destruct (JS.trim f), (JS.trim l), (JS.trim e). }
  rewrite E. cbv [mbind M_bind mret M_ret call read write throw]. rewrite Hi.
  cbn [u_email]. rewrite (decide_True (P := "email" ∈ _)) by left.
  cbn [default id].
  rewrite decide_False; [reflexivity|].
  intros [Hn|Hfree]; [apply Hn; left|].
  destruct (Hfree j v Hv) as [[= ->]|]; done.
Qed.

Lemma updated_user_again now now' f l e u :
  updated_user now' f l e (updated_user now f l e u) = updated_user now f l e u.
Proof.
  unfold updated_user at 1.
  cbn [u_firstName u_lastName u_email u_password u_isActive u_createdAt u_updatedAt
       updated_user].
  by rewrite decide_True.
Qed.

(** X16: an update made twice is made once. After an accepted
    update-User request, the same request again, at whatever later time, is
    answered with the same user and leaves the database as the first left
    it: nothing is modified, so [updatedAt] does not move. *)
Theorem updateUser_twice env env' req db i u f l e :
  castObjectId (req_id req) = Some i →
  users db !! i = Some u →
  name_body (body_of req) f l e →
  JS.trim f ≠ "" → JS.trim l ≠ "" →
  JS.test Schema.email_pattern (JS.trim e) = true →
  email_free (JS.trim e) (Some i) (users db) →
  let r := updateUser env req db in
  updateUser env' req (final r) = r.
Proof.
  intros Hid Hi Hb Hf Hl He Hfree r. subst r.
  rewrite (updateUser_run_ok env req db i u f l e) by done. cbn [final].
  set (u' := updated_user (env_now env) (JS.trim f) (JS.trim l) (JS.trim e) u).
  rewrite (updateUser_run_ok env' req _ i u' f l e); try done.
  - subst u'. rewrite updated_user_again. cbn [users set_users posts].
    unfold set_users at 1. cbn [users posts set_users].
    by rewrite insert_insert_eq.
  - cbn [users set_users]. apply lookup_insert_eq.
  - cbn [users set_users]. intros k w Hk.
    destruct (decide (k = i)) as [->|Hki]; [by left|].
    rewrite lookup_insert_ne in Hk by done. by apply (Hfree k w).
Qed.

(** ** What an update can change *)

Lemma updateUser_final env req db :
  final (updateUser env req db) = db
  ∨ ∃ i u u',
      castObjectId (req_id req) = Some i ∧ users db !! i = Some u
      ∧ u_password u' = u_password u ∧ u_isActive u' = u_isActive u
      ∧ u_createdAt u' = u_createdAt u
      ∧ final (updateUser env req db) = set_users (<[i := u']> (users db)) db.
Proof.
  destruct (present_or_missing (body_of req)
              ["firstName"; "lastName"; "email"]) as [H|(k & Hk & H)];
    [|left; by rewrite (updateUser_missing _ _ _ k Hk H)].
  rewrite (updateUser_present _ _ _ H), handle_final.
  destruct (castObjectId (req_id req)) as [i|] eqn:Hid;
    [|left; cbv [mbind M_bind]; by rewrite (run_User_findById_malformed _ _ Hid)].
  cbv [mbind M_bind]. rewrite (run_User_findById _ _ _ Hid).
  destruct (users db !! i) as [u|] eqn:Hu; cbn [fmap option_fmap option_map];
    [|by left].
  match goal with |- context [user_save env ?t db] => set (t0 := t) end.
  assert (Hm : "password" ∉ modified t0).
  { intros Hin. subst t0.
    apply assign_modified, elem_of_cons in Hin as [|Hin]; [done|].
    apply assign_modified, elem_of_cons in Hin as [|Hin]; [done|].
    apply assign_modified, elem_of_cons in Hin as [|Hin]; [done|].
    by apply not_elem_of_nil in Hin. }
  assert (Hi0 : uo_id (doc t0) = i) by apply assigned_user_id.
  assert (F : final (user_save env t0 db) = db
              ∨ final (user_save env t0 db)
                = set_users (<[i := saved_user (env_now env) t0 u]> (users db)) db).
  { unfold user_save. cbv [mbind M_bind mret M_ret call read write throw].
    destruct (invalid t0 ++ _)%list; [|by left].
    destruct (modified t0) eqn:Em; [by left|]. rewrite Hi0, Hu.
    destruct (decide (_ ∨ email_free _ _ _)); [by right | by left]. }
  destruct (user_save env t0 db) as [d' c' [e'|o']]; cbn [final] in *.
  all: destruct F as [-> | ->]; [by left|]; right;
       exists i, u, (saved_user (env_now env) t0 u); repeat split; try done;
       unfold saved_user; cbn [u_password]; by rewrite decide_False.
Qed.

Lemma assign_userId_modified v (t : Tracked PostObj) :
  modified (assign_userId v t) ⊆ "userId" :: modified t.
Proof.
  unfold assign_userId. repeat case_match; cbn [modified]; try done;
    intros x Hx; by right.
Qed.

Lemma updatePost_final env req db :
  final (updatePost env req db) = db
  ∨ ∃ i p p',
      castObjectId (req_id req) = Some i ∧ posts db !! i = Some p
      ∧ p_createdAt p' = p_createdAt p
      ∧ final (updatePost env req db) = set_posts (<[i := p']> (posts db)) db.
Proof.
  destruct (present_or_missing (body_of req)
              ["title"; "content"; "userId"]) as [H|(k & Hk & H)];
    [|left; by rewrite (updatePost_missing _ _ _ k Hk H)].
  rewrite (updatePost_present _ _ _ H), handle_final.
  destruct (castObjectId (req_id req)) as [i|] eqn:Hid;
    [|left; cbv [mbind M_bind]; by rewrite (run_Post_findById_malformed _ _ Hid)].
  unfold post_populate. cbv [mbind M_bind mret M_ret call read].
  rewrite (run_Post_findById _ _ _ Hid).
  destruct (posts db !! i) as [p|] eqn:Hp; cbn [fmap option_fmap option_map];
    [|by left].
  match goal with |- context [post_save env ?t db] => set (t0 := t) end.
  assert (Hi0 : po_id (doc t0) = i) by apply assigned_post_id.
  assert (F : final (post_save env t0 db) = db
              ∨ final (post_save env t0 db)
                = set_posts (<[i := saved_post (env_now env) t0 p]> (posts db)) db).
  { unfold post_save. cbv [mbind M_bind mret M_ret call read write throw].
    destruct (Schema.post_errors _ _ _); [|by left].
    destruct (modified t0) eqn:Em; [by left|]. rewrite Hi0, Hp. by right. }
  destruct (post_save env t0 db) as [d' c' [e'|o']]; cbn [final] in *.
  all: destruct F as [-> | ->]; [by left|]; right;
       by exists i, p, (saved_post (env_now env) t0 p).
Qed.

(** X17: whatever the request, an update changes at most the record it
    names, and of that record at most the editable fields and [updatedAt]:
    [updateUser] adds and removes no user and keeps every password,
    [isActive] and [createdAt]; [updatePost] adds and removes no post and
    keeps every [createdAt]; a record the id does not name is not touched. *)
Theorem update_changes_one_record env req db :
  (∀ j v0, users db !! j = Some v0 →
     ∃ v, users (final (updateUser env req db)) !! j = Some v
          ∧ u_password v = u_password v0
          ∧ u_isActive v = u_isActive v0
          ∧ u_createdAt v = u_createdAt v0
          ∧ (castObjectId (req_id req) ≠ Some j → v = v0))
  ∧ (∀ j, users db !! j = None →
       users (final (updateUser env req db)) !! j = None)
  ∧ (∀ j p0, posts db !! j = Some p0 →
       ∃ p, posts (final (updatePost env req db)) !! j = Some p
            ∧ p_createdAt p = p_createdAt p0
            ∧ (castObjectId (req_id req) ≠ Some j → p = p0))
  ∧ (∀ j, posts db !! j = None →
       posts (final (updatePost env req db)) !! j = None).
Proof.
  split; [|split; [|split]].
  - intros j v0 Hj.
    destruct (updateUser_final env req db)
      as [->|(i & u & u' & Hid & Hu & Hp & Ha & Hc & ->)]; [by exists v0|].
    cbn [users set_users]. destruct (decide (j = i)) as [->|Hji].
    + exists u'. rewrite lookup_insert_eq.
      rewrite Hu in Hj. injection Hj as <-. by repeat split.
    + exists v0. by rewrite lookup_insert_ne.
  - intros j Hj.
    destruct (updateUser_final env req db)
      as [->|(i & u & u' & Hid & Hu & _ & _ & _ & ->)]; [done|].
    cbn [users set_users]. rewrite lookup_insert_ne; [done|]. congruence.
  - intros j p0 Hj.
    destruct (updatePost_final env req db)
      as [->|(i & p & p' & Hid & Hp & Hc & ->)]; [by exists p0|].
    cbn [posts set_posts]. destruct (decide (j = i)) as [->|Hji].
    + exists p'. rewrite lookup_insert_eq.
      rewrite Hp in Hj. injection Hj as <-. by repeat split.
    + exists p0. by rewrite lookup_insert_ne.
  - intros j Hj.
    destruct (updatePost_final env req db)
      as [->|(i & p & p' & Hid & Hp & _ & ->)]; [done|].
    cbn [posts set_posts]. rewrite lookup_insert_ne; [done|]. congruence.
Qed.

(** ** Updating a post *)

Lemma run_update_post_save env db i p ti co ui t c uid :
  posts db !! i = Some p →
  castTrimmed ti = Some t → t ≠ "" →
  castTrimmed co = Some c → c ≠ "" →
  castRef ui = CastTo uid →
  post_save env
    (assign_userId ui
       (assign "content" po_content with_content co
          (assign "title" po_title with_title ti (loaded (loaded_post i p))))) db =
    {| final := set_posts (<[i := updated_post (env_now env) t c uid p]> (posts db)) db;
       calls := [CallSave Post i];
       value := inr (loaded_post i (updated_post (env_now env) t c uid p)) |}.
Proof.
  intros Hi Ht Ht' Hc Hc' Hu.
  unfold assign_userId, assign. rewrite Ht, Hc, Hu. cbv beta iota zeta. simp_doc.
  destruct (decide (Some (p_title p) = Some t)) as [[= Et]|Nt]; simp_doc;
  (destruct (decide (Some (p_content p) = Some c)) as [[= Ec]|Nc]); simp_doc;
  (destruct (decide (Some (RefId (p_userId p)) = Some (RefId uid))) as [[= Eu]|Nu]);
  simp_doc.
  all: unfold post_save, ref_cast; simp_doc; rewrite ?Et, ?Ec, ?Eu.
  all: rewrite (decide_False (P := _ ∈ [])) by apply not_elem_of_nil.
  all: destruct t as [|a0 t0]; [done|]; destruct c as [|a1 c0]; [done|].
  all: cbn [Schema.post_errors Schema.path_errors Schema.required Schema.cast_ok
            Schema.required_cast app].
  all: run; rewrite ?Hi.
  all: unfold saved_post, updated_post; simp_doc; decide_paths;
       cbn [default id ref_id].
  1: { rewrite decide_True by done. rewrite <- Et, <- Ec, <- Eu.
       replace {| p_title := p_title p; p_content := p_content p;
                  p_userId := p_userId p; p_createdAt := p_createdAt p;
                  p_updatedAt := p_updatedAt p |} with p by (by destruct p).
       rewrite insert_id by done. by destruct db. }
  all: rewrite decide_False by (intros (?&?&?); congruence).
  all: unfold with_post_updatedAt, with_userId, with_content, with_title, loaded_post;
       simp_doc; cbn [p_title p_content p_userId p_createdAt p_updatedAt].
  all: by rewrite ?Et, ?Ec, ?Eu.
Qed.

(** X18: an update-Post request on a stored id, whose [title] and
    [content] are strings that are not blank and whose [userId] is a
    well-formed id, is answered 200 with the post populated, after
    [findById], [save] and [populate]. The stored post gets the title and
    content trimmed and the new [userId], and a new [updatedAt] when one of
    them changed; its [createdAt] stays, and so does every other post and
    every user. The user [userId] names is not looked up before the write:
    when there is none, the post is stored all the same and [userId] reads
    [null]. *)
Theorem updatePost_overwrites env req db i p t c s uid :
  castObjectId (req_id req) = Some i →
  posts db !! i = Some p →
  post_body (body_of req) t c s →
  JS.trim t ≠ "" → JS.trim c ≠ "" →
  castObjectId s = Some uid →
  let p' :=
    {| p_title := JS.trim t; p_content := JS.trim c; p_userId := uid;
       p_createdAt := p_createdAt p;
       p_updatedAt :=
         if decide (p_title p = JS.trim t ∧ p_content p = JS.trim c ∧ p_userId p = uid)
         then p_updatedAt p else env_now env |} in
  let r := updatePost env req db in
  value r
  = inr {| status := 200;
           json := JsonPost
             {| po_id := i; po_title := Some (JS.trim t);
                po_content := Some (JS.trim c);
                po_userId :=
                  Some match users db !! uid with
                       | Some u =>
                           RefUser uid (u_firstName u) (u_lastName u) (u_email u)
                       | None => RefNull
                       end;
                po_createdAt := p_createdAt p;
                po_updatedAt := p_updatedAt p' |} |}
  ∧ calls r = [CallFindById Post (req_id req); CallSave Post i; CallPopulate]
  ∧ posts (final r) !! i = Some p'
  ∧ (∀ j, j ≠ i → posts (final r) !! j = posts db !! j)
  ∧ users (final r) = users db.
Proof.
  intros Hid Hi (Bt & Bc & Bs) Ht Hc Hu p' r.
  assert (Hpr : ∀ k, k ∈ ["title"; "content"; "userId"] → present (body_of req) k).
  { intros k Hk. apply list_elem_of_In in Hk. cbn [In] in Hk.
    destruct Hk as [<-|[<-|[<-|[]]]].
    - apply (present_string _ _ t Bt). by apply trim_nonempty.
    - apply (present_string _ _ c Bc). by apply trim_nonempty.
    - apply (present_string _ _ s Bs). intros ->. discriminate. }
  assert (E : r =
    {| final := set_posts (<[i := p']> (posts db)) db;
       calls := [CallFindById Post (req_id req); CallSave Post i; CallPopulate];
       value := inr (res_json (JsonPost
                  (populated (set_posts (<[i := p']> (posts db)) db)
                     (loaded_post i p')))) |}).
  { subst r. rewrite (updatePost_present _ _ _ Hpr). unfold field.
    rewrite Bt, Bc, Bs. cbn [default id]. unfold post_populate. run.
    rewrite (run_Post_findById _ _ _ Hid), Hi. cbn [fmap option_fmap option_map].
    rewrite (run_update_post_save env db i p _ _ _ (JS.trim t) (JS.trim c) uid);
      try done.
    unfold castRef. by rewrite Hu. }
  rewrite E. cbn [value calls final set_posts users posts].
  split; [by rewrite populated_loaded|]. split; [reflexivity|].
  split; [apply lookup_insert_eq|].
  split; [intros j Hj; by apply lookup_insert_ne | reflexivity].
Qed.

(** ** The email pattern *)

Section Regex.

Import JS.

Lemma nullable_matches r : nullable r = true ↔ regex_matches r [].
Proof.
  split.
  - induction r; cbn [nullable]; try discriminate; intros H.
    + constructor.
    + apply andb_prop in H as [H1 H2]. apply (MatchCat _ _ [] []); auto.
    + apply orb_prop in H as [H|H]; [apply MatchAltL | apply MatchAltR]; auto.
    + constructor.
  - intros H. remember [] as w eqn:Ew. induction H; cbn [nullable]; try done.
    + apply app_eq_nil in Ew as [-> ->]. by rewrite IHregex_matches1, IHregex_matches2.
    + by rewrite IHregex_matches.
    + rewrite IHregex_matches by done. apply orb_true_r.
Qed.

Lemma star_cons r c w :
  regex_matches (RStar r) (c :: w) →
  ∃ w1 w2, w = (w1 ++ w2)%list ∧ regex_matches r (c :: w1) ∧ regex_matches (RStar r) w2.
Proof.
  intros H. remember (RStar r) as r' eqn:Er. remember (c :: w) as cw eqn:Ew.
  revert c w Ew. induction H; try discriminate; intros c w Ew.
  injection Er as ->. destruct w1 as [|a w1].
  - cbn in Ew. by apply IHregex_matches2.
  - injection Ew as -> <-. by exists w1, w2.
Qed.

Lemma deriv_matches r c w : regex_matches (deriv c r) w ↔ regex_matches r (c :: w).
Proof.
  revert w. induction r as [| |p|r1 IH1 r2 IH2|r1 IH1 r2 IH2|r IH]; intros w;
    cbn [deriv].
  - split; inversion 1.
  - split; inversion 1.
  - destruct (p c) eqn:Hp; split; intros H.
    + inversion H; subst. by constructor.
    + inversion H; subst. constructor.
    + inversion H.
    + inversion H; subst. congruence.
  - assert (C : regex_matches (RCat (deriv c r1) r2) w →
                regex_matches (RCat r1 r2) (c :: w)).
    { inversion 1; subst. apply (MatchCat r1 r2 (c :: w1) w2); [by apply IH1|done]. }
    assert (D : ∀ w1 w2, regex_matches r1 (c :: w1) → regex_matches r2 w2 →
                regex_matches (RCat (deriv c r1) r2) (w1 ++ w2)).
    { intros w1 w2 H1 H2. constructor; [by apply IH1|done]. }
    destruct (nullable r1) eqn:Hn; split; intros H.
    + inversion H; subst; [by apply C|].
      apply (MatchCat r1 r2 [] (c :: w)); [by apply nullable_matches | by apply IH2].
    + inversion H as [| |? ? w1 w2 H1 H2 E1 E2| | | |]; subst.
      destruct w1 as [|a w1]; simplify_eq/=.
      * apply MatchAltR. by apply IH2.
      * apply MatchAltL. by apply D.
    + by apply C.
    + inversion H as [| |? ? w1 w2 H1 H2 E1 E2| | | |]; subst.
      destruct w1 as [|a w1]; simplify_eq/=.
      * apply nullable_matches in H1. congruence.
      * by apply D.
  - split; intros H.
    + inversion H; subst; [apply MatchAltL; by apply IH1 | apply MatchAltR; by apply IH2].
    + inversion H; subst; [apply MatchAltL; by apply IH1 | apply MatchAltR; by apply IH2].
  - split; intros H.
    + inversion H; subst. apply (MatchStarApp r (c :: w1) w2); [by apply IH|done].
    + apply star_cons in H as (w1 & w2 & -> & H1 & H2).
      constructor; [by apply IH|done].
Qed.

Lemma test_matches r s : test r s = true ↔ regex_matches r (list_ascii_of_string s).
Proof.
  revert r. induction s as [|c s IH]; intros r; cbn [test list_ascii_of_string].
  - apply nullable_matches.
  - rewrite IH. apply deriv_matches.
Qed.

Lemma class_matches p w : regex_matches (RClass p) w ↔ ∃ c, w = [c] ∧ p c = true.
Proof.
  split.
  - inversion 1; subst. by eexists.
  - intros (c & -> & H). by constructor.
Qed.

Lemma star_class_matches p w :
  regex_matches (RStar (RClass p)) w ↔ Forall (λ c, p c = true) w.
Proof.
  split.
  - intros H. remember (RStar (RClass p)) as r eqn:Er.
    induction H; try discriminate; [constructor|].
    injection Er as ->. apply Forall_app. split; [|by apply IHregex_matches2].
    apply class_matches in H as (c & -> & Hc). by repeat constructor.
  - induction 1 as [|c w Hc _ IH]; [constructor|].
    apply (MatchStarApp _ [c] w); [by constructor | done].
Qed.

Lemma plus_class_matches p w :
  regex_matches (RPlus (RClass p)) w ↔ w ≠ [] ∧ Forall (λ c, p c = true) w.
Proof.
  unfold RPlus. split.
  - inversion 1 as [| |? ? w1 w2 H1 H2| | | |]; subst.
    apply class_matches in H1 as (c & -> & Hc).
    apply star_class_matches in H2. split; [done|]. by constructor.
  - intros [Hne H]. destruct w as [|c w]; [done|].
    apply Forall_cons in H as [Hc H].
    apply (MatchCat _ _ [c] w); [by constructor | by apply star_class_matches].
Qed.

Lemma cat_matches r1 r2 w :
  regex_matches (RCat r1 r2) w ↔
    ∃ w1 w2, w = (w1 ++ w2)%list ∧ regex_matches r1 w1 ∧ regex_matches r2 w2.
Proof.
  split.
  - inversion 1; subst. by eexists _, _.
  - intros (w1 & w2 & -> & H1 & H2). by constructor.
Qed.

(** X19: which emails the schema accepts. A string passes
    [/^\S+@\S+\.\S+$/] exactly when it has no white space and reads
    [a@b.c] with [a], [b] and [c] not empty (they may themselves hold [@]
    and dots). *)
Theorem email_pattern_accepts s :
  test Schema.email_pattern s = true ↔
    ∃ a b c,
      list_ascii_of_string s = (a ++ "@"%char :: b ++ "."%char :: c)%list
      ∧ a ≠ [] ∧ b ≠ [] ∧ c ≠ []
      ∧ Forall (λ x, is_ws x = false) (list_ascii_of_string s).
Proof.
  assert (Hns : ∀ w, Forall (λ x, not_ws x = true) w ↔ Forall (λ x, is_ws x = false) w).
  { intros w. apply Forall_proper; [|done]. intros x. unfold not_ws.
    by destruct (is_ws x). }
  assert (Hchr : ∀ a w, regex_matches (RClass (chr a)) w ↔ w = [a]).
  { intros a w. rewrite class_matches. unfold chr. split.
    - intros (c & -> & Hc). by apply bool_decide_eq_true in Hc as ->.
    - intros ->. exists a. split; [done|]. by apply bool_decide_eq_true. }
  rewrite test_matches. unfold Schema.email_pattern. split.
  - intros H.
    apply cat_matches in H as (a & w1 & -> & Ha & H).
    apply cat_matches in H as (x & w2 & -> & Hx & H). apply Hchr in Hx as ->.
    apply cat_matches in H as (b & w3 & -> & Hb & H).
    apply cat_matches in H as (y & c & -> & Hy & Hc). apply Hchr in Hy as ->.
    apply plus_class_matches in Ha as [Ha Ha'], Hb as [Hb Hb'], Hc as [Hc Hc'].
    exists a, b, c. repeat split; try done.
    rewrite Hns in Ha', Hb', Hc'.
    apply Forall_app. split; [done|]. apply Forall_cons. split; [done|].
    apply Forall_app. split; [done|]. by apply Forall_cons.
  - intros (a & b & c & -> & Ha & Hb & Hc & Hw).
    apply Forall_app in Hw as [Ha' Hw]. apply Forall_cons in Hw as [_ Hw].
    apply Forall_app in Hw as [Hb' Hw]. apply Forall_cons in Hw as [_ Hc'].
    rewrite <- Hns in Ha', Hb', Hc'.
    apply cat_matches. exists a, ("@"%char :: b ++ "."%char :: c)%list.
    split; [done|]. split; [by apply plus_class_matches|].
    apply (MatchCat _ _ ["@"%char] (b ++ "."%char :: c)); [by apply Hchr|].
    apply cat_matches. exists b, ("."%char :: c)%list.
    split; [done|]. split; [by apply plus_class_matches|].
    apply (MatchCat _ _ ["."%char] c); [by apply Hchr | by apply plus_class_matches].
Qed.

End Regex.

(** ** Creating, then deleting *)

Lemma createPost_run_ok env req db t c s uid :
  post_body (body_of req) t c s →
  JS.trim t ≠ "" → JS.trim c ≠ "" →
  castObjectId s = Some uid →
  posts db !! env_oid env = None →
  createPost env req db =
    {| final :=
         set_posts
           (<[env_oid env :=
                {| p_title := JS.trim t; p_content := JS.trim c; p_userId := uid;
                   p_createdAt := env_now env; p_updatedAt := env_now env |}]>
              (posts db)) db;
       calls := [CallCreate Post; CallPopulate];
       value :=
         inr (res_json (JsonPost
                (populated db
                   (loaded_post (env_oid env)
                      {| p_title := JS.trim t; p_content := JS.trim c;
                         p_userId := uid;
                         p_createdAt := env_now env;
                         p_updatedAt := env_now env |})))) |}.
Proof.
  intros (Bt & Bc & Bs) Ht Hc Hu Hfresh.
  assert (Hpr : ∀ k, k ∈ ["title"; "content"; "userId"] → present (body_of req) k).
  { intros k Hk. apply list_elem_of_In in Hk. cbn [In] in Hk.
    destruct Hk as [<-|[<-|[<-|[]]]].
    - apply (present_string _ _ t Bt). by apply trim_nonempty.
    - apply (present_string _ _ c Bc). by apply trim_nonempty.
    - apply (present_string _ _ s Bs). intros ->. discriminate. }
  rewrite (createPost_present _ _ _ Hpr). unfold field.
  rewrite Bt, Bc, Bs. cbn [default id]. run.
  rewrite (run_Post_create env _ _ _ db (JS.trim t) (JS.trim c) uid); try done.
  unfold castRef. by rewrite Hu.
Qed.

(** X20: a record that was created can be deleted under the id that was
    generated for it, and then the database is as it was before the
    creation. *)
Theorem create_then_delete env req req' db :
  castObjectId (req_id req') = Some (env_oid env) →
  (∀ f l e p,
     user_body (body_of req) f l e p →
     JS.trim f ≠ "" → JS.trim l ≠ "" →
     JS.test Schema.email_pattern (JS.trim e) = true →
     (6 ≤ String.length p)%nat →
     castBoolean (field (body_of req) "isActive") ≠ CastFailed →
     email_free (JS.trim e) None (users db) →
     users db !! env_oid env = None →
     deleteUser req' (final (createUser env req db)) =
       {| final := db;
          calls := [CallFindByIdAndDelete User (req_id req')];
          value := inr {| status := 200; json := JsonMessage "User deleted" |} |})
  ∧ (∀ t c s uid,
       post_body (body_of req) t c s →
       JS.trim t ≠ "" → JS.trim c ≠ "" →
       castObjectId s = Some uid →
       posts db !! env_oid env = None →
       deletePost req' (final (createPost env req db)) =
         {| final := db;
            calls := [CallFindByIdAndDelete Post (req_id req')];
            value := inr {| status := 200; json := JsonMessage "Post deleted" |} |}).
Proof.
  intros Hid. split.
  - intros f l e p Hb Hf Hl He Hp Ha Hfree Hfresh.
    rewrite (createUser_run_ok env req db f l e p) by done. cbn [final].
    rewrite (deleteUser_run _ _ _ Hid). cbn [users set_users].
    rewrite lookup_insert_eq, delete_insert_id by done.
    unfold set_users. cbn [users posts]. by destruct db.
  - intros t c s uid Hb Ht Hc Hu Hfresh.
    rewrite (createPost_run_ok env req db t c s uid) by done. cbn [final].
    rewrite (deletePost_run _ _ _ Hid). cbn [posts set_posts].
    rewrite lookup_insert_eq, delete_insert_id by done.
    unfold set_posts. cbn [users posts]. by destruct db.
Qed.

(** ** More sample requests *)

Section MoreSamples.

Import Sample.

Lemma db2_valid : db_valid db2.
Proof.
  apply db_valid_insert_user; [apply db1_valid | by vm_compute |].
  apply map_Forall_singleton. by right.
Qed.

Lemma createPost_missing_field_witness :
  createPost env1 req_post_no_title db1 =
    {| final := db1; calls := [];
       value := inr {| status := 400;
                       json := JsonError "title, content, and userId are required" |} |}.
Proof.
  assert (Hk : "title" ∈ ["title"; "content"; "userId"]) by (repeat constructor).
  pose (b := body_of req_post_no_title).
  assert (E : req_body req_post_no_title = Some b) by reflexivity.
  assert (Hm : b !! "title" = None) by reflexivity.
  exact (proj1 (createPost_missing_field env1 req_post_no_title db1)
           b "title" E Hk (or_introl Hm)).
Defined.

Lemma empty_field_is_missing_witness :
  createPost env1 req_post_empty_title db1 =
    {| final := db1; calls := []; value := inr required_post |}.
Proof.
  assert (He : body_of req_post_empty_title !! "title" = Some (JsString ""))
    by reflexivity.
  assert (Hk : "title" ∈ ["title"; "content"; "userId"]) by (repeat constructor).
  destruct (empty_field_is_missing env1 req_post_empty_title db1 "title" He)
    as (_ & _ & H).
  exact (proj1 (H Hk)).
Defined.

Lemma present_names (req : Request) :
  Forall (λ k, bool_decide (present (body_of req) k) = true)
    ["firstName"; "lastName"; "email"] →
  ∀ k, k ∈ ["firstName"; "lastName"; "email"] → present (body_of req) k.
Proof.
  intros H k Hk. rewrite Forall_forall in H.
  by apply (bool_decide_eq_true_1 (present (body_of req) k)), H.
Qed.

Lemma update_not_found_witness :
  updateUser env1 req_update_nobody db1 =
    {| final := db1; calls := [CallFindById User other_id];
       value := inr {| status := 404; json := JsonError "User not found" |} |}.
Proof.
  assert (Hid : castObjectId (req_id req_update_nobody) = Some other_oid) by reflexivity.
  assert (Hn : users db1 !! other_oid = None) by reflexivity.
  assert (Hp : ∀ k, k ∈ ["firstName"; "lastName"; "email"] →
                    present (body_of req_update_nobody) k).
  { apply present_names. repeat constructor. }
  exact (proj1 (update_not_found env1 req_update_nobody db1 other_oid Hid) Hp Hn).
Defined.

Lemma update_delete_malformed_witness :
  deleteUser (get "42") db1 =
    {| final := db1; calls := [CallFindByIdAndDelete User "42"];
       value := inr {| status := 500;
                       json := JsonFailure (CastError "ObjectId" "42" "_id") |} |}
  ∧ updateUser env1 req_update_malformed db1 =
    {| final := db1; calls := [CallFindById User "42"];
       value := inr {| status := 500;
                       json := JsonFailure (CastError "ObjectId" "42" "_id") |} |}.
Proof.
  assert (Hid : castObjectId (req_id (get "42")) = None) by reflexivity.
  assert (Hid' : castObjectId (req_id req_update_malformed) = None) by reflexivity.
  assert (Hp : ∀ k, k ∈ ["firstName"; "lastName"; "email"] →
                    present (body_of req_update_malformed) k).
  { apply present_names. repeat constructor. }
  split.
  - exact (proj1 (update_delete_malformed env1 (get "42") db1 Hid)).
  - destruct (update_delete_malformed env1 req_update_malformed db1 Hid')
      as (_ & _ & H & _).
    exact (H Hp).
Defined.

Lemma handlers_keep_valid_witness :
  db_valid (final (createUser env1 req_create db1))
  ∧ db_valid (final (deleteUser (get ada_id) db1)).
Proof.
  split.
  - destruct (handlers_keep_valid env1 req_create db1 db1_valid) as (_ & H & _).
    exact H.
  - destruct (handlers_keep_valid env1 (get ada_id) db1 db1_valid)
      as (_ & _ & _ & _ & H & _).
    exact H.
Defined.

Lemma rejected_requests_change_nothing_witness :
  final (createUser env1 req_duplicate db1) = db1.
Proof.
  assert (Hs : status {| status := 400; json := JsonError "User already exists" |} = 400
               ∨ status {| status := 400; json := JsonError "User already exists" |} = 404)
    by (left; reflexivity).
  assert (Hv : value (createUser env1 req_duplicate db1)
               = inr {| status := 400; json := JsonError "User already exists" |})
    by (by vm_compute).
  exact (proj1 (rejected_requests_change_nothing env1 req_duplicate db1 _ Hs) Hv).
Defined.

Lemma req_create_shape :
  user_body (body_of req_create) " Grace" "Hopper" "grace@example.org " "compiler"
  ∧ JS.trim " Grace" ≠ "" ∧ JS.trim "Hopper" ≠ ""
  ∧ JS.test Schema.email_pattern (JS.trim "grace@example.org ") = true
  ∧ (6 ≤ String.length "compiler")%nat
  ∧ castBoolean (field (body_of req_create) "isActive") ≠ CastFailed
  ∧ email_free (JS.trim "grace@example.org ") None (users db1)
  ∧ users db1 !! env_oid env1 = None.
Proof.
  split; [by repeat split|]. split; [by vm_compute|]. split; [by vm_compute|].
  split; [by vm_compute|]. split; [cbn; lia|]. split; [by vm_compute|].
  split; [|reflexivity]. apply map_Forall_singleton. right. by vm_compute.
Qed.

Lemma createUser_stores_witness :
  value (createUser env1 req_create db1)
  = inr {| status := 200;
           json := JsonUser
             {| uo_id := other_oid; uo_firstName := Some "Grace";
                uo_lastName := Some "Hopper"; uo_email := Some "grace@example.org";
                uo_password := Some "compiler"; uo_isActive := false;
                uo_createdAt := 200; uo_updatedAt := 200 |} |}.
Proof.
  destruct req_create_shape as (Hb & Hf & Hl & He & Hp & Ha & Hfree & Hfresh).
  exact (proj1 (createUser_stores env1 req_create db1 _ _ _ _
                  Hb Hf Hl He Hp Ha Hfree Hfresh)).
Defined.

Lemma createUser_then_read_witness :
  value (getUserById (get other_id) (final (createUser env1 req_create db1)))
  = inr {| status := 200;
           json := JsonUser
             {| uo_id := other_oid; uo_firstName := Some "Grace";
                uo_lastName := Some "Hopper"; uo_email := Some "grace@example.org";
                uo_password := None; uo_isActive := false;
                uo_createdAt := 200; uo_updatedAt := 200 |} |}
  ∧ value (createUser env2 req_create (final (createUser env1 req_create db1)))
    = inr {| status := 400; json := JsonError "User already exists" |}.
Proof.
  destruct req_create_shape as (Hb & Hf & Hl & He & Hp & Ha & Hfree & Hfresh).
  destruct (createUser_then_read env1 req_create db1 _ _ _ _
              Hb Hf Hl He Hp Ha Hfree Hfresh) as (H1 & _ & H2).
  split.
  - exact (H1 (get other_id) eq_refl).
  - by rewrite (H2 env2).
Defined.

Lemma deleteUser_leaves_posts_witness :
  value (getPostById (get post_id) (final (deleteUser (get ada_id) db1)))
  = inr {| status := 200;
           json := JsonPost
             {| po_id := post_oid; po_title := Some "Hello";
                po_content := Some "First post"; po_userId := Some RefNull;
                po_createdAt := 110; po_updatedAt := 110 |} |}.
Proof.
  assert (Hid : castObjectId (req_id (get ada_id)) = Some ada_oid) by reflexivity.
  assert (Hu : users db1 !! ada_oid = Some ada) by reflexivity.
  assert (Hid' : castObjectId (req_id (get post_id)) = Some post_oid) by reflexivity.
  assert (Hp : posts db1 !! post_oid = Some hello) by reflexivity.
  destruct (deleteUser_leaves_posts (get ada_id) db1 ada_oid ada Hid Hu)
    as (_ & _ & H).
  exact (H (get post_id) post_oid hello Hid' Hp eq_refl).
Defined.


(** The failed cast of [isActive] is named first, before the email and the
    password. *)
Example createUser_cast_error_first :
  createUser env1 req_bad_isActive db1 =
    {| final := db1;
       calls := [CallFindOne User (JsString "grace"); CallCreate User];
       value := inr {| status := 500;
                       json := JsonFailure
                         (ValidationError "User"
                            [("isActive", PathCast);
                             ("email", PathMessage "Email is not valid");
                             ("password",
                              PathMessage
                                "Password must be at least 6 characters long")]) |} |}.
Proof. by vm_compute. Qed.

(** The failed cast of [userId] is named first, before the title, on create
    and on save. *)
Example createPost_cast_error_first :
  createPost env1 req_post_bad_both db1 =
    {| final := db1;
       calls := [CallCreate Post];
       value := inr {| status := 500;
                       json := JsonFailure
                         (ValidationError "Post"
                            [("userId", PathCast);
                             ("title", PathMessage "Title is required")]) |} |}.
Proof. by vm_compute. Qed.

Example updatePost_cast_error_first :
  updatePost env1 req_post_update_bad db1 =
    {| final := db1;
       calls := [CallFindById Post post_id; CallSave Post post_oid];
       value := inr {| status := 500;
                       json := JsonFailure
                         (ValidationError "Post"
                            [("userId", PathCast);
                             ("title", PathMessage "Title is required")]) |} |}.
Proof. by vm_compute. Qed.

Lemma createPost_rejects_invalid_witness :
  createPost env1 req_post_blank_title db1 =
    {| final := db1;
       calls := [CallCreate Post];
       value := inr {| status := 500;
                       json := JsonFailure
                         (ValidationError "Post"
                            [("title", PathMessage "Title is required")]) |} |}.
Proof.
  assert (Hb : post_body (body_of req_post_blank_title) "  " "No title" ada_id)
    by (by repeat split).
  assert (Ht : "  " ≠ "") by done. assert (Hc : "No title" ≠ "") by done.
  assert (Hs : ada_id ≠ "") by done.
  refine (proj1 (createPost_rejects_invalid env1 req_post_blank_title db1 _ _ _
                   Hb Ht Hc Hs) _).
  by vm_compute.
Defined.

Lemma updateUser_rejects_invalid_witness :
  updateUser env1 req_update_bad_email db1 =
    {| final := db1;
       calls := [CallFindById User ada_id; CallSave User ada_oid];
       value := inr {| status := 500;
                       json := JsonFailure
                         (ValidationError "User"
                            [("email", PathMessage "Email is not valid")]) |} |}.
Proof.
  assert (Hid : castObjectId (req_id req_update_bad_email) = Some ada_oid)
    by reflexivity.
  assert (Hu : users db1 !! ada_oid = Some ada) by reflexivity.
  assert (Hb : name_body (body_of req_update_bad_email) "Ada" "Byron" "nope")
    by (by repeat split).
  assert (Hf : "Ada" ≠ "") by done. assert (Hl : "Byron" ≠ "") by done.
  assert (He : "nope" ≠ "") by done.
  refine (proj1 (updateUser_rejects_invalid env1 req_update_bad_email db1 ada_oid ada
                   _ _ _ Hid Hu Hb Hf Hl He) _).
  by vm_compute.
Defined.

Lemma updateUser_email_taken_witness :
  updateUser env1 req_update_taken db2 =
    {| final := db2;
       calls := [CallFindById User ada_id; CallSave User ada_oid];
       value := inr {| status := 500;
                       json := JsonFailure (DuplicateKey "email_1") |} |}.
Proof.
  assert (Hid : castObjectId (req_id req_update_taken) = Some ada_oid) by reflexivity.
  assert (Hu : users db2 !! ada_oid = Some ada) by reflexivity.
  assert (Hv : users db2 !! other_oid = Some grace) by reflexivity.
  assert (Hb : name_body (body_of req_update_taken)
                 "Ada" "Lovelace" "grace@example.org") by (by repeat split).
  assert (Hf : JS.trim "Ada" ≠ "") by (by vm_compute).
  assert (Hl : JS.trim "Lovelace" ≠ "") by (by vm_compute).
  assert (He : JS.test Schema.email_pattern (JS.trim "grace@example.org") = true)
    by (by vm_compute).
  assert (Hj : other_oid ≠ ada_oid) by (by vm_compute).
  assert (Hve : u_email grace = JS.trim "grace@example.org") by (by vm_compute).
  exact (updateUser_email_taken env1 req_update_taken db2 ada_oid ada other_oid grace
           _ _ _ db2_valid Hid Hu Hb Hf Hl He Hj Hv Hve).
Defined.

Lemma req_update_shape :
  castObjectId (req_id req_update) = Some ada_oid
  ∧ users db1 !! ada_oid = Some ada
  ∧ name_body (body_of req_update) " Ada " "Byron" "ada@example.org"
  ∧ JS.trim " Ada " ≠ "" ∧ JS.trim "Byron" ≠ ""
  ∧ JS.test Schema.email_pattern (JS.trim "ada@example.org") = true
  ∧ email_free (JS.trim "ada@example.org") (Some ada_oid) (users db1).
Proof.
  split; [reflexivity|]. split; [reflexivity|]. split; [by repeat split|].
  split; [by vm_compute|]. split; [by vm_compute|]. split; [by vm_compute|].
  apply map_Forall_singleton. by left.
Qed.

Lemma updateUser_twice_witness :
  updateUser env2 req_update (final (updateUser env1 req_update db1))
  = updateUser env1 req_update db1.
Proof.
  destruct req_update_shape as (Hid & Hu & Hb & Hf & Hl & He & Hfree).
  exact (updateUser_twice env1 env2 req_update db1 ada_oid ada _ _ _
           Hid Hu Hb Hf Hl He Hfree).
Defined.

Lemma update_changes_one_record_witness :
  ∃ v, users (final (updateUser env1 req_update db1)) !! ada_oid = Some v
       ∧ u_password v = "analytical" ∧ u_isActive v = true ∧ u_createdAt v = 100%N.
Proof.
  assert (Hu : users db1 !! ada_oid = Some ada) by reflexivity.
  destruct (proj1 (update_changes_one_record env1 req_update db1) ada_oid ada Hu)
    as (v & Hv & Hp & Ha & Hc & _).
  exists v. by rewrite Hp, Ha, Hc.
Defined.

Lemma updatePost_overwrites_witness :
  value (updatePost env1 req_post_update db1)
  = inr {| status := 200;
           json := JsonPost
             {| po_id := post_oid; po_title := Some "Hello again";
                po_content := Some "First post"; po_userId := Some RefNull;
                po_createdAt := 110; po_updatedAt := 200 |} |}
  ∧ posts (final (updatePost env1 req_post_update db1)) !! post_oid
    = Some {| p_title := "Hello again"; p_content := "First post";
              p_userId := other_oid; p_createdAt := 110; p_updatedAt := 200 |}.
Proof.
  assert (Hid : castObjectId (req_id req_post_update) = Some post_oid) by reflexivity.
  assert (Hp : posts db1 !! post_oid = Some hello) by reflexivity.
  assert (Hb : post_body (body_of req_post_update)
                 " Hello again " "First post" other_id) by (by repeat split).
  assert (Ht : JS.trim " Hello again " ≠ "") by (by vm_compute).
  assert (Hc : JS.trim "First post" ≠ "") by (by vm_compute).
  assert (Hu : castObjectId other_id = Some other_oid) by reflexivity.
  destruct (updatePost_overwrites env1 req_post_update db1 post_oid hello _ _ _ _
              Hid Hp Hb Ht Hc Hu) as (H1 & _ & H2 & _).
  split.
  - exact H1.
  - exact H2.
Defined.

Lemma email_pattern_accepts_witness :
  JS.test Schema.email_pattern "ada@example.org" = true
  ∧ ¬ (∃ a b c,
         list_ascii_of_string "ada lovelace"
         = (a ++ "@"%char :: b ++ "."%char :: c)%list
         ∧ a ≠ [] ∧ b ≠ [] ∧ c ≠ []
         ∧ Forall (λ x, JS.is_ws x = false) (list_ascii_of_string "ada lovelace")).
Proof.
  split.
  - apply (proj2 (email_pattern_accepts "ada@example.org")).
    exists (list_ascii_of_string "ada"), (list_ascii_of_string "example"),
      (list_ascii_of_string "org").
    split; [reflexivity|]. split; [done|]. split; [done|]. split; [done|].
    by repeat constructor.
  - intros H. apply (proj2 (email_pattern_accepts "ada lovelace")) in H.
    by vm_compute in H.
Defined.

Lemma create_then_delete_witness :
  deletePost (get other_id) (final (createPost env1 req_post_dangling db1)) =
    {| final := db1;
       calls := [CallFindByIdAndDelete Post other_id];
       value := inr {| status := 200; json := JsonMessage "Post deleted" |} |}.
Proof.
  assert (Hid : castObjectId (req_id (get other_id)) = Some (env_oid env1))
    by reflexivity.
  assert (Hb : post_body (body_of req_post_dangling) "Orphan" "No author" post_id)
    by (by repeat split).
  assert (Ht : JS.trim "Orphan" ≠ "") by (by vm_compute).
  assert (Hc : JS.trim "No author" ≠ "") by (by vm_compute).
  assert (Hu : castObjectId post_id = Some post_oid) by reflexivity.
  assert (Hf : posts db1 !! env_oid env1 = None) by reflexivity.
  exact (proj2 (create_then_delete env1 req_post_dangling (get other_id) db1 Hid)
           _ _ _ _ Hb Ht Hc Hu Hf).
Defined.

End MoreSamples.
